(** * CHIP-8 virtual machine: a shallow embedding of [chip8.cpp]

    The class [Chip8] of [chip8.h] becomes a record, every member function a
    function on that record.  Fixed-width integers are [Z] with the
    wrap-around of the C++ type written out; [std::array] is a list read and
    written by index, and an index outside the array (undefined behaviour in
    C++) is reported as a fault instead of being given a meaning. *)

From Stdlib Require Import ZArith Lia Bool List.
From stdpp Require Import base list.

Local Open Scope Z_scope.

(** ** Faults and the error monad *)

Inductive array_id := Memory | Registers | Stack | Gfx | Keys.

Inductive fault := OutOfBounds (a : array_id) (idx : Z).

Inductive result (A : Type) :=
| Done (a : A)
| Undefined (f : fault).

Arguments Done {A} a.
Arguments Undefined {A} f.

Definition bind {A B : Type} (r : result A) (k : A -> result B) : result B :=
  match r with
  | Done a => k a
  | Undefined f => Undefined f
  end.

Notation "x <- r ;; k" := (bind r (fun x => k))
  (at level 200, r at level 99, right associativity).

(** [a[i]] as an rvalue and [a[i] = v] on a [std::array]. *)
Definition rd {A : Type} (a : array_id) (l : list A) (i : Z) : result A :=
  if (0 <=? i) && (i <? Z.of_nat (length l)) then
    match l !! Z.to_nat i with
    | Some v => Done v
    | None => Undefined (OutOfBounds a i)
    end
  else Undefined (OutOfBounds a i).

Definition wr {A : Type} (a : array_id) (l : list A) (i : Z) (v : A)
  : result (list A) :=
  if (0 <=? i) && (i <? Z.of_nat (length l)) then Done (<[Z.to_nat i := v]> l)
  else Undefined (OutOfBounds a i).

(** [for (i = lo; ...; ++i) body], run for [count] iterations. *)
Fixpoint for_loop {S : Type} (count : nat) (lo : Z)
  (body : Z -> S -> result S) (s : S) : result S :=
  match count with
  | O => Done s
  | Datatypes.S c => s' <- body lo s ;; for_loop c (lo + 1) body s'
  end.

(** ** The machine state ([chip8.h]) *)

Record Chip8 := mkChip8 {
  gfx : list bool;          (* std::array<bool, 64 * 32> *)
  keys : list bool;         (* std::array<bool, 16> *)
  drawFlag : bool;
  beepFlag : bool;
  memory : list Z;          (* std::array<uint8_t, 4096> *)
  V : list Z;               (* std::array<uint8_t, 16> *)
  I : Z;                    (* uint16_t *)
  PC : Z;                   (* uint16_t *)
  stack : list Z;           (* std::array<uint16_t, 16> *)
  sp : Z;                   (* uint8_t *)
  delay_timer : Z;          (* uint8_t *)
  sound_timer : Z           (* uint8_t *)
}.

Definition set_gfx (v : list bool) (s : Chip8) : Chip8 :=
  mkChip8 v (keys s) (drawFlag s) (beepFlag s) (memory s) (V s) (I s) (PC s)
    (stack s) (sp s) (delay_timer s) (sound_timer s).
Definition set_keys (v : list bool) (s : Chip8) : Chip8 :=
  mkChip8 (gfx s) v (drawFlag s) (beepFlag s) (memory s) (V s) (I s) (PC s)
    (stack s) (sp s) (delay_timer s) (sound_timer s).
Definition set_drawFlag (v : bool) (s : Chip8) : Chip8 :=
  mkChip8 (gfx s) (keys s) v (beepFlag s) (memory s) (V s) (I s) (PC s)
    (stack s) (sp s) (delay_timer s) (sound_timer s).
Definition set_beepFlag (v : bool) (s : Chip8) : Chip8 :=
  mkChip8 (gfx s) (keys s) (drawFlag s) v (memory s) (V s) (I s) (PC s)
    (stack s) (sp s) (delay_timer s) (sound_timer s).
Definition set_memory (v : list Z) (s : Chip8) : Chip8 :=
  mkChip8 (gfx s) (keys s) (drawFlag s) (beepFlag s) v (V s) (I s) (PC s)
    (stack s) (sp s) (delay_timer s) (sound_timer s).
Definition set_V (v : list Z) (s : Chip8) : Chip8 :=
  mkChip8 (gfx s) (keys s) (drawFlag s) (beepFlag s) (memory s) v (I s) (PC s)
    (stack s) (sp s) (delay_timer s) (sound_timer s).
Definition set_I (v : Z) (s : Chip8) : Chip8 :=
  mkChip8 (gfx s) (keys s) (drawFlag s) (beepFlag s) (memory s) (V s) v (PC s)
    (stack s) (sp s) (delay_timer s) (sound_timer s).
Definition set_PC (v : Z) (s : Chip8) : Chip8 :=
  mkChip8 (gfx s) (keys s) (drawFlag s) (beepFlag s) (memory s) (V s) (I s) v
    (stack s) (sp s) (delay_timer s) (sound_timer s).
Definition set_stack (v : list Z) (s : Chip8) : Chip8 :=
  mkChip8 (gfx s) (keys s) (drawFlag s) (beepFlag s) (memory s) (V s) (I s)
    (PC s) v (sp s) (delay_timer s) (sound_timer s).
Definition set_sp (v : Z) (s : Chip8) : Chip8 :=
  mkChip8 (gfx s) (keys s) (drawFlag s) (beepFlag s) (memory s) (V s) (I s)
    (PC s) (stack s) v (delay_timer s) (sound_timer s).
Definition set_delay_timer (v : Z) (s : Chip8) : Chip8 :=
  mkChip8 (gfx s) (keys s) (drawFlag s) (beepFlag s) (memory s) (V s) (I s)
    (PC s) (stack s) (sp s) v (sound_timer s).
Definition set_sound_timer (v : Z) (s : Chip8) : Chip8 :=
  mkChip8 (gfx s) (keys s) (drawFlag s) (beepFlag s) (memory s) (V s) (I s)
    (PC s) (stack s) (sp s) (delay_timer s) v.

(** Wrap-around of the unsigned types. *)
Definition u8 (z : Z) : Z := z mod 256.
Definition u16 (z : Z) : Z := z mod 65536.

(** [V[x] = v], [memory[a] = v], [V[x]], [memory[a]]. *)
Definition set_reg (x v : Z) (s : Chip8) : result Chip8 :=
  V' <- wr Registers (V s) x v ;; Done (set_V V' s).
Definition get_reg (x : Z) (s : Chip8) : result Z := rd Registers (V s) x.
Definition set_mem (a v : Z) (s : Chip8) : result Chip8 :=
  m <- wr Memory (memory s) a v ;; Done (set_memory m s).
Definition get_mem (a : Z) (s : Chip8) : result Z := rd Memory (memory s) a.

(** ** [Chip8::initFont] and [Chip8::reset] *)

Definition font : list Z :=
  [ 0xF0; 0x90; 0x90; 0x90; 0xF0;
    0x20; 0x60; 0x20; 0x20; 0x70;
    0xF0; 0x10; 0xF0; 0x80; 0xF0;
    0xF0; 0x10; 0xF0; 0x10; 0xF0;
    0x90; 0x90; 0xF0; 0x10; 0x10;
    0xF0; 0x80; 0xF0; 0x10; 0xF0;
    0xF0; 0x80; 0xF0; 0x90; 0xF0;
    0xF0; 0x10; 0x20; 0x40; 0x40;
    0xF0; 0x90; 0xF0; 0x90; 0xF0;
    0xF0; 0x90; 0xF0; 0x10; 0xF0;
    0xF0; 0x90; 0xF0; 0x90; 0x90;
    0xE0; 0x90; 0xE0; 0x90; 0xE0;
    0xF0; 0x80; 0x80; 0x80; 0xF0;
    0xE0; 0x90; 0x90; 0x90; 0xE0;
    0xF0; 0x80; 0xF0; 0x80; 0xF0;
    0xF0; 0x80; 0xF0; 0x80; 0x80 ].

(** [dst[at + i] = src[i]] for [i = 0 .. src.size() - 1]: the loop of
    [initFont] and the block read of [loadROM].  Both callers keep
    [at + src.size()] within the 4096 bytes of [memory]. *)
Fixpoint store_from (at_ : nat) (src dst : list Z) : list Z :=
  match src with
  | [] => dst
  | b :: src' => store_from (S at_) src' (<[at_ := b]> dst)
  end.

Definition initFont (s : Chip8) : Chip8 :=
  set_memory (store_from (Z.to_nat 0x050) font (memory s)) s.

(** Every array is filled and every scalar assigned, so the state after
    [reset] does not depend on the state before it. *)
Definition reset (s : Chip8) : Chip8 :=
  initFont
    (mkChip8 (replicate (64 * 32) false) (replicate 16 false) false false
       (replicate 4096 0) (replicate 16 0) 0 0x200 (replicate 16 0) 0 0 0).

(** ** [Chip8::loadROM]

    The file named by [filename] is the argument: [None] when it cannot be
    opened, otherwise its bytes. *)
Definition loadROM (file : option (list Z)) (s : Chip8) : bool * Chip8 :=
  let s := reset s in
  match file with
  | None => (false, s)
  | Some bytes =>
      let size := Z.of_nat (length bytes) in
      if size >? 4096 - 0x200 then (false, s)
      else (true, set_memory (store_from (Z.to_nat 0x200) bytes (memory s)) s)
  end.

(** ** [Chip8::decrementTimers] *)

Definition decrementTimers (s : Chip8) : Chip8 :=
  let s := if delay_timer s >? 0
           then set_delay_timer (u8 (delay_timer s - 1)) s else s in
  if sound_timer s >? 0
  then set_beepFlag true (set_sound_timer (u8 (sound_timer s - 1)) s)
  else set_beepFlag false s.

(** ** [Chip8::emulateCycle] *)

(** [uint16_t opcode = (memory[PC] << 8) | memory[PC + 1];] *)
Definition fetch (s : Chip8) : result Z :=
  hi <- get_mem (PC s) s ;;
  lo <- get_mem (PC s + 1) s ;;
  Done (u16 (Z.lor (Z.shiftl hi 8) lo)).

(** [if (b) PC += 2;] *)
Definition skip_if (b : bool) (s : Chip8) : Chip8 :=
  if b then set_PC (u16 (PC s + 2)) s else s.

(** 00EE: [--sp; PC = stack[sp];] *)
Definition RET (s : Chip8) : result Chip8 :=
  let s := set_sp (u8 (sp s - 1)) s in
  a <- rd Stack (stack s) (sp s) ;;
  Done (set_PC a s).

(** 2nnn: [stack[sp] = PC; ++sp; PC = nnn;] *)
Definition CALL (nnn : Z) (s : Chip8) : result Chip8 :=
  st <- wr Stack (stack s) (sp s) (PC s) ;;
  let s := set_stack st s in
  let s := set_sp (u8 (sp s + 1)) s in
  Done (set_PC nnn s).

(** 8xy4: [uint16_t sum = V[x] + V[y]; V[x] = sum & 0xFF;
    V[0xF] = (sum > 0xFF) ? 1 : 0;] *)
Definition ADD_Vx_Vy (x y : Z) (s : Chip8) : result Chip8 :=
  vx <- get_reg x s ;;
  vy <- get_reg y s ;;
  let sum := u16 (vx + vy) in
  s <- set_reg x (Z.land sum 0xFF) s ;;
  set_reg 0xF (if sum >? 0xFF then 1 else 0) s.

(** 8xy5: [V[0xF] = (V[x] >= V[y]) ? 1 : 0; V[x] -= V[y];] *)
Definition SUB_Vx_Vy (x y : Z) (s : Chip8) : result Chip8 :=
  vx <- get_reg x s ;;
  vy <- get_reg y s ;;
  s <- set_reg 0xF (if vx >=? vy then 1 else 0) s ;;
  vx <- get_reg x s ;;
  vy <- get_reg y s ;;
  set_reg x (u8 (vx - vy)) s.

(** 8xy6: [V[0xF] = V[x] & 0x01; V[x] >>= 1;] *)
Definition SHR_Vx (x : Z) (s : Chip8) : result Chip8 :=
  vx <- get_reg x s ;;
  s <- set_reg 0xF (Z.land vx 0x01) s ;;
  vx <- get_reg x s ;;
  set_reg x (Z.shiftr vx 1) s.

(** 8xy7: [V[0xF] = (V[y] >= V[x]) ? 1 : 0; V[x] = V[y] - V[x];] *)
Definition SUBN_Vx_Vy (x y : Z) (s : Chip8) : result Chip8 :=
  vy <- get_reg y s ;;
  vx <- get_reg x s ;;
  s <- set_reg 0xF (if vy >=? vx then 1 else 0) s ;;
  vy <- get_reg y s ;;
  vx <- get_reg x s ;;
  set_reg x (u8 (vy - vx)) s.

(** 8xyE: [V[0xF] = (V[x] >> 7) & 0x01; V[x] <<= 1;] *)
Definition SHL_Vx (x : Z) (s : Chip8) : result Chip8 :=
  vx <- get_reg x s ;;
  s <- set_reg 0xF (Z.land (Z.shiftr vx 7) 0x01) s ;;
  vx <- get_reg x s ;;
  set_reg x (u8 (Z.shiftl vx 1)) s.

(** The body of the inner loop of Dxyn, for one [col]. *)
Definition draw_pixel (vx vy row sprite col : Z) (s : Chip8) : result Chip8 :=
  if negb (Z.land sprite (Z.shiftr 0x80 col) =? 0) then
    let idx := (vy + row) * 64 + (vx + col) in
    if idx <? 64 * 32 then
      (* Clip to screen *)
      p <- rd Gfx (gfx s) idx ;;
      s <- (if p then set_reg 0xF 1 s else Done s) ;;
      p <- rd Gfx (gfx s) idx ;;
      g <- wr Gfx (gfx s) idx (xorb p true) ;;
      Done (set_gfx g s)
    else Done s
  else Done s.

(** The body of the outer loop of Dxyn, for one [row]. *)
Definition draw_row (vx vy row : Z) (s : Chip8) : result Chip8 :=
  sprite <- get_mem (I s + row) s ;;
  for_loop 8 0 (draw_pixel vx vy row sprite) s.

(** The two loops of Dxyn for the origin ([vx], [vy]), then
    [drawFlag = true]. *)
Definition draw_sprite (vx vy n : Z) (s : Chip8) : result Chip8 :=
  s <- for_loop (Z.to_nat n) 0 (draw_row vx vy) s ;;
  Done (set_drawFlag true s).

(** Dxyn: [V[0xF] = 0; vx = V[x] % 64; vy = V[y] % 32;], then the loops. *)
Definition DRW (x y n : Z) (s : Chip8) : result Chip8 :=
  s <- set_reg 0xF 0 s ;;
  rx <- get_reg x s ;;
  let vx := rx mod 64 in
  ry <- get_reg y s ;;
  let vy := ry mod 32 in
  draw_sprite vx vy n s.

(** The body of the loop of Fx0A; the [bool] is [keyPressed]. *)
Definition scan_key (x i : Z) (st : Chip8 * bool) : result (Chip8 * bool) :=
  k <- rd Keys (keys (fst st)) i ;;
  if k : bool then s <- set_reg x i (fst st) ;; Done (s, true)
  else Done st.

(** Fx0A: the scan of the 16 keys, then [if (!keyPressed) PC -= 2;] *)
Definition LD_Vx_K (x : Z) (s : Chip8) : result Chip8 :=
  st <- for_loop 16 0 (scan_key x) (s, false) ;;
  Done (if negb (snd st) then set_PC (u16 (PC (fst st) - 2)) (fst st)
        else fst st).

(** Fx33: the three decimal digits of [V[x]]. *)
Definition LD_B_Vx (x : Z) (s : Chip8) : result Chip8 :=
  vx <- get_reg x s ;;
  s <- set_mem (I s) (vx / 100) s ;;
  vx <- get_reg x s ;;
  s <- set_mem (I s + 1) ((vx / 10) mod 10) s ;;
  vx <- get_reg x s ;;
  set_mem (I s + 2) (vx mod 10) s.

(** Fx55: [for (i = 0; i <= x; ++i) memory[I + i] = V[i]; I += x + 1;] *)
Definition LD_I_Vx (x : Z) (s : Chip8) : result Chip8 :=
  s <- for_loop (Z.to_nat (x + 1)) 0
         (fun i s => v <- get_reg i s ;; set_mem (I s + i) v s) s ;;
  Done (set_I (u16 (I s + (x + 1))) s).

(** Fx65: [for (i = 0; i <= x; ++i) V[i] = memory[I + i]; I += x + 1;] *)
Definition LD_Vx_I (x : Z) (s : Chip8) : result Chip8 :=
  s <- for_loop (Z.to_nat (x + 1)) 0
         (fun i s => v <- get_mem (I s + i) s ;; set_reg i v s) s ;;
  Done (set_I (u16 (I s + (x + 1))) s).

(** The [switch] of [emulateCycle], entered with [PC] already advanced.
    [rnd] is the byte that [dist(gen)] yields should the opcode be Cxnn. *)
Definition execute (rnd opcode : Z) (s : Chip8) : result Chip8 :=
  let x := Z.shiftr (Z.land opcode 0x0F00) 8 in
  let y := Z.shiftr (Z.land opcode 0x00F0) 4 in
  let n := Z.land opcode 0x000F in
  let nn := Z.land opcode 0x00FF in
  let nnn := Z.land opcode 0x0FFF in
  match Z.land opcode 0xF000 with
  | 0x0000 =>
      if opcode =? 0x00E0 then                                   (* CLS *)
        Done (set_drawFlag true (set_gfx (replicate (length (gfx s)) false) s))
      else if opcode =? 0x00EE then RET s                        (* RET *)
      else Done s                                                (* 0NNN *)
  | 0x1000 => Done (set_PC nnn s)                                (* JP addr *)
  | 0x2000 => CALL nnn s                                         (* CALL addr *)
  | 0x3000 =>                                                    (* SE Vx, byte *)
      vx <- get_reg x s ;; Done (skip_if (vx =? nn) s)
  | 0x4000 =>                                                    (* SNE Vx, byte *)
      vx <- get_reg x s ;; Done (skip_if (negb (vx =? nn)) s)
  | 0x5000 =>                                                    (* SE Vx, Vy *)
      vx <- get_reg x s ;; vy <- get_reg y s ;; Done (skip_if (vx =? vy) s)
  | 0x6000 => set_reg x nn s                                     (* LD Vx, byte *)
  | 0x7000 =>                                                    (* ADD Vx, byte *)
      vx <- get_reg x s ;; set_reg x (u8 (vx + nn)) s
  | 0x8000 =>
      match n with
      | 0x0 => vy <- get_reg y s ;; set_reg x vy s               (* LD Vx, Vy *)
      | 0x1 =>                                                   (* OR Vx, Vy *)
          vx <- get_reg x s ;; vy <- get_reg y s ;; set_reg x (Z.lor vx vy) s
      | 0x2 =>                                                   (* AND Vx, Vy *)
          vx <- get_reg x s ;; vy <- get_reg y s ;; set_reg x (Z.land vx vy) s
      | 0x3 =>                                                   (* XOR Vx, Vy *)
          vx <- get_reg x s ;; vy <- get_reg y s ;; set_reg x (Z.lxor vx vy) s
      | 0x4 => ADD_Vx_Vy x y s
      | 0x5 => SUB_Vx_Vy x y s
      | 0x6 => SHR_Vx x s
      | 0x7 => SUBN_Vx_Vy x y s
      | 0xE => SHL_Vx x s
      | _ => Done s
      end
  | 0x9000 =>                                                    (* SNE Vx, Vy *)
      vx <- get_reg x s ;; vy <- get_reg y s ;;
      Done (skip_if (negb (vx =? vy)) s)
  | 0xA000 => Done (set_I nnn s)                                 (* LD I, addr *)
  | 0xB000 =>                                                    (* JP V0, addr *)
      v0 <- get_reg 0 s ;; Done (set_PC (u16 (nnn + v0)) s)
  | 0xC000 => set_reg x (Z.land rnd nn) s                        (* RND Vx, byte *)
  | 0xD000 => DRW x y n s                                        (* DRW Vx, Vy, n *)
  | 0xE000 =>
      if nn =? 0x9E then                                         (* SKP Vx *)
        vx <- get_reg x s ;; k <- rd Keys (keys s) vx ;; Done (skip_if k s)
      else if nn =? 0xA1 then                                    (* SKNP Vx *)
        vx <- get_reg x s ;; k <- rd Keys (keys s) vx ;;
        Done (skip_if (negb k) s)
      else Done s
  | 0xF000 =>
      match nn with
      | 0x07 => set_reg x (delay_timer s) s                      (* LD Vx, DT *)
      | 0x0A => LD_Vx_K x s                                      (* LD Vx, K *)
      | 0x15 =>                                                  (* LD DT, Vx *)
          vx <- get_reg x s ;; Done (set_delay_timer vx s)
      | 0x18 =>                                                  (* LD ST, Vx *)
          vx <- get_reg x s ;; Done (set_sound_timer vx s)
      | 0x1E =>                                                  (* ADD I, Vx *)
          vx <- get_reg x s ;; Done (set_I (u16 (I s + vx)) s)
      | 0x29 =>                                                  (* LD F, Vx *)
          vx <- get_reg x s ;;
          Done (set_I (0x050 + Z.land vx 0x0F * 5) s)
      | 0x33 => LD_B_Vx x s                                      (* LD B, Vx *)
      | 0x55 => LD_I_Vx x s                                      (* LD [I], Vx *)
      | 0x65 => LD_Vx_I x s                                      (* LD Vx, [I] *)
      | _ => Done s
      end
  | _ => Done s
  end.

(** Fetch, [PC += 2], decode and execute. *)
Definition emulateCycle (rnd : Z) (s : Chip8) : result Chip8 :=
  opcode <- fetch s ;;
  execute rnd opcode (set_PC (u16 (PC s + 2)) s).

(** [n] cycles, every one drawing the random byte [rnd]. *)
Fixpoint run (n : nat) (rnd : Z) (s : Chip8) : result Chip8 :=
  match n with
  | O => Done s
  | Datatypes.S m => s' <- emulateCycle rnd s ;; run m rnd s'
  end.

(** [Chip8::Chip8]: the default member initialisers, then [initFont]. *)
Definition Chip8_new : Chip8 :=
  initFont
    (mkChip8 (replicate (64 * 32) false) (replicate 16 false) false false
       (replicate 4096 0) (replicate 16 0) 0 0x200 (replicate 16 0) 0 0 0).

(** ** Well-formed states: the sizes and value ranges of the C++ types *)

Definition is_u8 (z : Z) : bool := (0 <=? z) && (z <? 256).
Definition is_u16 (z : Z) : bool := (0 <=? z) && (z <? 65536).

Record wf (s : Chip8) : Prop := mk_wf {
  wf_gfx : length (gfx s) = 2048%nat;
  wf_keys : length (keys s) = 16%nat;
  wf_memory : length (memory s) = 4096%nat;
  wf_memory_u8 : forallb is_u8 (memory s) = true;
  wf_V : length (V s) = 16%nat;
  wf_V_u8 : forallb is_u8 (V s) = true;
  wf_stack : length (stack s) = 16%nat;
  wf_stack_u16 : forallb is_u16 (stack s) = true;
  wf_I : is_u16 (I s) = true;
  wf_PC : is_u16 (PC s) = true;
  wf_sp : is_u8 (sp s) = true;
  wf_delay_timer : is_u8 (delay_timer s) = true;
  wf_sound_timer : is_u8 (sound_timer s) = true
}.

(** Total readers, for statements: [V[x]], [memory[a]], [gfx[i]]. *)
Definition reg (s : Chip8) (x : Z) : Z := V s !!! Z.to_nat x.
Definition mem (s : Chip8) (a : Z) : Z := memory s !!! Z.to_nat a.
Definition pixel (s : Chip8) (i : Z) : bool := gfx s !!! Z.to_nat i.
Definition key (s : Chip8) (i : Z) : bool := keys s !!! Z.to_nat i.

(** The state after a successful [V[x] = v]. *)
Definition upd_reg (x v : Z) (s : Chip8) : Chip8 :=
  set_V (<[Z.to_nat x := v]> (V s)) s.

(** The opcode word with nibbles [c], [x], [y], [n] (most significant
    first), as the spec writes opcodes: 8xy4 is [opc 8 x y 4]. *)
Definition opc (c x y n : Z) : Z := c * 4096 + x * 256 + y * 16 + n.

(** The state a program reaches: [rom] loaded into a new machine, then
    [n] cycles (the machine as constructed, should a cycle fault). *)
Definition boot (rom : list Z) : Chip8 := snd (loadROM (Some rom) Chip8_new).
Definition after (n : nat) (rom : list Z) : Chip8 :=
  match run n 0 (boot rom) with
  | Done s => s
  | Undefined _ => Chip8_new
  end.

(** [n] calls of [decrementTimers] in a row. *)
Definition ticks (n : nat) (s : Chip8) : Chip8 := Nat.iter n decrementTimers s.

(** The host's [chip8.keys[k] = pressed] ([main.cpp]): a write into the
    16 key flags, undefined for any other [k]. *)
Definition set_key (k : Z) (pressed : bool) (s : Chip8) : result Chip8 :=
  ks <- wr Keys (keys s) k pressed ;; Done (set_keys ks s).

(** The state after a successful [keys[k] = pressed]. *)
Definition upd_key (k : Z) (pressed : bool) (s : Chip8) : Chip8 :=
  set_keys (<[Z.to_nat k := pressed]> (keys s)) s.

(** The highest index in [lo, lo + cnt) whose key flag is set, if any. *)
Fixpoint highest_pressed (cnt : nat) (lo : Z) (ks : list bool) : option Z :=
  match cnt with
  | O => None
  | Datatypes.S c =>
      match highest_pressed c (lo + 1) ks with
      | Some k => Some k
      | None => if ks !!! Z.to_nat lo : bool then Some lo else None
      end
  end.

(** Dxyn as the specification words it, for comparison with [draw_sprite]:
    a set sprite bit is XORed into the display when its target coordinate
    (vx + col, vy + row) lies within the 64 x 32 bounds, and dropped
    otherwise. *)
Definition clipped_pixel (vx vy row sprite col : Z) (s : Chip8)
  : result Chip8 :=
  if negb (Z.land sprite (Z.shiftr 0x80 col) =? 0) then
    if (vx + col <? 64) && (vy + row <? 32) then
      let idx := (vy + row) * 64 + (vx + col) in
      p <- rd Gfx (gfx s) idx ;;
      s <- (if p then set_reg 0xF 1 s else Done s) ;;
      g <- wr Gfx (gfx s) idx (xorb p true) ;;
      Done (set_gfx g s)
    else Done s
  else Done s.

Definition clipped_row (vx vy row : Z) (s : Chip8) : result Chip8 :=
  sprite <- get_mem (I s + row) s ;;
  for_loop 8 0 (clipped_pixel vx vy row sprite) s.

Definition clipped_sprite (vx vy n : Z) (s : Chip8) : result Chip8 :=
  s <- for_loop (Z.to_nat n) 0 (clipped_row vx vy) s ;;
  Done (set_drawFlag true s).

(** The display of a result, empty should the cycle fault. *)
Definition display (r : result Chip8) : list bool :=
  match r with
  | Done s => gfx s
  | Undefined _ => []
  end.

(** [wf] as a computation. *)
Definition wfb (s : Chip8) : bool :=
  (length (gfx s) =? 2048)%nat && (length (keys s) =? 16)%nat
  && (length (memory s) =? 4096)%nat && forallb is_u8 (memory s)
  && (length (V s) =? 16)%nat && forallb is_u8 (V s)
  && (length (stack s) =? 16)%nat && forallb is_u16 (stack s)
  && is_u16 (I s) && is_u16 (PC s) && is_u8 (sp s)
  && is_u8 (delay_timer s) && is_u8 (sound_timer s).

(** Programs used as concrete inputs. *)
Module Rom.
(** LD V0,200; LD V1,100; ADD V0,V1 *)
Definition add_v0_v1 : list Z := [0x60; 200; 0x61; 100; 0x80; 0x14].
(** LD VF,5; LD V0,3; ADD VF,V0 *)
Definition add_vf_v0 : list Z := [0x6F; 5; 0x60; 3; 0x8F; 0x04].
(** LD V0,5; LD V1,3; SUB V0,V1 *)
Definition sub_v0_v1 : list Z := [0x60; 5; 0x61; 3; 0x80; 0x15].
(** LD VF,5; LD V0,3; SUB VF,V0 *)
Definition sub_vf_v0 : list Z := [0x6F; 5; 0x60; 3; 0x8F; 0x05].
(** LD V0,5; LD VF,3; SUB V0,VF *)
Definition sub_v0_vf : list Z := [0x60; 5; 0x6F; 3; 0x80; 0xF5].
(** LD V0,1; LD ST,V0 *)
Definition beep_once : list Z := [0x60; 1; 0xF0; 0x18].
(** LD V0,3; LD DT,V0; LD ST,V0 *)
Definition timers_3 : list Z := [0x60; 3; 0xF0; 0x15; 0xF0; 0x18].
(** 0x200: CALL 0x204; 0x204: RET *)
Definition call_ret : list Z := [0x22; 0x04; 0x00; 0x00; 0x00; 0xEE].
(** RET, on the empty stack *)
Definition ret_first : list Z := [0x00; 0xEE].
(** 0x200: CALL 0x200 *)
Definition call_self : list Z := [0x22; 0x00].
(** CLS; LD V0,K *)
Definition wait_key : list Z := [0x00; 0xE0; 0xF0; 0x0A].
(** LD V0,0x11; LD V1,0x22; LD V2,0x33; LD I,0x300; LD [I],V2 *)
Definition store_v0_v2 : list Z :=
  [0x60; 0x11; 0x61; 0x22; 0x62; 0x33; 0xA3; 0x00; 0xF2; 0x55].
(** LD VF,42; LD V0,0; LD I,0x208; DRW VF,V0,1; sprite row 0x80 *)
Definition draw_at_vf : list Z :=
  [0x6F; 42; 0x60; 0; 0xA2; 0x08; 0xDF; 0x01; 0x80].
(** LD V0,60; LD V1,0; LD I,0x208; DRW V0,V1,1; sprite row 0xFF *)
Definition draw_right_edge : list Z :=
  [0x60; 60; 0x61; 0; 0xA2; 0x08; 0xD0; 0x11; 0xFF].
End Rom.

(** ** Notions used by the further properties *)

(** One cycle per element of [rnds], each cycle drawing its own random
    byte (the generator of Cxnn yields a new byte at every draw). *)
Fixpoint cycles (rnds : list Z) (s : Chip8) : result Chip8 :=
  match rnds with
  | [] => Done s
  | rnd :: rest => s' <- emulateCycle rnd s ;; cycles rest s'
  end.

(** What a cycle keeps of the state [s0] it started from: the sizes and
    ranges of [wf], the key flags, the beep flag, and a draw flag once
    raised. *)
Record kept (s0 s : Chip8) : Prop := mk_kept {
  kept_wf : wf s;
  kept_keys : keys s = keys s0;
  kept_beepFlag : beepFlag s = beepFlag s0;
  kept_drawFlag : drawFlag s0 = true -> drawFlag s = true
}.

(** [gfx[idx] ^= true]. *)
Definition toggle (g : list bool) (idx : Z) : list bool :=
  <[Z.to_nat idx := negb (g !!! Z.to_nat idx)]> g.

(** The test [(sprite & (0x80 >> col)) != 0] of Dxyn. *)
Definition lit (sprite col : Z) : bool :=
  negb (Z.land sprite (Z.shiftr 0x80 col) =? 0).

(** The display cells that the inner loop of Dxyn toggles for the columns
    [lo .. lo + cnt - 1] of one sprite row, in the order of the loop. *)
Fixpoint cols_cells (cnt : nat) (lo vx vy row sprite : Z) : list Z :=
  match cnt with
  | O => []
  | Datatypes.S c =>
      (if lit sprite lo && ((vy + row) * 64 + (vx + lo) <? 64 * 32)
       then [(vy + row) * 64 + (vx + lo)] else [])
      ++ cols_cells c (lo + 1) vx vy row sprite
  end.

(** The same for the rows [lo .. lo + cnt - 1] of the sprite at [m[i ..]]. *)
Fixpoint rows_cells (cnt : nat) (lo vx vy : Z) (m : list Z) (i : Z) : list Z :=
  match cnt with
  | O => []
  | Datatypes.S c =>
      cols_cells 8 0 vx vy lo (m !!! Z.to_nat (i + lo))
      ++ rows_cells c (lo + 1) vx vy m i
  end.

(** Whether toggling [cells] one after the other finds a cell that is on. *)
Fixpoint collides (g : list bool) (cells : list Z) : bool :=
  match cells with
  | [] => false
  | c :: cs => (g !!! Z.to_nat c) || collides (toggle g c) cs
  end.

(** The state after toggling [cells]: the display, and [V[0xF] = 1] on a
    collision. *)
Definition drawn (cells : list Z) (s : Chip8) : Chip8 :=
  set_gfx (foldl toggle (gfx s) cells)
    (if collides (gfx s) cells then upd_reg 0xF 1 s else s).

(** [V[r] % m] as Dxyn reads it, after [V[0xF] = 0]. *)
Definition origin (s : Chip8) (r m : Z) : Z :=
  if r =? 0xF then 0 else reg s r mod m.

(** The cells that Dxyn toggles in state [s]. *)
Definition sprite_cells (x y n : Z) (s : Chip8) : list Z :=
  rows_cells (Z.to_nat n) 0 (origin s x 64) (origin s y 32) (memory s) (I s).

(** ** The host's keyboard ([main.cpp]) *)

(** The [switch] of [Chip8Canvas::MapKey] on the key code, [-1] when the
    key is not mapped. *)
Definition key_for (code : Z) : Z :=
  match code with
  | 49 => 0x1    (* '1' *)
  | 50 => 0x2    (* '2' *)
  | 51 => 0x3    (* '3' *)
  | 52 => 0xC    (* '4' *)
  | 81 => 0x4    (* 'Q' *)
  | 87 => 0x5    (* 'W' *)
  | 69 => 0x6    (* 'E' *)
  | 82 => 0xD    (* 'R' *)
  | 65 => 0x7    (* 'A' *)
  | 83 => 0x8    (* 'S' *)
  | 68 => 0x9    (* 'D' *)
  | 70 => 0xE    (* 'F' *)
  | 90 => 0xA    (* 'Z' *)
  | 88 => 0x0    (* 'X' *)
  | 67 => 0xB    (* 'C' *)
  | 86 => 0xF    (* 'V' *)
  | _ => -1
  end.

(** [Chip8Canvas::MapKey]: [if (key != -1) chip8.keys[key] = pressed;] *)
Definition MapKey (code : Z) (pressed : bool) (s : Chip8) : result Chip8 :=
  let key := key_for code in
  if negb (key =? -1) then
    ks <- wr Keys (keys s) key pressed ;; Done (set_keys ks s)
  else Done s.

(** More programs used as concrete inputs. *)
Module Demo.
(** LD I,0xFFF; DRW V0,V0,2 *)
Definition draw_past_end : list Z := [0xAF; 0xFF; 0xD0; 0x02].
(** LD I,0x206; DRW V0,V1,1; DRW V0,V1,1; sprite row 0xFF *)
Definition draw_twice : list Z := [0xA2; 0x06; 0xD0; 0x11; 0xD0; 0x11; 0xFF].
(** LD I,0x204; LD V2,[I]; data 0x11 0x22 0x33 *)
Definition load_v0_v2 : list Z := [0xA2; 0x04; 0xF2; 0x65; 0x11; 0x22; 0x33].
(** LD V0,0x11; LD V1,0x22; LD I,0x300; LD [I],V1; LD V0,0; LD V1,0;
    LD I,0x300; LD V1,[I] *)
Definition store_load : list Z :=
  [0x60; 0x11; 0x61; 0x22; 0xA3; 0x00; 0xF1; 0x55;
   0x60; 0x00; 0x61; 0x00; 0xA3; 0x00; 0xF1; 0x65].
(** LD V0,254; LD I,0x300; LD B,V0 *)
Definition bcd_254 : list Z := [0x60; 0xFE; 0xA3; 0x00; 0xF0; 0x33].
(** LD V0,7; SKP V0 *)
Definition skip_key_7 : list Z := [0x60; 0x07; 0xE0; 0x9E].
(** LD V0,0x20; SKP V0 *)
Definition skip_key_32 : list Z := [0x60; 0x20; 0xE0; 0x9E].
(** JP 0xFFF *)
Definition jump_to_end : list Z := [0x1F; 0xFF].
(** LD V0,5; SHR V0 *)
Definition shr_5 : list Z := [0x60; 0x05; 0x80; 0x06].
(** LD V0,5; LD V1,3; SUBN V0,V1 *)
Definition subn_v0_v1 : list Z := [0x60; 5; 0x61; 3; 0x80; 0x17].
(** LD V0,3; LD DT,V0; LD V1,DT *)
Definition delay_3 : list Z := [0x60; 0x03; 0xF0; 0x15; 0xF1; 0x07].
(** opcode 0x0000 *)
Definition sys_0 : list Z := [0x00; 0x00].
(** RND V0,0x0F *)
Definition rnd_0f : list Z := [0xC0; 0x0F].
(** LD I,0xFFF; LD [I],V1 *)
Definition store_past_end : list Z := [0xAF; 0xFF; 0xF1; 0x55].
(** SE V0,0 *)
Definition se_v0_0 : list Z := [0x30; 0x00].
(** LD F,V0 *)
Definition glyph_0 : list Z := [0xF0; 0x29].
(** ADD V0,0xFF *)
Definition add_ff : list Z := [0x70; 0xFF].
(** LD V0,0x0C; LD V1,0x0A; OR V0,V1 *)
Definition or_v0_v1 : list Z := [0x60; 0x0C; 0x61; 0x0A; 0x80; 0x11].
(** JP V0,0xFFF *)
Definition jump_offset : list Z := [0xBF; 0xFF].
(** RND V0,0xFF; RND V1,0xFF *)
Definition rnd_twice : list Z := [0xC0; 0xFF; 0xC1; 0xFF].
End Demo.

(** [Demo.rnd_twice] after its two cycles, the generator yielding 0x12 and
    then 0x34 (the machine as constructed, should a cycle fault). *)
Definition rnd_twice_end : Chip8 :=
  match cycles [0x12; 0x34] (boot Demo.rnd_twice) with
  | Done s => s
  | Undefined _ => Chip8_new
  end.

(** * Properties *)

Lemma wfb_wf (s : Chip8) : wfb s = true -> wf s.
Proof.
  unfold wfb. rewrite !andb_true_iff, !Nat.eqb_eq. intuition (now constructor).
Qed.

(** ** Bit fields of an opcode *)

Lemma land_shiftl_mask (a m k : Z) :
  0 <= k -> Z.land a (Z.shiftl m k) = Z.shiftl (Z.land (Z.shiftr a k) m) k.
Proof.
  intros Hk. apply Z.bits_inj'. intros i Hi.
  rewrite Z.land_spec, !Z.shiftl_spec by assumption.
  rewrite Z.land_spec.
  destruct (Z.ltb_spec i k) as [Hlt | Hge].
  - rewrite (Z.testbit_neg_r m) by lia. now rewrite !andb_false_r.
  - rewrite Z.shiftr_spec by lia. now replace (i - k + k) with i by lia.
Qed.

Lemma land_field (a w k : Z) :
  0 <= w -> 0 <= k ->
  Z.land a (Z.shiftl (Z.ones w) k) = (a / 2 ^ k) mod 2 ^ w * 2 ^ k.
Proof.
  intros Hw Hk. rewrite land_shiftl_mask by assumption.
  now rewrite Z.shiftl_mul_pow2, Z.land_ones, Z.shiftr_div_pow2.
Qed.

Lemma decode_class (op : Z) : Z.land op 0xF000 = op / 4096 mod 16 * 4096.
Proof. exact (land_field op 4 12 ltac:(lia) ltac:(lia)). Qed.

Lemma decode_x (op : Z) : Z.shiftr (Z.land op 0x0F00) 8 = op / 256 mod 16.
Proof.
  change 0x0F00 with (Z.shiftl (Z.ones 4) 8).
  rewrite land_field, Z.shiftr_div_pow2 by lia.
  change (2 ^ 8) with 256. change (2 ^ 4) with 16.
  now rewrite Z.div_mul.
Qed.

Lemma decode_y (op : Z) : Z.shiftr (Z.land op 0x00F0) 4 = op / 16 mod 16.
Proof.
  change 0x00F0 with (Z.shiftl (Z.ones 4) 4).
  rewrite land_field, Z.shiftr_div_pow2 by lia.
  change (2 ^ 4) with 16.
  now rewrite Z.div_mul.
Qed.

Lemma decode_n (op : Z) : Z.land op 0x000F = op mod 16.
Proof. exact (Z.land_ones op 4 ltac:(lia)). Qed.

Lemma decode_nn (op : Z) : Z.land op 0x00FF = op mod 256.
Proof. exact (Z.land_ones op 8 ltac:(lia)). Qed.

Lemma decode_nnn (op : Z) : Z.land op 0x0FFF = op mod 4096.
Proof. exact (Z.land_ones op 12 ltac:(lia)). Qed.

Section Decode.
Variables c x y n : Z.
Hypothesis Hc : 0 <= c < 16.
Hypothesis Hx : 0 <= x < 16.
Hypothesis Hy : 0 <= y < 16.
Hypothesis Hn : 0 <= n < 16.

Ltac fields := unfold opc; Z.div_mod_to_equations; lia.

Lemma opc_class : Z.land (opc c x y n) 0xF000 = c * 4096.
Proof. rewrite decode_class. fields. Qed.

Lemma opc_x : Z.shiftr (Z.land (opc c x y n) 0x0F00) 8 = x.
Proof. rewrite decode_x. fields. Qed.

Lemma opc_y : Z.shiftr (Z.land (opc c x y n) 0x00F0) 4 = y.
Proof. rewrite decode_y. fields. Qed.

Lemma opc_n : Z.land (opc c x y n) 0x000F = n.
Proof. rewrite decode_n. fields. Qed.

Lemma opc_nn : Z.land (opc c x y n) 0x00FF = y * 16 + n.
Proof. rewrite decode_nn. fields. Qed.

Lemma opc_nnn : Z.land (opc c x y n) 0x0FFF = x * 256 + y * 16 + n.
Proof. rewrite decode_nnn. fields. Qed.
End Decode.

(** ** Array accesses within bounds *)

Lemma rd_Done {A : Type} `{Inhabited A} (a : array_id) (l : list A) (i : Z) :
  0 <= i < Z.of_nat (length l) -> rd a l i = Done (l !!! Z.to_nat i).
Proof.
  intros Hi. unfold rd.
  replace ((0 <=? i) && (i <? Z.of_nat (length l))) with true by lia.
  destruct (lookup_lt_is_Some_2 l (Z.to_nat i)) as [v Hv]; [lia|].
  rewrite Hv. f_equal. symmetry. now apply list_lookup_total_correct.
Qed.

Lemma rd_Undefined {A : Type} (a : array_id) (l : list A) (i : Z) :
  ~ 0 <= i < Z.of_nat (length l) -> rd a l i = Undefined (OutOfBounds a i).
Proof.
  intros Hi. unfold rd.
  now replace ((0 <=? i) && (i <? Z.of_nat (length l))) with false by lia.
Qed.

Lemma wr_Done {A : Type} (a : array_id) (l : list A) (i : Z) (v : A) :
  0 <= i < Z.of_nat (length l) -> wr a l i v = Done (<[Z.to_nat i := v]> l).
Proof.
  intros Hi. unfold wr.
  now replace ((0 <=? i) && (i <? Z.of_nat (length l))) with true by lia.
Qed.

Lemma wr_Undefined {A : Type} (a : array_id) (l : list A) (i : Z) (v : A) :
  ~ 0 <= i < Z.of_nat (length l) -> wr a l i v = Undefined (OutOfBounds a i).
Proof.
  intros Hi. unfold wr.
  now replace ((0 <=? i) && (i <? Z.of_nat (length l))) with false by lia.
Qed.

Lemma get_reg_Done (x : Z) (s : Chip8) :
  length (V s) = 16%nat -> 0 <= x < 16 -> get_reg x s = Done (reg s x).
Proof. intros HV Hx. unfold get_reg, reg. apply rd_Done. lia. Qed.

Lemma set_reg_Done (x v : Z) (s : Chip8) :
  length (V s) = 16%nat -> 0 <= x < 16 -> set_reg x v s = Done (upd_reg x v s).
Proof. intros HV Hx. unfold set_reg. now rewrite wr_Done by lia. Qed.

Lemma length_upd_reg (x v : Z) (s : Chip8) :
  length (V (upd_reg x v s)) = length (V s).
Proof. apply length_insert. Qed.

Lemma reg_upd_reg (x v x' : Z) (s : Chip8) :
  length (V s) = 16%nat -> 0 <= x < 16 -> 0 <= x' ->
  reg (upd_reg x v s) x' = if x' =? x then v else reg s x'.
Proof.
  intros HV Hx Hx'. unfold reg, upd_reg. cbn [V set_V].
  destruct (Z.eqb_spec x' x) as [-> | Hne].
  - apply list_lookup_total_insert_eq. lia.
  - apply list_lookup_total_insert_ne. lia.
Qed.

Lemma forallb_lookup_total (P : Z -> bool) (l : list Z) (i : nat) :
  forallb P l = true -> (i < length l)%nat -> P (l !!! i) = true.
Proof.
  intros Hall Hi. rewrite forallb_forall in Hall. apply Hall.
  apply list_elem_of_In. now apply list_elem_of_lookup_total_2.
Qed.

Lemma is_u8_range (z : Z) : is_u8 z = true <-> 0 <= z < 256.
Proof. unfold is_u8. lia. Qed.

Lemma is_u16_range (z : Z) : is_u16 z = true <-> 0 <= z < 65536.
Proof. unfold is_u16. lia. Qed.

Lemma reg_u8 (s : Chip8) (x : Z) : wf s -> 0 <= x < 16 -> 0 <= reg s x < 256.
Proof.
  intros Hwf Hx. apply is_u8_range.
  apply forallb_lookup_total; [apply Hwf|]. rewrite (wf_V _ Hwf). lia.
Qed.

(** ** Dispatch of the opcodes studied below *)

Lemma emulateCycle_fetched (rnd op : Z) (s : Chip8) :
  fetch s = Done op ->
  emulateCycle rnd s = execute rnd op (set_PC (u16 (PC s + 2)) s).
Proof. intros Hf. unfold emulateCycle. now rewrite Hf. Qed.

Lemma fetch_in_memory (s : Chip8) (op : Z) :
  fetch s = Done op -> 0 <= PC s /\ PC s + 1 < Z.of_nat (length (memory s)).
Proof.
  unfold fetch, get_mem. intros Hf.
  destruct (Z.le_gt_cases 0 (PC s)) as [Hlo | Hlo];
    [destruct (Z.lt_ge_cases (PC s + 1) (Z.of_nat (length (memory s))))
       as [Hhi | Hhi]; [lia|] |].
  - destruct (rd Memory (memory s) (PC s)); [|discriminate]. cbn [bind] in Hf.
    rewrite rd_Undefined in Hf by lia. discriminate.
  - rewrite rd_Undefined in Hf by lia. discriminate.
Qed.

Lemma advanced_PC (s : Chip8) (op : Z) :
  wf s -> fetch s = Done op -> u16 (PC s + 2) = PC s + 2.
Proof.
  intros Hwf Hf. apply fetch_in_memory in Hf. rewrite (wf_memory s Hwf) in Hf.
  unfold u16. apply Z.mod_small. lia.
Qed.

Lemma execute_00EE (rnd : Z) (s : Chip8) : execute rnd 0x00EE s = RET s.
Proof. reflexivity. Qed.

Lemma execute_2nnn (rnd a b c : Z) (s : Chip8) :
  0 <= a < 16 -> 0 <= b < 16 -> 0 <= c < 16 ->
  execute rnd (opc 2 a b c) s = CALL (a * 256 + b * 16 + c) s.
Proof.
  intros Ha Hb Hc. unfold execute.
  rewrite opc_class, opc_nnn by lia. reflexivity.
Qed.

Section Dispatch.
Variables (rnd x y : Z) (s : Chip8).
Hypothesis Hx : 0 <= x < 16.
Hypothesis Hy : 0 <= y < 16.

Ltac dispatch :=
  unfold execute;
  rewrite ?opc_class, ?opc_x, ?opc_y, ?opc_n, ?opc_nn, ?opc_nnn by lia;
  reflexivity.

Lemma execute_8xy4 : execute rnd (opc 8 x y 4) s = ADD_Vx_Vy x y s.
Proof. dispatch. Qed.

Lemma execute_8xy5 : execute rnd (opc 8 x y 5) s = SUB_Vx_Vy x y s.
Proof. dispatch. Qed.

Lemma execute_Fx0A : execute rnd (opc 0xF x 0 0xA) s = LD_Vx_K x s.
Proof. dispatch. Qed.

Lemma execute_Fx55 : execute rnd (opc 0xF x 5 5) s = LD_I_Vx x s.
Proof. dispatch. Qed.

Lemma execute_Dxyn (n : Z) :
  0 <= n < 16 -> execute rnd (opc 0xD x y n) s = DRW x y n s.
Proof. intros Hn. dispatch. Qed.

Lemma execute_Fx18 :
  execute rnd (opc 0xF x 1 8) s =
  (vx <- get_reg x s ;; Done (set_sound_timer vx s)).
Proof. dispatch. Qed.
End Dispatch.

(** ** 8xy4: add with carry *)

Lemma ADD_Vx_Vy_Done (x y : Z) (s : Chip8) :
  length (V s) = 16%nat -> 0 <= x < 16 -> 0 <= y < 16 ->
  ADD_Vx_Vy x y s =
  Done (upd_reg 0xF (if u16 (reg s x + reg s y) >? 0xFF then 1 else 0)
          (upd_reg x (Z.land (u16 (reg s x + reg s y)) 0xFF) s)).
Proof.
  intros HV Hx Hy. unfold ADD_Vx_Vy.
  rewrite !get_reg_Done by assumption. cbn [bind].
  rewrite set_reg_Done by assumption. cbn [bind].
  now rewrite set_reg_Done by (rewrite ?length_upd_reg; lia).
Qed.

(** C3 (amended): a cycle that executes 8xy4 leaves VF = 1 exactly when the
    sum of the old Vx and Vy exceeds 255, and VF = 0 otherwise, for all x and
    y (x = y and x = 0xF included); Vx holds the sum modulo 256 whenever x is
    not 0xF.  For x = 0xF the flag, written last, is what VF holds. *)
Theorem add_carry_flag (rnd : Z) (s : Chip8) (x y : Z) :
  wf s -> 0 <= x < 16 -> 0 <= y < 16 ->
  fetch s = Done (opc 8 x y 4) ->
  exists s', emulateCycle rnd s = Done s' /\
    (reg s' 0xF = 1 <-> reg s x + reg s y > 255) /\
    (reg s' 0xF = 0 <-> reg s x + reg s y <= 255) /\
    (x <> 0xF -> reg s' x = (reg s x + reg s y) mod 256).
Proof.
  intros Hwf Hx Hy Hf.
  pose proof (reg_u8 s x Hwf Hx) as Bx. pose proof (reg_u8 s y Hwf Hy) as By.
  pose proof (wf_V s Hwf) as HV.
  rewrite (emulateCycle_fetched rnd _ s Hf), execute_8xy4 by assumption.
  rewrite ADD_Vx_Vy_Done by assumption.
  change (reg (set_PC (u16 (PC s + 2)) s)) with (reg s).
  assert (Hsum : u16 (reg s x + reg s y) = reg s x + reg s y)
    by (unfold u16; apply Z.mod_small; lia).
  rewrite Hsum. eexists. split; [reflexivity|].
  rewrite !reg_upd_reg by (rewrite ?length_upd_reg; cbn [V set_PC]; lia).
  rewrite Z.eqb_refl, decode_nn.
  repeat split; try (destruct (Z.gtb_spec (reg s x + reg s y) 255); lia).
  intros Hne. replace (x =? 15) with false by lia. now rewrite Z.eqb_refl.
Qed.

(** [add_carry_flag] at ADD V0,V1 with V0 = 200 and V1 = 100. *)
Lemma add_carry_flag_witness :
  exists s', emulateCycle 0 (after 2 Rom.add_v0_v1) = Done s' /\
    (reg s' 0xF = 1 <-> reg (after 2 Rom.add_v0_v1) 0
                        + reg (after 2 Rom.add_v0_v1) 1 > 255) /\
    (reg s' 0xF = 0 <-> reg (after 2 Rom.add_v0_v1) 0
                        + reg (after 2 Rom.add_v0_v1) 1 <= 255) /\
    (0 <> 0xF -> reg s' 0 = (reg (after 2 Rom.add_v0_v1) 0
                             + reg (after 2 Rom.add_v0_v1) 1) mod 256).
Proof.
  apply (add_carry_flag 0 (after 2 Rom.add_v0_v1) 0 1).
  - apply wfb_wf. vm_compute. reflexivity.
  - lia.
  - lia.
  - vm_compute. reflexivity.
Defined.

(** With x = 0xF the sum is lost: after ADD VF,V0 with VF = 5 and
    V0 = 3 the register VF holds the carry 0, not the sum 8. *)
Lemma add_into_VF_keeps_carry :
  wf (after 2 Rom.add_vf_v0) /\
  fetch (after 2 Rom.add_vf_v0) = Done (opc 8 0xF 0 4) /\
  emulateCycle 0 (after 2 Rom.add_vf_v0) = Done (after 3 Rom.add_vf_v0) /\
  reg (after 3 Rom.add_vf_v0) 0xF = 0 /\
  (reg (after 2 Rom.add_vf_v0) 0xF + reg (after 2 Rom.add_vf_v0) 0) mod 256 = 8 /\
  reg (after 3 Rom.add_vf_v0) 0xF
  <> (reg (after 2 Rom.add_vf_v0) 0xF + reg (after 2 Rom.add_vf_v0) 0) mod 256.
Proof.
  split; [apply wfb_wf; vm_compute; reflexivity|].
  do 4 (split; [vm_compute; reflexivity|]).
  vm_compute. discriminate.
Qed.

(** ** 8xy5: subtract with borrow *)

Lemma SUB_Vx_Vy_Done (x y : Z) (s : Chip8) :
  length (V s) = 16%nat -> 0 <= x < 16 -> 0 <= y < 16 ->
  let s1 := upd_reg 0xF (if reg s x >=? reg s y then 1 else 0) s in
  SUB_Vx_Vy x y s = Done (upd_reg x (u8 (reg s1 x - reg s1 y)) s1).
Proof.
  intros HV Hx Hy s1. unfold SUB_Vx_Vy.
  rewrite !get_reg_Done by assumption. cbn [bind].
  rewrite set_reg_Done by (assumption || lia). cbn [bind]. fold s1.
  assert (HV1 : length (V s1) = 16%nat) by (unfold s1; now rewrite length_upd_reg).
  rewrite !get_reg_Done by assumption. cbn [bind].
  now rewrite set_reg_Done by assumption.
Qed.

(** What 8xy5 does when neither operand is VF: a cycle that executes it
    with x other than 0xF leaves VF = 1 exactly when the old Vx is at least
    the old Vy, and VF = 0 otherwise; when y is not 0xF either, Vx holds
    (Vx - Vy) mod 256 of the old values.  The two lemmas after it show what
    the order of the two writes does when an operand is VF. *)
Lemma sub_borrow_flag (rnd : Z) (s : Chip8) (x y : Z) :
  wf s -> 0 <= x < 16 -> 0 <= y < 16 -> x <> 0xF ->
  fetch s = Done (opc 8 x y 5) ->
  exists s', emulateCycle rnd s = Done s' /\
    (reg s' 0xF = 1 <-> reg s x >= reg s y) /\
    (reg s' 0xF = 0 <-> reg s x < reg s y) /\
    (y <> 0xF -> reg s' x = (reg s x - reg s y) mod 256).
Proof.
  intros Hwf Hx Hy Hne Hf. pose proof (wf_V s Hwf) as HV.
  rewrite (emulateCycle_fetched rnd _ s Hf), execute_8xy5 by assumption.
  rewrite SUB_Vx_Vy_Done by assumption. cbv zeta.
  change (reg (set_PC (u16 (PC s + 2)) s)) with (reg s).
  eexists. split; [reflexivity|].
  rewrite !reg_upd_reg by (rewrite ?length_upd_reg; cbn [V set_PC]; lia).
  replace (15 =? x) with false by lia. replace (x =? 15) with false by lia.
  rewrite !Z.eqb_refl.
  change (reg (set_PC (u16 (PC s + 2)) s)) with (reg s).
  repeat split; try (destruct (Z.geb_spec (reg s x) (reg s y)); lia).
  intros Hy15. now replace (y =? 15) with false by lia.
Qed.

(** [sub_borrow_flag] at SUB V0,V1 with V0 = 5 and V1 = 3. *)
Lemma sub_borrow_flag_witness :
  exists s', emulateCycle 0 (after 2 Rom.sub_v0_v1) = Done s' /\
    (reg s' 0xF = 1 <-> reg (after 2 Rom.sub_v0_v1) 0
                        >= reg (after 2 Rom.sub_v0_v1) 1) /\
    (reg s' 0xF = 0 <-> reg (after 2 Rom.sub_v0_v1) 0
                        < reg (after 2 Rom.sub_v0_v1) 1) /\
    (1 <> 0xF -> reg s' 0 = (reg (after 2 Rom.sub_v0_v1) 0
                             - reg (after 2 Rom.sub_v0_v1) 1) mod 256).
Proof.
  apply (sub_borrow_flag 0 (after 2 Rom.sub_v0_v1) 0 1).
  - apply wfb_wf. vm_compute. reflexivity.
  - lia.
  - lia.
  - lia.
  - vm_compute. reflexivity.
Defined.

(** With x = 0xF the flag is lost: after SUB VF,V0 with VF = 5 and V0 = 3
    the old Vx is at least the old Vy, yet VF holds 254, not 1 (and not the
    difference 2 either). *)
Lemma sub_into_VF_loses_flag :
  wf (after 2 Rom.sub_vf_v0) /\
  fetch (after 2 Rom.sub_vf_v0) = Done (opc 8 0xF 0 5) /\
  emulateCycle 0 (after 2 Rom.sub_vf_v0) = Done (after 3 Rom.sub_vf_v0) /\
  reg (after 2 Rom.sub_vf_v0) 0xF >= reg (after 2 Rom.sub_vf_v0) 0 /\
  reg (after 3 Rom.sub_vf_v0) 0xF = 254 /\
  ~ (reg (after 3 Rom.sub_vf_v0) 0xF = 1
     <-> reg (after 2 Rom.sub_vf_v0) 0xF >= reg (after 2 Rom.sub_vf_v0) 0).
Proof.
  split; [apply wfb_wf; vm_compute; reflexivity|].
  split; [vm_compute; reflexivity|].
  split; [vm_compute; reflexivity|].
  split; [vm_compute; discriminate|].
  split; [vm_compute; reflexivity|].
  intros [_ Hflag].
  assert (Hone : reg (after 3 Rom.sub_vf_v0) 0xF = 1)
    by (apply Hflag; vm_compute; discriminate).
  vm_compute in Hone. discriminate.
Qed.

(** C4 fails on the code: 8xy5 writes the flag into VF before it reads the
    operands of the subtraction (8xy4 computes first and writes the flag
    last).  SUB V0,VF with V0 = 5 and VF = 3: the claim asks for
    V0 = (5 - 3) mod 256 = 2 and VF = 1; the cycle leaves VF = 1 but
    V0 = 4, the old V0 minus the flag just written. *)
Theorem sub_of_VF_reads_flag :
  wf (after 2 Rom.sub_v0_vf) /\
  fetch (after 2 Rom.sub_v0_vf) = Done (opc 8 0 0xF 5) /\
  emulateCycle 0 (after 2 Rom.sub_v0_vf) = Done (after 3 Rom.sub_v0_vf) /\
  reg (after 2 Rom.sub_v0_vf) 0 = 5 /\ reg (after 2 Rom.sub_v0_vf) 0xF = 3 /\
  (reg (after 2 Rom.sub_v0_vf) 0 - reg (after 2 Rom.sub_v0_vf) 0xF) mod 256
    = 2 /\
  reg (after 3 Rom.sub_v0_vf) 0 = 4 /\ reg (after 3 Rom.sub_v0_vf) 0xF = 1 /\
  reg (after 3 Rom.sub_v0_vf) 0
    <> (reg (after 2 Rom.sub_v0_vf) 0 - reg (after 2 Rom.sub_v0_vf) 0xF)
       mod 256.
Proof.
  split; [apply wfb_wf; vm_compute; reflexivity|].
  do 7 (split; [vm_compute; reflexivity|]). vm_compute. discriminate.
Qed.

(** ** The timers *)

Lemma decrementTimers_delay (s : Chip8) :
  0 <= delay_timer s < 256 ->
  delay_timer (decrementTimers s) = Z.max (delay_timer s - 1) 0.
Proof.
  intros Hd. unfold decrementTimers, u8.
  destruct (Z.gtb_spec (delay_timer s) 0) as [Hpos | Hz];
    cbn [sound_timer set_delay_timer];
    destruct (Z.gtb_spec (sound_timer s) 0);
    cbn [delay_timer set_beepFlag set_sound_timer set_delay_timer];
    rewrite ?Z.mod_small by lia; lia.
Qed.

Lemma decrementTimers_sound (s : Chip8) :
  0 <= sound_timer s < 256 ->
  sound_timer (decrementTimers s) = Z.max (sound_timer s - 1) 0.
Proof.
  intros Hd. unfold decrementTimers, u8.
  destruct (Z.gtb_spec (delay_timer s) 0) as [Hpos | Hz];
    cbn [sound_timer set_delay_timer];
    destruct (Z.gtb_spec (sound_timer s) 0);
    cbn [sound_timer set_beepFlag set_sound_timer set_delay_timer];
    rewrite ?Z.mod_small by lia; lia.
Qed.

Lemma decrementTimers_beepFlag (s : Chip8) :
  beepFlag (decrementTimers s) = (sound_timer s >? 0).
Proof.
  unfold decrementTimers.
  destruct (delay_timer s >? 0); cbn [sound_timer set_delay_timer];
    destruct (sound_timer s >? 0); reflexivity.
Qed.

(** C8: after [n] ticks a delay timer that started at D reads max(D - n, 0),
    and so does the sound counter; one tick takes exactly 1 from a positive
    timer and leaves a zero timer at zero. *)
Theorem timers_after_ticks (n : nat) (s : Chip8) :
  0 <= delay_timer s < 256 -> 0 <= sound_timer s < 256 ->
  delay_timer (ticks n s) = Z.max (delay_timer s - Z.of_nat n) 0 /\
  sound_timer (ticks n s) = Z.max (sound_timer s - Z.of_nat n) 0 /\
  (delay_timer s > 0 -> delay_timer (decrementTimers s) = delay_timer s - 1) /\
  (delay_timer s = 0 -> delay_timer (decrementTimers s) = 0) /\
  (sound_timer s > 0 -> sound_timer (decrementTimers s) = sound_timer s - 1) /\
  (sound_timer s = 0 -> sound_timer (decrementTimers s) = 0).
Proof.
  intros Hd Hs.
  assert (Hn : delay_timer (ticks n s) = Z.max (delay_timer s - Z.of_nat n) 0
               /\ sound_timer (ticks n s) = Z.max (sound_timer s - Z.of_nat n) 0).
  { induction n as [|n [IHd IHs]].
    - change (ticks 0 s) with s. lia.
    - change (ticks (S n) s) with (decrementTimers (ticks n s)).
      rewrite decrementTimers_delay, decrementTimers_sound by lia. lia. }
  destruct Hn as [Hnd Hns]. split; [exact Hnd|]. split; [exact Hns|].
  rewrite decrementTimers_delay, decrementTimers_sound by assumption. lia.
Qed.

(** [timers_after_ticks] for five ticks from both timers at 3. *)
Lemma timers_after_ticks_witness :
  delay_timer (ticks 5 (after 3 Rom.timers_3)) = 0 /\
  sound_timer (ticks 5 (after 3 Rom.timers_3)) = 0.
Proof.
  destruct (timers_after_ticks 5 (after 3 Rom.timers_3)) as (Hd & Hs & _).
  - vm_compute. split; [discriminate | reflexivity].
  - vm_compute. split; [discriminate | reflexivity].
  - split; [rewrite Hd | rewrite Hs]; vm_compute; reflexivity.
Defined.

(** ** The sound-active flag *)

(** C2 (amended): after a tick the sound-active flag tells whether the sound
    counter was positive before that tick; Fx18 stores Vx into the sound
    counter and leaves the flag as it was; after reset the counter is 0 and
    the flag is false. *)
Theorem beepFlag_follows_previous_counter :
  (forall s, beepFlag (decrementTimers s) = (sound_timer s >? 0)) /\
  (forall rnd s x, wf s -> 0 <= x < 16 -> fetch s = Done (opc 0xF x 1 8) ->
     exists s', emulateCycle rnd s = Done s' /\
       sound_timer s' = reg s x /\ beepFlag s' = beepFlag s) /\
  (forall s, sound_timer (reset s) = 0 /\ beepFlag (reset s) = false /\
     beepFlag (reset s) = (sound_timer (reset s) >? 0)).
Proof.
  split; [exact decrementTimers_beepFlag|]. split.
  - intros rnd s x Hwf Hx Hf.
    rewrite (emulateCycle_fetched rnd _ s Hf), execute_Fx18 by assumption.
    rewrite get_reg_Done by (cbn [V set_PC]; (apply Hwf || lia)).
    eexists. split; [reflexivity|]. split; reflexivity.
  - intros s. repeat split.
Qed.

(** [beepFlag_follows_previous_counter] at LD ST,V0 with V0 = 1. *)
Lemma beepFlag_follows_previous_counter_witness :
  exists s', emulateCycle 0 (after 1 Rom.beep_once) = Done s' /\
    sound_timer s' = reg (after 1 Rom.beep_once) 0 /\
    beepFlag s' = beepFlag (after 1 Rom.beep_once).
Proof.
  apply (proj1 (proj2 beepFlag_follows_previous_counter)
           0 (after 1 Rom.beep_once) 0).
  - apply wfb_wf. vm_compute. reflexivity.
  - lia.
  - vm_compute. reflexivity.
Defined.

(** The flag is not "sound counter > 0" of the resulting state: Fx18 makes
    the counter 1 with the flag still false, and the tick that follows
    brings the counter to 0 and raises the flag. *)
Lemma beepFlag_differs_from_counter :
  emulateCycle 0 (after 1 Rom.beep_once) = Done (after 2 Rom.beep_once) /\
  sound_timer (after 2 Rom.beep_once) = 1 /\
  beepFlag (after 2 Rom.beep_once) = false /\
  beepFlag (after 2 Rom.beep_once)
  <> (sound_timer (after 2 Rom.beep_once) >? 0) /\
  sound_timer (decrementTimers (after 2 Rom.beep_once)) = 0 /\
  beepFlag (decrementTimers (after 2 Rom.beep_once)) = true /\
  beepFlag (decrementTimers (after 2 Rom.beep_once))
  <> (sound_timer (decrementTimers (after 2 Rom.beep_once)) >? 0).
Proof.
  do 3 (split; [vm_compute; reflexivity|]).
  split; [vm_compute; discriminate|].
  do 2 (split; [vm_compute; reflexivity|]).
  vm_compute. discriminate.
Qed.

(** ** 2nnn and 00EE: the call stack *)

(** C9: 2nnn writes the advanced PC into the stack slot at the stack pointer
    and then increments the pointer; 00EE decrements the pointer and then
    loads PC from that slot.  Neither checks the pointer: the access is
    inside the 16 slots when the pointer is below 16 for a call and between
    1 and 16 for a return, and is out of bounds otherwise, in particular for
    a call at pointer 16 and for a return at pointer 0 (slot 255). *)
Theorem call_return_stack_access (rnd : Z) (s : Chip8) :
  wf s ->
  (forall a b c, 0 <= a < 16 -> 0 <= b < 16 -> 0 <= c < 16 ->
     fetch s = Done (opc 2 a b c) ->
     (sp s < 16 ->
      exists s', emulateCycle rnd s = Done s' /\
        stack s' = <[Z.to_nat (sp s) := PC s + 2]> (stack s) /\
        sp s' = sp s + 1 /\ PC s' = a * 256 + b * 16 + c) /\
     (16 <= sp s ->
      emulateCycle rnd s = Undefined (OutOfBounds Stack (sp s)))) /\
  (fetch s = Done 0x00EE ->
     (0 < sp s <= 16 ->
      exists s', emulateCycle rnd s = Done s' /\
        sp s' = sp s - 1 /\ PC s' = stack s !!! Z.to_nat (sp s - 1) /\
        stack s' = stack s) /\
     (sp s = 0 ->
      emulateCycle rnd s = Undefined (OutOfBounds Stack 255)) /\
     (16 < sp s ->
      emulateCycle rnd s = Undefined (OutOfBounds Stack (sp s - 1)))).
Proof.
  intros Hwf. pose proof (wf_stack s Hwf) as Hst.
  pose proof (proj1 (is_u8_range _) (wf_sp s Hwf)) as Hsp.
  split.
  - intros a b c Ha Hb Hc Hf.
    rewrite (emulateCycle_fetched rnd _ s Hf), execute_2nnn by assumption.
    rewrite (advanced_PC s _ Hwf Hf). unfold CALL. cbn [stack sp PC set_PC].
    split; intros Hr.
    + rewrite wr_Done by lia. cbn [bind]. eexists. split; [reflexivity|].
      cbn [stack sp PC set_PC set_sp set_stack]. unfold u8.
      rewrite Z.mod_small by lia. auto.
    + now rewrite wr_Undefined by lia.
  - intros Hf. rewrite (emulateCycle_fetched rnd _ s Hf), execute_00EE.
    unfold RET, u8. cbn [stack sp PC set_PC set_sp].
    split; [|split]; intros Hr.
    + rewrite Z.mod_small by lia. rewrite rd_Done by lia. cbn [bind].
      eexists. split; [reflexivity|]. auto.
    + rewrite Hr. change ((0 - 1) mod 256) with 255.
      now rewrite rd_Undefined by lia.
    + rewrite Z.mod_small by lia. now rewrite rd_Undefined by lia.
Qed.

(** [call_return_stack_access] on three programs: a first call, a return
    on the empty stack, and the 17th nested call. *)
Lemma call_return_stack_access_witness :
  (exists s', emulateCycle 0 (boot Rom.call_ret) = Done s' /\
     stack s' = <[Z.to_nat (sp (boot Rom.call_ret)) :=
                    PC (boot Rom.call_ret) + 2]> (stack (boot Rom.call_ret)) /\
     sp s' = sp (boot Rom.call_ret) + 1 /\ PC s' = 2 * 256 + 0 * 16 + 4) /\
  emulateCycle 0 (boot Rom.ret_first) = Undefined (OutOfBounds Stack 255) /\
  emulateCycle 0 (after 16 Rom.call_self) =
    Undefined (OutOfBounds Stack (sp (after 16 Rom.call_self))).
Proof.
  split; [|split].
  - destruct (call_return_stack_access 0 (boot Rom.call_ret)) as [Hcall _].
    + apply wfb_wf. vm_compute. reflexivity.
    + apply (Hcall 2 0 4); try lia.
      * vm_compute. reflexivity.
      * vm_compute. reflexivity.
  - destruct (call_return_stack_access 0 (boot Rom.ret_first)) as [_ Hret].
    + apply wfb_wf. vm_compute. reflexivity.
    + apply Hret.
      * vm_compute. reflexivity.
      * vm_compute. reflexivity.
  - destruct (call_return_stack_access 0 (after 16 Rom.call_self))
      as [Hcall _].
    + apply wfb_wf. vm_compute. reflexivity.
    + apply (Hcall 2 0 0); try lia.
      * vm_compute. reflexivity.
      * vm_compute. discriminate.
Defined.

(** ** Fx0A: wait for a key *)

Lemma upd_reg_twice (x v w : Z) (s : Chip8) :
  upd_reg x w (upd_reg x v s) = upd_reg x w s.
Proof.
  unfold upd_reg, set_V. cbn [V gfx keys drawFlag beepFlag memory I PC stack sp
                                delay_timer sound_timer].
  now rewrite list_insert_insert_eq.
Qed.

Lemma highest_pressed_None (ks : list bool) (cnt : nat) : forall lo,
  highest_pressed cnt lo ks = None ->
  forall j, lo <= j < lo + Z.of_nat cnt -> ks !!! Z.to_nat j = false.
Proof.
  induction cnt as [|c IH]; intros lo Hhp j Hj; [lia|].
  cbn [highest_pressed] in Hhp.
  destruct (highest_pressed c (lo + 1) ks) eqn:Hrest; [discriminate|].
  destruct (Z.eq_dec j lo) as [-> | Hne].
  - now destruct (ks !!! Z.to_nat lo).
  - apply (IH (lo + 1)); [assumption | lia].
Qed.

Lemma highest_pressed_Some (ks : list bool) (cnt : nat) : forall lo k,
  highest_pressed cnt lo ks = Some k ->
  lo <= k < lo + Z.of_nat cnt /\ ks !!! Z.to_nat k = true /\
  forall j, k < j < lo + Z.of_nat cnt -> ks !!! Z.to_nat j = false.
Proof.
  induction cnt as [|c IH]; intros lo k Hhp; [discriminate|].
  cbn [highest_pressed] in Hhp.
  destruct (highest_pressed c (lo + 1) ks) as [k'|] eqn:Hrest.
  - injection Hhp as ->. destruct (IH _ _ Hrest) as (Hk & Hon & Hoff).
    repeat split; [lia | lia | assumption |]. intros j Hj. apply Hoff. lia.
  - destruct (ks !!! Z.to_nat lo) eqn:Hlo; [|discriminate].
    injection Hhp as <-. repeat split; [lia | lia | assumption |].
    intros j Hj. apply (highest_pressed_None ks c (lo + 1) Hrest). lia.
Qed.

Lemma scan_key_loop (x : Z) (cnt : nat) : forall lo s b,
  length (V s) = 16%nat -> length (keys s) = 16%nat -> 0 <= x < 16 ->
  0 <= lo -> lo + Z.of_nat cnt <= 16 ->
  for_loop cnt lo (scan_key x) (s, b) =
  Done match highest_pressed cnt lo (keys s) with
       | Some k => (upd_reg x k s, true)
       | None => (s, b)
       end.
Proof.
  induction cnt as [|c IH]; intros lo s b HV Hk Hx Hlo Hhi; [reflexivity|].
  cbn [for_loop highest_pressed]. unfold scan_key at 1. cbn [fst].
  rewrite rd_Done by lia. cbn [bind].
  destruct (keys s !!! Z.to_nat lo) eqn:Hpressed.
  - rewrite set_reg_Done by assumption. cbn [bind].
    rewrite IH by (rewrite ?length_upd_reg; cbn [keys upd_reg set_V]; lia).
    change (keys (upd_reg x lo s)) with (keys s).
    destruct (highest_pressed c (lo + 1) (keys s)); [|reflexivity].
    now rewrite upd_reg_twice.
  - cbn [bind]. rewrite IH by lia.
    now destruct (highest_pressed c (lo + 1) (keys s)).
Qed.

Lemma set_PC_back (s : Chip8) :
  0 <= PC s < 65536 -> set_PC (u16 (u16 (PC s + 2) - 2)) (set_PC (u16 (PC s + 2)) s) = s.
Proof.
  intros HPC. destruct s as [g k d b m v i pc st p dt stt].
  unfold set_PC, u16. cbn in *. f_equal.
  rewrite Zminus_mod_idemp_l. replace (pc + 2 - 2) with pc by lia.
  now apply Z.mod_small.
Qed.

(** C5: a cycle that executes Fx0A with none of the 16 keys pressed leaves
    the whole state, so PC and Vx too, as it was before the cycle; with a
    key pressed it stores into Vx the highest pressed index and leaves PC
    two past the instruction. *)
Theorem wait_for_key (rnd : Z) (s : Chip8) (x : Z) :
  wf s -> 0 <= x < 16 -> fetch s = Done (opc 0xF x 0 0xA) ->
  ((forall i, 0 <= i < 16 -> key s i = false) ->
   exists s', emulateCycle rnd s = Done s' /\ s' = s /\
     PC s' = PC s /\ reg s' x = reg s x) /\
  ((exists i, 0 <= i < 16 /\ key s i = true) ->
   exists k s', 0 <= k < 16 /\ key s k = true /\
     (forall j, k < j < 16 -> key s j = false) /\
     emulateCycle rnd s = Done s' /\
     s' = upd_reg x k (set_PC (PC s + 2) s) /\
     reg s' x = k /\ PC s' = PC s + 2).
Proof.
  intros Hwf Hx Hf.
  pose proof (wf_V s Hwf) as HV. pose proof (wf_keys s Hwf) as Hk.
  pose proof (proj1 (is_u16_range _) (wf_PC s Hwf)) as HPC.
  rewrite (emulateCycle_fetched rnd _ s Hf), execute_Fx0A by assumption.
  unfold LD_Vx_K. rewrite scan_key_loop by (assumption || lia).
  cbn [bind keys set_PC].
  destruct (highest_pressed 16 0 (keys s)) as [k|] eqn:Hhp.
  - apply highest_pressed_Some in Hhp as (Hrange & Hon & Hoff).
    split.
    + intros Hnone. unfold key in Hnone. rewrite Hnone in Hon by lia.
      discriminate.
    + intros _. exists k. eexists. cbn [snd fst negb].
      rewrite (advanced_PC s _ Hwf Hf).
      split; [lia|]. split; [exact Hon|].
      split; [intros j Hj; apply Hoff; lia|].
      split; [reflexivity|]. split; [reflexivity|]. split; [|reflexivity].
      rewrite reg_upd_reg by (cbn [V set_PC]; lia). now rewrite Z.eqb_refl.
  - pose proof (highest_pressed_None _ _ _ Hhp) as Hoff. split.
    + intros _. eexists. cbn [snd fst negb PC set_PC].
      split; [reflexivity|]. rewrite set_PC_back by assumption. auto.
    + intros (i & Hi & Hon). unfold key in Hon. rewrite Hoff in Hon by lia.
      discriminate.
Qed.

(** [wait_for_key] on the program CLS; LD V0,K: first with no key pressed,
    then after the host has written [keys[7] = true]. *)
Lemma wait_for_key_witness :
  (exists s', emulateCycle 0 (after 1 Rom.wait_key) = Done s' /\
     s' = after 1 Rom.wait_key /\
     PC s' = PC (after 1 Rom.wait_key) /\
     reg s' 0 = reg (after 1 Rom.wait_key) 0) /\
  set_key 7 true (after 1 Rom.wait_key)
    = Done (upd_key 7 true (after 1 Rom.wait_key)) /\
  (exists k s', 0 <= k < 16 /\
     key (upd_key 7 true (after 1 Rom.wait_key)) k = true /\
     (forall j, k < j < 16 ->
        key (upd_key 7 true (after 1 Rom.wait_key)) j = false) /\
     emulateCycle 0 (upd_key 7 true (after 1 Rom.wait_key)) = Done s' /\
     s' = upd_reg 0 k (set_PC (PC (upd_key 7 true (after 1 Rom.wait_key)) + 2)
                         (upd_key 7 true (after 1 Rom.wait_key))) /\
     reg s' 0 = k /\ PC s' = PC (upd_key 7 true (after 1 Rom.wait_key)) + 2).
Proof.
  split; [|split].
  - apply (wait_for_key 0 (after 1 Rom.wait_key) 0).
    + apply wfb_wf. vm_compute. reflexivity.
    + lia.
    + vm_compute. reflexivity.
    + intros i Hi.
      assert (Hcases : i = 0 \/ i = 1 \/ i = 2 \/ i = 3 \/ i = 4 \/ i = 5
                       \/ i = 6 \/ i = 7 \/ i = 8 \/ i = 9 \/ i = 10
                       \/ i = 11 \/ i = 12 \/ i = 13 \/ i = 14 \/ i = 15)
        by lia.
      repeat (destruct Hcases as [-> | Hcases]; [vm_compute; reflexivity|]).
      subst i. vm_compute. reflexivity.
  - vm_compute. reflexivity.
  - apply (wait_for_key 0 (upd_key 7 true (after 1 Rom.wait_key)) 0).
    + apply wfb_wf. vm_compute. reflexivity.
    + lia.
    + vm_compute. reflexivity.
    + exists 7. split; [lia|]. vm_compute. reflexivity.
Defined.

(** ** Fx55: store registers *)

Lemma set_memory_same (s : Chip8) : set_memory (memory s) s = s.
Proof. now destruct s. Qed.

Lemma store_regs_loop (cnt : nat) : forall lo s,
  length (V s) = 16%nat -> length (memory s) = 4096%nat ->
  0 <= lo -> lo + Z.of_nat cnt <= 16 ->
  0 <= I s -> I s + lo + Z.of_nat cnt <= 4096 ->
  exists m,
    for_loop cnt lo (fun i s => v <- get_reg i s ;; set_mem (I s + i) v s) s
    = Done (set_memory m s) /\
    length m = 4096%nat /\
    (forall a, I s + lo <= a < I s + lo + Z.of_nat cnt ->
       m !!! Z.to_nat a = reg s (a - I s)) /\
    (forall a, 0 <= a -> ~ I s + lo <= a < I s + lo + Z.of_nat cnt ->
       m !!! Z.to_nat a = memory s !!! Z.to_nat a).
Proof.
  induction cnt as [|c IH]; intros lo s HV Hm Hlo Hhi HI Hend.
  - exists (memory s). rewrite set_memory_same.
    repeat split; [assumption | lia].
  - cbn [for_loop]. rewrite get_reg_Done by (assumption || lia). cbn [bind].
    unfold set_mem at 1. rewrite wr_Done by lia. cbn [bind].
    set (s1 := set_memory (<[Z.to_nat (I s + lo) := reg s lo]> (memory s)) s).
    destruct (IH (lo + 1) s1) as (m & Hrun & Hlen & Hin & Hout);
      try (unfold s1; cbn [V I memory set_memory]; rewrite ?length_insert; lia).
    exists m. split; [exact Hrun|]. split; [exact Hlen|].
    change (I s1) with (I s) in Hin, Hout. split.
    + intros a Ha. destruct (Z.eq_dec a (I s + lo)) as [-> | Hne].
      * rewrite Hout by lia. unfold s1. cbn [memory set_memory].
        rewrite list_lookup_total_insert_eq by lia. f_equal. lia.
      * rewrite Hin by lia. reflexivity.
    + intros a Ha Hrange. rewrite Hout by lia. unfold s1.
      cbn [memory set_memory]. apply list_lookup_total_insert_ne. lia.
Qed.

(** C7: for every x and every I with I + x inside the memory, a cycle that
    executes Fx55 copies V0..Vx to memory[I..I+x], leaves every other memory
    cell and all of V0..VF as they were, and leaves I at its old value plus
    x + 1. *)
Theorem store_registers (rnd : Z) (s : Chip8) (x : Z) :
  wf s -> 0 <= x < 16 -> I s + x < 4096 ->
  fetch s = Done (opc 0xF x 5 5) ->
  exists s', emulateCycle rnd s = Done s' /\
    (forall i, 0 <= i <= x -> mem s' (I s + i) = reg s i) /\
    (forall a, 0 <= a < 4096 -> ~ I s <= a <= I s + x -> mem s' a = mem s a) /\
    V s' = V s /\ I s' = I s + (x + 1).
Proof.
  intros Hwf Hx HIx Hf.
  pose proof (proj1 (is_u16_range _) (wf_I s Hwf)) as HI.
  rewrite (emulateCycle_fetched rnd _ s Hf), execute_Fx55 by assumption.
  unfold LD_I_Vx.
  destruct (store_regs_loop (Z.to_nat (x + 1)) 0 (set_PC (u16 (PC s + 2)) s))
    as (m & Hrun & Hlen & Hin & Hout);
    try (cbn [V I memory set_PC]; (apply Hwf || lia)).
  rewrite Hrun. cbn [bind]. eexists. split; [reflexivity|].
  cbn [I set_PC set_memory] in *. unfold mem. cbn [memory set_I set_memory V I].
  split; [|split; [|split]].
  - intros i Hi. rewrite Hin by lia. unfold reg. cbn [V set_PC].
    f_equal. f_equal. lia.
  - intros a Ha Hrange. rewrite Hout by lia. reflexivity.
  - reflexivity.
  - unfold u16. apply Z.mod_small. lia.
Qed.

(** [store_registers] at LD [I],V2 with V0..V2 = 0x11, 0x22, 0x33 and
    I = 0x300. *)
Lemma store_registers_witness :
  exists s', emulateCycle 0 (after 4 Rom.store_v0_v2) = Done s' /\
    (forall i, 0 <= i <= 2 ->
       mem s' (I (after 4 Rom.store_v0_v2) + i)
       = reg (after 4 Rom.store_v0_v2) i) /\
    (forall a, 0 <= a < 4096 ->
       ~ I (after 4 Rom.store_v0_v2) <= a <= I (after 4 Rom.store_v0_v2) + 2 ->
       mem s' a = mem (after 4 Rom.store_v0_v2) a) /\
    V s' = V (after 4 Rom.store_v0_v2) /\
    I s' = I (after 4 Rom.store_v0_v2) + (2 + 1).
Proof.
  apply (store_registers 0 (after 4 Rom.store_v0_v2) 2).
  - apply wfb_wf. vm_compute. reflexivity.
  - lia.
  - vm_compute. reflexivity.
  - vm_compute. reflexivity.
Defined.

(** ** [loadROM] *)

Lemma length_store_from (src : list Z) : forall at_ dst,
  length (store_from at_ src dst) = length dst.
Proof.
  induction src as [|b src IH]; intros at_ dst; [reflexivity|].
  cbn [store_from]. now rewrite IH, length_insert.
Qed.

Lemma store_from_outside (src : list Z) : forall (at_ : nat) dst (i : nat),
  ~ (at_ <= i < at_ + length src)%nat ->
  store_from at_ src dst !!! i = dst !!! i.
Proof.
  induction src as [|b src IH]; intros at_ dst i Hi; cbn [length] in *;
    [reflexivity|].
  cbn [store_from]. rewrite IH by lia. apply list_lookup_total_insert_ne. lia.
Qed.

Lemma store_from_inside (src : list Z) : forall (at_ : nat) dst (i : nat),
  (at_ + length src <= length dst)%nat ->
  (at_ <= i < at_ + length src)%nat ->
  store_from at_ src dst !!! i = src !!! (i - at_)%nat.
Proof.
  induction src as [|b src IH]; intros at_ dst i Hfit Hi; cbn [length] in *;
    [lia|].
  cbn [store_from]. destruct (Nat.eq_dec i at_) as [-> | Hne].
  - rewrite Nat.sub_diag, store_from_outside by lia.
    apply list_lookup_total_insert_eq. lia.
  - rewrite IH by (rewrite ?length_insert; lia).
    now replace (i - at_)%nat with (S (i - S at_)) by lia.
Qed.

Lemma memory_reset (s : Chip8) :
  memory (reset s) = store_from (Z.to_nat 0x050) font (replicate 4096 0).
Proof. reflexivity. Qed.

Lemma mem_reset_zero (s : Chip8) (a : Z) :
  0x0A0 <= a < 4096 -> mem (reset s) a = 0.
Proof.
  intros Ha. unfold mem. rewrite memory_reset.
  rewrite store_from_outside by (change (length font) with 80%nat; lia).
  apply lookup_total_replicate_2. lia.
Qed.

(** C6: an image loads exactly when it has at most 3584 bytes.  A loaded
    image (one of exactly 3584 bytes included) sits at 0x200 onwards with
    PC = 0x200 and every address from 0x200 + length on still at the zero of
    the reset; an image of 3585 bytes or more is refused and the machine is
    left in the reset state, none of the image copied. *)
Theorem loadROM_size_limit (bytes : list Z) (s : Chip8) :
  (fst (loadROM (Some bytes) s) = true <-> Z.of_nat (length bytes) <= 3584) /\
  (Z.of_nat (length bytes) <= 3584 ->
     PC (snd (loadROM (Some bytes) s)) = 0x200 /\
     (forall i, 0 <= i < Z.of_nat (length bytes) ->
        mem (snd (loadROM (Some bytes) s)) (0x200 + i)
        = bytes !!! Z.to_nat i) /\
     (forall a, 0 <= a < 0x200 ->
        mem (snd (loadROM (Some bytes) s)) a = mem (reset s) a) /\
     (forall a, 0x200 + Z.of_nat (length bytes) <= a < 4096 ->
        mem (snd (loadROM (Some bytes) s)) a = 0)) /\
  (Z.of_nat (length bytes) = 3584 ->
     fst (loadROM (Some bytes) s) = true /\
     PC (snd (loadROM (Some bytes) s)) = 0x200) /\
  (3585 <= Z.of_nat (length bytes) ->
     loadROM (Some bytes) s = (false, reset s)).
Proof.
  assert (Hok : Z.of_nat (length bytes) <= 3584 ->
            loadROM (Some bytes) s =
            (true, set_memory (store_from (Z.to_nat 0x200) bytes
                                 (memory (reset s))) (reset s))).
  { intros Hle. unfold loadROM.
    now replace (Z.of_nat (length bytes) >? 4096 - 512) with false by lia. }
  assert (Hko : 3585 <= Z.of_nat (length bytes) ->
            loadROM (Some bytes) s = (false, reset s)).
  { intros Hgt. unfold loadROM.
    now replace (Z.of_nat (length bytes) >? 4096 - 512) with true by lia. }
  assert (Hlen : length (memory (reset s)) = 4096%nat).
  { rewrite memory_reset, length_store_from. apply length_replicate. }
  split; [|split; [|split]].
  - split.
    + intros Hfst. destruct (Z.le_gt_cases (Z.of_nat (length bytes)) 3584)
        as [Hle | Hgt]; [exact Hle|].
      rewrite Hko in Hfst by lia. discriminate.
    + intros Hle. now rewrite Hok.
  - intros Hle. rewrite Hok by assumption. cbn [snd].
    split; [reflexivity|]. unfold mem at 1 2 4. cbn [memory set_memory].
    split; [|split].
    + intros i Hi. rewrite store_from_inside by lia. f_equal. lia.
    + intros a Ha. now rewrite store_from_outside by lia.
    + intros a Ha. rewrite store_from_outside by lia.
      apply (mem_reset_zero s a). lia.
  - intros Heq. rewrite Hok by lia. split; reflexivity.
  - exact Hko.
Qed.

(** [loadROM_size_limit] at images of 3584 and of 3585 bytes. *)
Lemma loadROM_size_limit_witness :
  (fst (loadROM (Some (replicate 3584 0xAA)) Chip8_new) = true /\
   PC (snd (loadROM (Some (replicate 3584 0xAA)) Chip8_new)) = 0x200) /\
  loadROM (Some (replicate 3585 0xAA)) Chip8_new = (false, reset Chip8_new).
Proof.
  split.
  - apply (proj1 (proj2 (proj2
             (loadROM_size_limit (replicate 3584 0xAA) Chip8_new)))).
    vm_compute. reflexivity.
  - apply (proj2 (proj2 (proj2
             (loadROM_size_limit (replicate 3585 0xAA) Chip8_new)))).
    vm_compute. discriminate.
Defined.

(** ** Dxyn: the origin of a sprite *)

Lemma upd_reg_hidden (p x v w : Z) (s : Chip8) :
  upd_reg x w (set_PC p (upd_reg x v s)) = upd_reg x w (set_PC p s).
Proof.
  unfold upd_reg, set_V, set_PC.
  cbn [V gfx keys drawFlag beepFlag memory I PC stack sp delay_timer
         sound_timer].
  now rewrite list_insert_insert_eq.
Qed.

Lemma DRW_origin (x y n : Z) (s : Chip8) :
  length (V s) = 16%nat -> 0 <= x < 16 -> 0 <= y < 16 ->
  DRW x y n s =
  draw_sprite (if x =? 0xF then 0 else reg s x mod 64)
    (if y =? 0xF then 0 else reg s y mod 32) n (upd_reg 0xF 0 s).
Proof.
  intros HV Hx Hy. unfold DRW.
  rewrite set_reg_Done by (assumption || lia). cbn [bind].
  rewrite !get_reg_Done by (rewrite ?length_upd_reg; assumption).
  cbn [bind]. rewrite !reg_upd_reg by (assumption || lia).
  now destruct (x =? 15), (y =? 15).
Qed.

(** C10: Dxyn clears VF before it reads Vx and Vy, so the cycle draws the
    sprite from the origin (Vx mod 64, Vy mod 32) in which a coordinate taken
    from VF is 0, and running the cycle from a state that differs only in the
    old content of VF gives the same result. *)
Theorem draw_origin_ignores_old_VF (rnd : Z) (s : Chip8) (x y n : Z) :
  wf s -> 0 <= x < 16 -> 0 <= y < 16 -> 0 <= n < 16 ->
  fetch s = Done (opc 0xD x y n) ->
  emulateCycle rnd s =
    draw_sprite (if x =? 0xF then 0 else reg s x mod 64)
      (if y =? 0xF then 0 else reg s y mod 32) n
      (upd_reg 0xF 0 (set_PC (PC s + 2) s)) /\
  forall v, emulateCycle rnd (upd_reg 0xF v s) = emulateCycle rnd s.
Proof.
  intros Hwf Hx Hy Hn Hf. pose proof (wf_V s Hwf) as HV.
  assert (Hrun : forall v,
            emulateCycle rnd (upd_reg 0xF v s) =
            draw_sprite (if x =? 0xF then 0 else reg s x mod 64)
              (if y =? 0xF then 0 else reg s y mod 32) n
              (upd_reg 0xF 0 (set_PC (PC s + 2) s))).
  { intros v.
    assert (Hfv : fetch (upd_reg 0xF v s) = Done (opc 0xD x y n)) by exact Hf.
    rewrite (emulateCycle_fetched rnd _ _ Hfv), execute_Dxyn by assumption.
    change (PC (upd_reg 15 v s)) with (PC s).
    rewrite (advanced_PC s _ Hwf Hf).
    rewrite DRW_origin
      by (cbn [V set_PC]; rewrite ?length_upd_reg; assumption).
    rewrite upd_reg_hidden.
    change (reg (set_PC (PC s + 2) (upd_reg 15 v s)))
      with (reg (upd_reg 15 v s)).
    rewrite !reg_upd_reg by (assumption || lia).
    now destruct (x =? 15), (y =? 15). }
  split.
  - rewrite (emulateCycle_fetched rnd _ s Hf), execute_Dxyn by assumption.
    rewrite (advanced_PC s _ Hwf Hf).
    now rewrite DRW_origin by (cbn [V set_PC]; assumption).
  - intros v. rewrite (Hrun v), (emulateCycle_fetched rnd _ s Hf).
    rewrite execute_Dxyn, (advanced_PC s _ Hwf Hf) by assumption.
    now rewrite DRW_origin by (cbn [V set_PC]; assumption).
Qed.

(** [draw_origin_ignores_old_VF] at DRW VF,V0,1 with VF = 42: the sprite is
    drawn from column 0. *)
Lemma draw_origin_ignores_old_VF_witness :
  emulateCycle 0 (after 3 Rom.draw_at_vf) =
    draw_sprite 0 (reg (after 3 Rom.draw_at_vf) 0 mod 32) 1
      (upd_reg 0xF 0 (set_PC (PC (after 3 Rom.draw_at_vf) + 2)
                        (after 3 Rom.draw_at_vf))) /\
  forall v, emulateCycle 0 (upd_reg 0xF v (after 3 Rom.draw_at_vf))
            = emulateCycle 0 (after 3 Rom.draw_at_vf).
Proof.
  apply (draw_origin_ignores_old_VF 0 (after 3 Rom.draw_at_vf) 0xF 0 1).
  - apply wfb_wf. vm_compute. reflexivity.
  - lia.
  - lia.
  - lia.
  - vm_compute. reflexivity.
Defined.

(** ** Dxyn: sprites that cross the right edge *)

(** The guard of [draw_pixel] bounds the flat index only: a set bit whose
    column is past the right edge, on any row but the last, toggles a pixel
    at the start of the row below. *)
Lemma draw_pixel_past_right_edge (vx vy row sprite col : Z) (s : Chip8) :
  length (gfx s) = 2048%nat -> length (V s) = 16%nat ->
  0 <= vy + row < 31 -> 64 <= vx + col < 128 ->
  Z.land sprite (Z.shiftr 0x80 col) <> 0 ->
  exists s', draw_pixel vx vy row sprite col s = Done s' /\
    pixel s' ((vy + row + 1) * 64 + (vx + col - 64))
    = negb (pixel s ((vy + row + 1) * 64 + (vx + col - 64))).
Proof.
  intros Hg HV Hrow Hcol Hbit. unfold draw_pixel.
  replace (Z.land sprite (Z.shiftr 128 col) =? 0) with false by lia.
  cbn [negb].
  replace ((vy + row) * 64 + (vx + col))
    with ((vy + row + 1) * 64 + (vx + col - 64)) by lia.
  set (idx := (vy + row + 1) * 64 + (vx + col - 64)).
  assert (Hidx : 0 <= idx < 2048) by (unfold idx; lia).
  replace (idx <? 64 * 32) with true by lia.
  rewrite rd_Done by lia. cbn [bind]. fold (pixel s idx).
  destruct (pixel s idx) eqn:Hp.
  - rewrite set_reg_Done by (assumption || lia). cbn [bind].
    change (gfx (upd_reg 15 1 s)) with (gfx s).
    rewrite rd_Done by lia. cbn [bind]. rewrite wr_Done by lia. cbn [bind].
    eexists. split; [reflexivity|]. unfold pixel. cbn [gfx set_gfx].
    rewrite list_lookup_total_insert_eq by lia. fold (pixel s idx).
    now rewrite Hp.
  - cbn [bind]. rewrite rd_Done by lia. cbn [bind].
    rewrite wr_Done by lia. cbn [bind].
    eexists. split; [reflexivity|]. unfold pixel. cbn [gfx set_gfx].
    rewrite list_lookup_total_insert_eq by lia. fold (pixel s idx).
    now rewrite Hp.
Qed.

(** C1 fails on the code: DRW V0,V1,1 with V0 = 60, V1 = 0 and the sprite
    row 0xFF on an empty display.  The bits of columns 4..7 have the target
    coordinates (64..67, 0), outside the 64 columns, and should be dropped:
    the clipped drawing sets the pixels 60..63 of row 0 only.  The cycle
    sets the display cells 60..67, the last four being the pixels 0..3 of
    row 1. *)
Theorem draw_wraps_into_next_row :
  wf (after 3 Rom.draw_right_edge) /\
  fetch (after 3 Rom.draw_right_edge) = Done (opc 0xD 0 1 1) /\
  reg (after 3 Rom.draw_right_edge) 0 = 60 /\
  reg (after 3 Rom.draw_right_edge) 1 = 0 /\
  mem (after 3 Rom.draw_right_edge) (I (after 3 Rom.draw_right_edge)) = 0xFF /\
  gfx (after 3 Rom.draw_right_edge) = replicate 2048 false /\
  display (clipped_sprite 60 0 1
             (upd_reg 0xF 0 (set_PC (PC (after 3 Rom.draw_right_edge) + 2)
                               (after 3 Rom.draw_right_edge))))
  = replicate 60 false ++ replicate 4 true ++ replicate 1984 false /\
  emulateCycle 0 (after 3 Rom.draw_right_edge)
  = Done (after 4 Rom.draw_right_edge) /\
  gfx (after 4 Rom.draw_right_edge)
  = replicate 60 false ++ replicate 8 true ++ replicate 1980 false /\
  pixel (after 4 Rom.draw_right_edge) (1 * 64 + 0) = true.
Proof.
  split; [apply wfb_wf; vm_compute; reflexivity|].
  do 8 (split; [vm_compute; reflexivity|]).
  vm_compute. reflexivity.
Qed.

(** Side conditions on a concrete state, by evaluation. *)
Ltac concrete :=
  first [ lia | apply wfb_wf; vm_compute; reflexivity | vm_compute; easy ].

(** * Further properties of the machine *)

(** ** What every cycle keeps *)

Lemma bind_Done {A B : Type} (r : result A) (k : A -> result B) (b : B) :
  bind r k = Done b -> exists a, r = Done a /\ k a = Done b.
Proof. destruct r as [a|f]; [|discriminate]. intros Hk. now exists a. Qed.

Lemma for_loop_inv {S : Type} (P : S -> Prop) (body : Z -> S -> result S)
  (cnt : nat) : forall lo s s',
  (forall i s s', lo <= i < lo + Z.of_nat cnt ->
     P s -> body i s = Done s' -> P s') ->
  P s -> for_loop cnt lo body s = Done s' -> P s'.
Proof.
  induction cnt as [|c IH]; intros lo s s' Hbody HP Hrun.
  - injection Hrun as <-. exact HP.
  - cbn [for_loop] in Hrun. apply bind_Done in Hrun as (s1 & Hb & Hrest).
    apply (IH (lo + 1) s1 s'); [| |exact Hrest].
    + intros i t t' Hi. apply Hbody. lia.
    + apply (Hbody lo s s1); [lia | exact HP | exact Hb].
Qed.

Lemma u8_range (z : Z) : 0 <= u8 z < 256.
Proof. unfold u8. apply Z.mod_pos_bound. lia. Qed.

Lemma u16_range (z : Z) : 0 <= u16 z < 65536.
Proof. unfold u16. apply Z.mod_pos_bound. lia. Qed.

Lemma forallb_insert (P : Z -> bool) (l : list Z) (i : nat) (v : Z) :
  forallb P l = true -> P v = true -> forallb P (<[i := v]> l) = true.
Proof.
  revert i. induction l as [|a l IH]; intros i Hl Hv; [exact Hl|].
  cbn [forallb] in Hl. apply andb_true_iff in Hl as [Ha Hl].
  destruct i as [|i]; cbn [forallb]; apply andb_true_iff; split; auto.
Qed.

Lemma rd_Done_inv {A : Type} `{Inhabited A} (a : array_id) (l : list A)
  (i : Z) (v : A) :
  rd a l i = Done v -> 0 <= i < Z.of_nat (length l) /\ v = l !!! Z.to_nat i.
Proof.
  intros Hrd.
  destruct (Z.le_gt_cases 0 i) as [Hlo | Hlo];
    [destruct (Z.lt_ge_cases i (Z.of_nat (length l))) as [Hhi | Hhi] |];
    try (rewrite rd_Undefined in Hrd by lia; discriminate).
  rewrite rd_Done in Hrd by lia. injection Hrd as <-. split; [lia | reflexivity].
Qed.

Lemma wr_Done_inv {A : Type} (a : array_id) (l : list A) (i : Z) (v : A)
  (l' : list A) :
  wr a l i v = Done l' ->
  0 <= i < Z.of_nat (length l) /\ l' = <[Z.to_nat i := v]> l.
Proof.
  intros Hwr.
  destruct (Z.le_gt_cases 0 i) as [Hlo | Hlo];
    [destruct (Z.lt_ge_cases i (Z.of_nat (length l))) as [Hhi | Hhi] |];
    try (rewrite wr_Undefined in Hwr by lia; discriminate).
  rewrite wr_Done in Hwr by lia. injection Hwr as <-. split; [lia | reflexivity].
Qed.

Lemma testbit_high_u8 (v i : Z) :
  0 <= v < 256 -> 8 <= i -> Z.testbit v i = false.
Proof.
  intros Hv Hi. rewrite <- (Z.mod_small v (2 ^ 8)) by (change (2 ^ 8) with 256; lia).
  apply Z.mod_pow2_bits_high. lia.
Qed.

Lemma u8_of_high_bits (v : Z) :
  0 <= v -> (forall i, 8 <= i -> Z.testbit v i = false) -> 0 <= v < 256.
Proof.
  intros Hv Hbits. split; [exact Hv|].
  assert (Hmod : v mod 2 ^ 8 = v).
  { apply Z.bits_inj'. intros i Hi. destruct (Z.lt_ge_cases i 8) as [Hlo | Hhi].
    - now apply Z.mod_pow2_bits_low.
    - rewrite Z.mod_pow2_bits_high by lia. symmetry. now apply Hbits. }
  rewrite <- Hmod. apply Z.mod_pos_bound. reflexivity.
Qed.

Lemma land_u8 (a b : Z) : 0 <= b < 256 -> 0 <= Z.land a b < 256.
Proof.
  intros Hb. apply u8_of_high_bits.
  - apply Z.land_nonneg. lia.
  - intros i Hi. now rewrite Z.land_spec, (testbit_high_u8 b i), andb_false_r.
Qed.

Lemma lor_u8 (a b : Z) : 0 <= a < 256 -> 0 <= b < 256 -> 0 <= Z.lor a b < 256.
Proof.
  intros Ha Hb. apply u8_of_high_bits.
  - apply Z.lor_nonneg. lia.
  - intros i Hi. now rewrite Z.lor_spec, !testbit_high_u8.
Qed.

Lemma lxor_u8 (a b : Z) :
  0 <= a < 256 -> 0 <= b < 256 -> 0 <= Z.lxor a b < 256.
Proof.
  intros Ha Hb. apply u8_of_high_bits.
  - apply Z.lxor_nonneg. lia.
  - intros i Hi. now rewrite Z.lxor_spec, !testbit_high_u8.
Qed.

Lemma shiftr1_u8 (a : Z) : 0 <= a < 256 -> 0 <= Z.shiftr a 1 < 256.
Proof.
  intros Ha. rewrite Z.shiftr_div_pow2 by lia. change (2 ^ 1) with 2.
  Z.div_mod_to_equations. lia.
Qed.

Section Kept.
Variable s0 : Chip8.

Ltac kept_setter :=
  let H := fresh in
  intros H; destruct H as [[] ? ? ?]; repeat constructor; cbn in *;
  rewrite ?length_insert, ?is_u8_range, ?is_u16_range in *;
  auto using forallb_insert; try lia.

Lemma kept_set_PC (v : Z) (s : Chip8) :
  kept s0 s -> 0 <= v < 65536 -> kept s0 (set_PC v s).
Proof. kept_setter. Qed.

Lemma kept_set_I (v : Z) (s : Chip8) :
  kept s0 s -> 0 <= v < 65536 -> kept s0 (set_I v s).
Proof. kept_setter. Qed.

Lemma kept_set_sp (v : Z) (s : Chip8) :
  kept s0 s -> 0 <= v < 256 -> kept s0 (set_sp v s).
Proof. kept_setter. Qed.

Lemma kept_set_delay_timer (v : Z) (s : Chip8) :
  kept s0 s -> 0 <= v < 256 -> kept s0 (set_delay_timer v s).
Proof. kept_setter. Qed.

Lemma kept_set_sound_timer (v : Z) (s : Chip8) :
  kept s0 s -> 0 <= v < 256 -> kept s0 (set_sound_timer v s).
Proof. kept_setter. Qed.

Lemma kept_set_drawFlag (s : Chip8) :
  kept s0 s -> kept s0 (set_drawFlag true s).
Proof. kept_setter. Qed.

Lemma kept_set_gfx (g : list bool) (s : Chip8) :
  kept s0 s -> length g = 2048%nat -> kept s0 (set_gfx g s).
Proof. kept_setter. Qed.

Lemma kept_set_reg (x v : Z) (s s' : Chip8) :
  kept s0 s -> 0 <= v < 256 -> set_reg x v s = Done s' -> kept s0 s'.
Proof.
  intros Hk Hv Hset. unfold set_reg in Hset.
  apply bind_Done in Hset as (V' & Hwr & Hs). injection Hs as <-.
  apply wr_Done_inv in Hwr as [_ ->]. revert Hk Hv. kept_setter.
  apply forallb_insert; [assumption|]. apply is_u8_range. lia.
Qed.

Lemma kept_set_mem (a v : Z) (s s' : Chip8) :
  kept s0 s -> 0 <= v < 256 -> set_mem a v s = Done s' -> kept s0 s'.
Proof.
  intros Hk Hv Hset. unfold set_mem in Hset.
  apply bind_Done in Hset as (m & Hwr & Hs). injection Hs as <-.
  apply wr_Done_inv in Hwr as [_ ->]. revert Hk Hv. kept_setter.
  apply forallb_insert; [assumption|]. apply is_u8_range. lia.
Qed.

Lemma kept_skip_if (b : bool) (s : Chip8) : kept s0 s -> kept s0 (skip_if b s).
Proof.
  intros Hk. unfold skip_if. destruct b; [|exact Hk].
  apply kept_set_PC; [exact Hk | apply u16_range].
Qed.

Lemma kept_get_reg (x v : Z) (s : Chip8) :
  kept s0 s -> get_reg x s = Done v -> 0 <= v < 256.
Proof.
  intros [Hwf _ _ _] Hget. apply rd_Done_inv in Hget as [Hx ->].
  apply is_u8_range. apply forallb_lookup_total; [apply Hwf | lia].
Qed.

Lemma kept_get_mem (a v : Z) (s : Chip8) :
  kept s0 s -> get_mem a s = Done v -> 0 <= v < 256.
Proof.
  intros [Hwf _ _ _] Hget. apply rd_Done_inv in Hget as [Hx ->].
  apply is_u8_range. apply forallb_lookup_total; [apply Hwf | lia].
Qed.

Lemma kept_draw_pixel (vx vy row sprite col : Z) (s s' : Chip8) :
  kept s0 s -> draw_pixel vx vy row sprite col s = Done s' -> kept s0 s'.
Proof.
  intros Hk Hrun. unfold draw_pixel in Hrun.
  destruct (negb _); [|injection Hrun as <-; exact Hk].
  destruct (_ <? _); [|injection Hrun as <-; exact Hk].
  apply bind_Done in Hrun as (p & _ & Hrun).
  apply bind_Done in Hrun as (s1 & Hflag & Hrun).
  apply bind_Done in Hrun as (p' & _ & Hrun).
  apply bind_Done in Hrun as (g & Hwr & Hrun). injection Hrun as <-.
  assert (Hk1 : kept s0 s1).
  { destruct p; [|injection Hflag as <-; exact Hk].
    apply (kept_set_reg 15 1 s s1); [exact Hk | lia | exact Hflag]. }
  apply wr_Done_inv in Hwr as [_ ->].
  apply kept_set_gfx; [exact Hk1|]. rewrite length_insert. apply Hk1.
Qed.

Lemma kept_draw_sprite (vx vy n : Z) (s s' : Chip8) :
  kept s0 s -> draw_sprite vx vy n s = Done s' -> kept s0 s'.
Proof.
  intros Hk Hrun. unfold draw_sprite in Hrun.
  apply bind_Done in Hrun as (s1 & Hrows & Hrun). injection Hrun as <-.
  apply kept_set_drawFlag.
  eapply (for_loop_inv (kept s0)); [|exact Hk|exact Hrows].
  intros row t t' _ Ht Hrow. unfold draw_row in Hrow.
  apply bind_Done in Hrow as (sprite & _ & Hcols).
  eapply (for_loop_inv (kept s0)); [|exact Ht|exact Hcols].
  intros col u u' _. apply kept_draw_pixel.
Qed.

Lemma kept_RET (s s' : Chip8) : kept s0 s -> RET s = Done s' -> kept s0 s'.
Proof.
  intros Hk Hrun. unfold RET in Hrun.
  apply bind_Done in Hrun as (a & Hrd & Hrun). injection Hrun as <-.
  assert (Hk1 : kept s0 (set_sp (u8 (sp s - 1)) s))
    by (apply kept_set_sp; [exact Hk | apply u8_range]).
  apply kept_set_PC; [exact Hk1|].
  apply rd_Done_inv in Hrd as [Hsp ->]. apply is_u16_range.
  apply forallb_lookup_total; [apply Hk1 | lia].
Qed.

Lemma kept_CALL (nnn : Z) (s s' : Chip8) :
  kept s0 s -> 0 <= nnn < 4096 -> CALL nnn s = Done s' -> kept s0 s'.
Proof.
  intros Hk Hn Hrun. unfold CALL in Hrun.
  apply bind_Done in Hrun as (st & Hwr & Hrun). injection Hrun as <-.
  apply wr_Done_inv in Hwr as [_ ->].
  apply kept_set_PC; [|lia]. apply kept_set_sp; [|apply u8_range].
  destruct Hk as [Hwf Hkeys Hbeep Hdraw].
  pose proof (wf_PC s Hwf) as HPC. destruct Hwf.
  repeat constructor; cbn; rewrite ?length_insert; auto using forallb_insert.
Qed.

Ltac binds H :=
  repeat match type of H with
         | bind _ _ = Done _ =>
             let v := fresh "v" in
             let Hv := fresh "Hv" in
             apply bind_Done in H as (v & Hv & H)
         end.

Lemma kept_ADD_Vx_Vy (x y : Z) (s s' : Chip8) :
  kept s0 s -> ADD_Vx_Vy x y s = Done s' -> kept s0 s'.
Proof.
  intros Hk Hrun. unfold ADD_Vx_Vy in Hrun. binds Hrun.
  eapply kept_set_reg; [|  |exact Hrun].
  - eapply kept_set_reg; [exact Hk| |exact Hv1]. apply land_u8. lia.
  - destruct (_ >? _); lia.
Qed.

Lemma kept_SUB_Vx_Vy (x y : Z) (s s' : Chip8) :
  kept s0 s -> SUB_Vx_Vy x y s = Done s' -> kept s0 s'.
Proof.
  intros Hk Hrun. unfold SUB_Vx_Vy in Hrun. binds Hrun.
  eapply kept_set_reg; [|apply u8_range|exact Hrun].
  eapply kept_set_reg; [exact Hk| |exact Hv1]. destruct (_ >=? _); lia.
Qed.

Lemma kept_SUBN_Vx_Vy (x y : Z) (s s' : Chip8) :
  kept s0 s -> SUBN_Vx_Vy x y s = Done s' -> kept s0 s'.
Proof.
  intros Hk Hrun. unfold SUBN_Vx_Vy in Hrun. binds Hrun.
  eapply kept_set_reg; [|apply u8_range|exact Hrun].
  eapply kept_set_reg; [exact Hk| |exact Hv1]. destruct (_ >=? _); lia.
Qed.

Lemma kept_SHR_Vx (x : Z) (s s' : Chip8) :
  kept s0 s -> SHR_Vx x s = Done s' -> kept s0 s'.
Proof.
  intros Hk Hrun. unfold SHR_Vx in Hrun. binds Hrun.
  assert (Hk1 : kept s0 v0)
    by (eapply kept_set_reg; [exact Hk| |exact Hv0]; apply land_u8; lia).
  eapply kept_set_reg; [exact Hk1| |exact Hrun].
  apply shiftr1_u8. eapply kept_get_reg; eassumption.
Qed.

Lemma kept_SHL_Vx (x : Z) (s s' : Chip8) :
  kept s0 s -> SHL_Vx x s = Done s' -> kept s0 s'.
Proof.
  intros Hk Hrun. unfold SHL_Vx in Hrun. binds Hrun.
  eapply kept_set_reg; [|apply u8_range|exact Hrun].
  eapply kept_set_reg; [exact Hk| |exact Hv0]. apply land_u8. lia.
Qed.

Lemma kept_DRW (x y n : Z) (s s' : Chip8) :
  kept s0 s -> DRW x y n s = Done s' -> kept s0 s'.
Proof.
  intros Hk Hrun. unfold DRW in Hrun. binds Hrun.
  eapply kept_draw_sprite; [|exact Hrun].
  eapply kept_set_reg; [exact Hk| |exact Hv]. lia.
Qed.

Lemma kept_LD_Vx_K (x : Z) (s s' : Chip8) :
  kept s0 s -> LD_Vx_K x s = Done s' -> kept s0 s'.
Proof.
  intros Hk Hrun. unfold LD_Vx_K in Hrun. binds Hrun. injection Hrun as <-.
  assert (Hst : kept s0 (fst v)).
  { apply (for_loop_inv (fun st => kept s0 (fst st)) (scan_key x) 16 0
             (s, false) v);
      [|exact Hk|exact Hv].
    intros i t t' Hi Ht Hscan. unfold scan_key in Hscan. binds Hscan.
    destruct v0; [|injection Hscan as <-; exact Ht].
    binds Hscan. injection Hscan as <-. cbn [fst].
    eapply kept_set_reg; [exact Ht| |exact Hv1]. lia. }
  destruct (negb _); [|exact Hst].
  apply kept_set_PC; [exact Hst | apply u16_range].
Qed.

Lemma kept_LD_B_Vx (x : Z) (s s' : Chip8) :
  kept s0 s -> LD_B_Vx x s = Done s' -> kept s0 s'.
Proof.
  intros Hk Hrun. unfold LD_B_Vx in Hrun. binds Hrun.
  pose proof (kept_get_reg _ _ _ Hk Hv) as Hr.
  assert (Hk1 : kept s0 v0).
  { eapply kept_set_mem; [exact Hk| |exact Hv0].
    Z.div_mod_to_equations. lia. }
  assert (Hk2 : kept s0 v2).
  { eapply kept_set_mem; [exact Hk1| |exact Hv2].
    Z.div_mod_to_equations. lia. }
  eapply kept_set_mem; [exact Hk2| |exact Hrun].
  Z.div_mod_to_equations. lia.
Qed.

Lemma kept_LD_I_Vx (x : Z) (s s' : Chip8) :
  kept s0 s -> LD_I_Vx x s = Done s' -> kept s0 s'.
Proof.
  intros Hk Hrun. unfold LD_I_Vx in Hrun. binds Hrun. injection Hrun as <-.
  apply kept_set_I; [|apply u16_range].
  eapply (for_loop_inv (kept s0)); [|exact Hk|exact Hv].
  intros i t t' _ Ht Hbody. cbv beta in Hbody. binds Hbody.
  eapply kept_set_mem; [exact Ht| |exact Hbody].
  eapply kept_get_reg; eassumption.
Qed.

Lemma kept_LD_Vx_I (x : Z) (s s' : Chip8) :
  kept s0 s -> LD_Vx_I x s = Done s' -> kept s0 s'.
Proof.
  intros Hk Hrun. unfold LD_Vx_I in Hrun. binds Hrun. injection Hrun as <-.
  apply kept_set_I; [|apply u16_range].
  eapply (for_loop_inv (kept s0)); [|exact Hk|exact Hv].
  intros i t t' _ Ht Hbody. cbv beta in Hbody. binds Hbody.
  eapply kept_set_reg; [exact Ht| |exact Hbody].
  eapply kept_get_mem; eassumption.
Qed.
End Kept.

Ltac binds H :=
  repeat match type of H with
         | bind _ _ = Done _ =>
             let v := fresh "v" in
             let Hv := fresh "Hv" in
             apply bind_Done in H as (v & Hv & H)
         end.

Ltac kept_step Hk :=
  match goal with
  | H : Done _ = Done _ |- _ => injection H as <-
  | H : bind _ _ = Done _ |- _ => binds H
  | H : (if ?b then _ else _) = Done _ |- _ => destruct b
  | H : get_reg _ _ = Done _ |- _ => apply (kept_get_reg _ _ _ _ Hk) in H
  | H : RET _ = Done ?t |- kept _ ?t => exact (kept_RET _ _ _ Hk H)
  | H : CALL ?a _ = Done ?t |- kept _ ?t =>
      apply (kept_CALL _ a _ _ Hk); [lia | exact H]
  | H : ADD_Vx_Vy _ _ _ = Done ?t |- kept _ ?t =>
      exact (kept_ADD_Vx_Vy _ _ _ _ _ Hk H)
  | H : SUB_Vx_Vy _ _ _ = Done ?t |- kept _ ?t =>
      exact (kept_SUB_Vx_Vy _ _ _ _ _ Hk H)
  | H : SUBN_Vx_Vy _ _ _ = Done ?t |- kept _ ?t =>
      exact (kept_SUBN_Vx_Vy _ _ _ _ _ Hk H)
  | H : SHR_Vx _ _ = Done ?t |- kept _ ?t => exact (kept_SHR_Vx _ _ _ _ Hk H)
  | H : SHL_Vx _ _ = Done ?t |- kept _ ?t => exact (kept_SHL_Vx _ _ _ _ Hk H)
  | H : DRW _ _ _ _ = Done ?t |- kept _ ?t => exact (kept_DRW _ _ _ _ _ _ Hk H)
  | H : LD_Vx_K _ _ = Done ?t |- kept _ ?t => exact (kept_LD_Vx_K _ _ _ _ Hk H)
  | H : LD_B_Vx _ _ = Done ?t |- kept _ ?t => exact (kept_LD_B_Vx _ _ _ _ Hk H)
  | H : LD_I_Vx _ _ = Done ?t |- kept _ ?t => exact (kept_LD_I_Vx _ _ _ _ Hk H)
  | H : LD_Vx_I _ _ = Done ?t |- kept _ ?t => exact (kept_LD_Vx_I _ _ _ _ Hk H)
  | H : set_reg _ _ _ = Done ?t |- kept _ ?t =>
      apply (kept_set_reg _ _ _ _ _ Hk) in H; [exact H|]
  | |- kept _ (skip_if _ _) => apply kept_skip_if
  | |- kept _ (set_PC _ _) => apply kept_set_PC
  | |- kept _ (set_I _ _) => apply kept_set_I
  | |- kept _ (set_delay_timer _ _) => apply kept_set_delay_timer
  | |- kept _ (set_sound_timer _ _) => apply kept_set_sound_timer
  | |- kept _ (set_drawFlag true _) => apply kept_set_drawFlag
  | |- kept _ (set_gfx _ _) => apply kept_set_gfx
  | |- kept _ _ => exact Hk
  | |- 0 <= u8 _ < 256 => apply u8_range
  | |- 0 <= u16 _ < 65536 => apply u16_range
  | |- 0 <= Z.lor _ _ < 256 => apply lor_u8
  | |- 0 <= Z.lxor _ _ < 256 => apply lxor_u8
  | |- 0 <= Z.land _ _ < 256 => apply land_u8
  | |- 0 <= 80 + Z.land ?v 15 * 5 < 65536 =>
      pose proof (land_u8 v 15 ltac:(lia)); lia
  | |- length (replicate _ _) = _ => rewrite length_replicate; apply Hk
  | |- _ => lia
  end.

Lemma execute_kept (rnd op : Z) (s0 s s' : Chip8) :
  kept s0 s -> execute rnd op s = Done s' -> kept s0 s'.
Proof.
  intros Hk Hrun. unfold execute in Hrun. cbv zeta in Hrun.
  rewrite decode_x, decode_y, decode_n, decode_nn, decode_nnn in Hrun.
  pose proof (Z.mod_pos_bound (op / 256) 16 ltac:(lia)) as Hx.
  pose proof (Z.mod_pos_bound (op / 16) 16 ltac:(lia)) as Hy.
  pose proof (Z.mod_pos_bound op 16 ltac:(lia)) as Hn.
  pose proof (Z.mod_pos_bound op 256 ltac:(lia)) as Hnn.
  pose proof (Z.mod_pos_bound op 4096 ltac:(lia)) as Hnnn.
  pose proof (proj1 (is_u8_range _) (wf_delay_timer s (kept_wf _ _ Hk))) as Hdt.
  revert Hrun Hx Hy Hn Hnn Hnnn.
  generalize (op / 256 mod 16) as x, (op / 16 mod 16) as y, (op mod 16) as n,
    (op mod 256) as nn, (op mod 4096) as nnn, (Z.land op 61440) as c.
  intros x y n nn nnn c.
  repeat match goal with
         | |- context [match ?v with _ => _ end] => is_var v; destruct v
         end;
    intros Hrun Hx Hy Hn Hnn Hnnn; repeat kept_step Hk.
Qed.

Lemma kept_refl (s : Chip8) : wf s -> kept s s.
Proof. intros Hwf. now constructor. Qed.

Lemma emulateCycle_kept (rnd : Z) (s s' : Chip8) :
  wf s -> emulateCycle rnd s = Done s' -> kept s s'.
Proof.
  intros Hwf Hrun. unfold emulateCycle in Hrun.
  apply bind_Done in Hrun as (op & _ & Hrun).
  apply (execute_kept rnd op s (set_PC (u16 (PC s + 2)) s) s'); [|exact Hrun].
  apply kept_set_PC; [now apply kept_refl | apply u16_range].
Qed.

Lemma forallb_store_from (P : Z -> bool) (src : list Z) : forall at_ dst,
  forallb P dst = true -> forallb P src = true ->
  forallb P (store_from at_ src dst) = true.
Proof.
  induction src as [|b src IH]; intros at_ dst Hdst Hsrc; [exact Hdst|].
  cbn [forallb] in Hsrc. apply andb_true_iff in Hsrc as [Hb Hsrc].
  cbn [store_from]. apply IH; [|exact Hsrc]. now apply forallb_insert.
Qed.

Lemma wf_reset (s : Chip8) : wf (reset s).
Proof. apply wfb_wf. vm_compute. reflexivity. Qed.

Lemma wf_decrementTimers (s : Chip8) : wf s -> wf (decrementTimers s).
Proof.
  intros Hwf. pose proof (u8_range (delay_timer s - 1)) as Hd.
  pose proof (u8_range (sound_timer s - 1)) as Hs.
  destruct Hwf. unfold decrementTimers.
  destruct (delay_timer s >? 0); cbn [sound_timer set_delay_timer];
    destruct (sound_timer s >? 0); constructor; cbn; auto;
    apply is_u8_range; assumption.
Qed.

Ltac split_matches :=
  repeat match goal with
         | |- context [match ?v with _ => _ end] => is_var v; destruct v
         end.

Lemma key_for_range (code : Z) : key_for code = -1 \/ 0 <= key_for code < 16.
Proof. unfold key_for. split_matches; lia. Qed.

Lemma set_key_Done (k : Z) (pressed : bool) (s : Chip8) :
  length (keys s) = 16%nat -> 0 <= k < 16 ->
  set_key k pressed s = Done (upd_key k pressed s).
Proof.
  intros Hlen Hk. unfold set_key, upd_key.
  now rewrite wr_Done by (rewrite Hlen; lia).
Qed.

Lemma set_key_Undefined (k : Z) (pressed : bool) (s : Chip8) :
  length (keys s) = 16%nat -> ~ 0 <= k < 16 ->
  set_key k pressed s = Undefined (OutOfBounds Keys k).
Proof.
  intros Hlen Hk. unfold set_key.
  now rewrite wr_Undefined by (rewrite Hlen; lia).
Qed.

Lemma wf_upd_key (k : Z) (pressed : bool) (s : Chip8) :
  wf s -> wf (upd_key k pressed s).
Proof. intros []. constructor; cbn; rewrite ?length_insert; auto. Qed.

Lemma MapKey_set_key (code : Z) (pressed : bool) (s : Chip8) :
  MapKey code pressed s
  = if key_for code =? -1 then Done s else set_key (key_for code) pressed s.
Proof. unfold MapKey, set_key. cbv zeta. now destruct (key_for code =? -1). Qed.

(** X2: the operations the host calls keep the state well formed: [reset]
    gives a well-formed state from any state, [loadROM] does for any file of
    bytes (and for a file that cannot be opened), [decrementTimers] keeps a
    well-formed state well formed, and so does a key event: [MapKey]
    completes for every key code, and the write [keys[k] = pressed] it ends
    in completes exactly for k in 0..15, where it keeps the state well
    formed. *)
Theorem host_operations_keep_well_formed :
  (forall s, wf (reset s)) /\
  (forall file s,
     (forall bytes, file = Some bytes -> forallb is_u8 bytes = true) ->
     wf (snd (loadROM file s))) /\
  (forall s, wf s -> wf (decrementTimers s)) /\
  (forall code pressed s, wf s ->
     exists s', MapKey code pressed s = Done s' /\ wf s') /\
  (forall k pressed s, wf s ->
     (0 <= k < 16 ->
      exists s', set_key k pressed s = Done s' /\ wf s') /\
     (~ 0 <= k < 16 ->
      set_key k pressed s = Undefined (OutOfBounds Keys k))).
Proof.
  split; [exact wf_reset|].
  split; [|split; [exact wf_decrementTimers|split]].
  - intros file s Hbytes. unfold loadROM.
    destruct file as [bytes|]; [|apply wf_reset].
    destruct (_ >? _); [apply wf_reset|]. cbn [snd].
    pose proof (wf_reset s) as [].
    constructor; cbn [gfx keys memory V stack I PC sp delay_timer sound_timer
                        set_memory]; auto.
    + now rewrite length_store_from.
    + apply forallb_store_from; auto.
  - intros code pressed s Hwf. rewrite MapKey_set_key.
    destruct (key_for_range code) as [Hno | Hk].
    + rewrite Hno. cbn. eauto.
    + replace (key_for code =? -1) with false by lia.
      exists (upd_key (key_for code) pressed s). split.
      * apply set_key_Done; [apply Hwf | exact Hk].
      * now apply wf_upd_key.
  - intros k pressed s Hwf. split; intros Hk.
    + exists (upd_key k pressed s). split.
      * apply set_key_Done; [apply Hwf | exact Hk].
      * now apply wf_upd_key.
    + apply set_key_Undefined; [apply Hwf | exact Hk].
Qed.

(** [host_operations_keep_well_formed] on a loaded program, a timer tick
    after [reset], the key event of the key code 65 ('A', key 7) and the
    writes [keys[7] = true] and [keys[16] = true]. *)
Lemma host_operations_keep_well_formed_witness :
  wf (snd (loadROM (Some Rom.add_v0_v1) Chip8_new)) /\
  wf (decrementTimers (reset Chip8_new)) /\
  (exists s', MapKey 65 true (reset Chip8_new) = Done s' /\ wf s') /\
  (exists s', set_key 7 true (reset Chip8_new) = Done s' /\ wf s') /\
  set_key 16 true (reset Chip8_new) = Undefined (OutOfBounds Keys 16).
Proof.
  destruct host_operations_keep_well_formed
    as (Hreset & Hload & Htick & Hevent & Hkey).
  split; [|split; [|split; [|split]]].
  - apply Hload. intros bytes Hb. injection Hb as <-. vm_compute. reflexivity.
  - apply Htick, Hreset.
  - apply Hevent, Hreset.
  - apply (Hkey 7 true (reset Chip8_new) (Hreset Chip8_new)). lia.
  - apply (Hkey 16 true (reset Chip8_new) (Hreset Chip8_new)). lia.
Defined.

(** X3: no opcode writes the key flags or the beep flag, and no opcode
    clears the draw flag: after a completed cycle the keys and the beep flag
    are those of before, and a draw flag that was raised is still raised. *)
Theorem engine_leaves_host_state (rnd : Z) (s s' : Chip8) :
  wf s -> emulateCycle rnd s = Done s' ->
  keys s' = keys s /\ beepFlag s' = beepFlag s /\
  (drawFlag s = true -> drawFlag s' = true).
Proof.
  intros Hwf Hrun. destruct (emulateCycle_kept rnd s s' Hwf Hrun).
  auto.
Qed.

Lemma engine_leaves_host_state_witness :
  keys (after 1 Rom.add_v0_v1) = keys (boot Rom.add_v0_v1) /\ beepFlag (after 1 Rom.add_v0_v1) = beepFlag (boot Rom.add_v0_v1) /\
  (drawFlag (boot Rom.add_v0_v1) = true -> drawFlag (after 1 Rom.add_v0_v1) = true).
Proof.
  apply (engine_leaves_host_state 0 (boot Rom.add_v0_v1) (after 1 Rom.add_v0_v1)).
  - concrete.
  - concrete.
Defined.

Lemma run_wf (n : nat) (rnd : Z) : forall s s',
  wf s -> run n rnd s = Done s' -> wf s'.
Proof.
  induction n as [|n IH]; intros s s' Hwf Hrun.
  - injection Hrun as <-. exact Hwf.
  - cbn [run] in Hrun. apply bind_Done in Hrun as (s1 & Hstep & Hrest).
    apply (IH s1 s'); [|exact Hrest].
    exact (kept_wf _ _ (emulateCycle_kept rnd s s1 Hwf Hstep)).
Qed.

Lemma cycles_wf (rnds : list Z) : forall s s',
  wf s -> cycles rnds s = Done s' -> wf s'.
Proof.
  induction rnds as [|rnd rest IH]; intros s s' Hwf Hrun.
  - injection Hrun as <-. exact Hwf.
  - cbn [cycles] in Hrun. apply bind_Done in Hrun as (s1 & Hstep & Hrest).
    apply (IH s1 s'); [|exact Hrest].
    exact (kept_wf _ _ (emulateCycle_kept rnd s s1 Hwf Hstep)).
Qed.

Lemma run_cycles (n : nat) (rnd : Z) : forall s,
  run n rnd s = cycles (replicate n rnd) s.
Proof.
  induction n as [|n IH]; intros s; [reflexivity|].
  cbn [run replicate cycles]. destruct (emulateCycle rnd s); cbn [bind]; auto.
Qed.

(** X1: a cycle that completes from a well-formed state ends in a
    well-formed state, whatever the opcode and the random byte: every array
    keeps its size, every byte, address and counter stays in the range of
    its C++ type.  So does any number of cycles, whatever random byte each
    of them draws. *)
Theorem cycles_keep_well_formed (s : Chip8) :
  wf s ->
  (forall rnd s', emulateCycle rnd s = Done s' -> wf s') /\
  (forall rnds s', cycles rnds s = Done s' -> wf s').
Proof.
  intros Hwf. split.
  - intros rnd s' Hrun.
    exact (kept_wf _ _ (emulateCycle_kept rnd s s' Hwf Hrun)).
  - intros rnds s'. now apply cycles_wf.
Qed.

(** [cycles_keep_well_formed] on RND V0,0xFF; RND V1,0xFF, the generator
    yielding 0x12 and then 0x34. *)
Lemma cycles_keep_well_formed_witness :
  cycles [0x12; 0x34] (boot Demo.rnd_twice) = Done rnd_twice_end /\
  reg rnd_twice_end 0 = 0x12 /\ reg rnd_twice_end 1 = 0x34 /\
  wf (after 1 Rom.add_v0_v1) /\ wf rnd_twice_end.
Proof.
  do 3 (split; [vm_compute; reflexivity|]).
  destruct (cycles_keep_well_formed (boot Rom.add_v0_v1)) as [Hone _];
    [apply wfb_wf; vm_compute; reflexivity|].
  destruct (cycles_keep_well_formed (boot Demo.rnd_twice)) as [_ Hmany];
    [apply wfb_wf; vm_compute; reflexivity|].
  split.
  - apply (Hone 0). vm_compute. reflexivity.
  - apply (Hmany [0x12; 0x34]). vm_compute. reflexivity.
Defined.

(** ** Dxyn: what a draw does to the display *)

Lemma drawn_nil (s : Chip8) : drawn [] s = s.
Proof. now destruct s. Qed.

Lemma drawn_cons (c : Z) (cs : list Z) (s : Chip8) :
  drawn (c :: cs) s = drawn cs (drawn [c] s).
Proof.
  unfold drawn. cbn [foldl collides]. rewrite orb_false_r.
  destruct (gfx s !!! Z.to_nat c); cbn [orb gfx set_gfx upd_reg set_V].
  - destruct (collides _ cs); [|reflexivity].
    unfold upd_reg, set_gfx, set_V. cbn. now rewrite list_insert_insert_eq.
  - now destruct (collides _ cs).
Qed.

Lemma drawn_app (l k : list Z) : forall s,
  drawn (l ++ k) s = drawn k (drawn l s).
Proof.
  induction l as [|c l IH]; intros s; cbn [app].
  - now rewrite drawn_nil.
  - now rewrite drawn_cons, IH, <- drawn_cons.
Qed.

Lemma drawn_frame (cells : list Z) (s : Chip8) :
  memory (drawn cells s) = memory s /\ I (drawn cells s) = I s /\
  length (V (drawn cells s)) = length (V s) /\
  PC (drawn cells s) = PC s /\ keys (drawn cells s) = keys s.
Proof.
  unfold drawn. destruct (collides _ _); cbn; rewrite ?length_insert; auto.
Qed.

Lemma length_toggle (g : list bool) (c : Z) : length (toggle g c) = length g.
Proof. apply length_insert. Qed.

Lemma length_foldl_toggle (cells : list Z) : forall g,
  length (foldl toggle g cells) = length g.
Proof.
  induction cells as [|c cs IH]; intros g; [reflexivity|].
  cbn [foldl]. now rewrite IH, length_toggle.
Qed.

Lemma draw_pixel_drawn (vx vy row sprite col : Z) (s : Chip8) :
  length (gfx s) = 2048%nat -> length (V s) = 16%nat ->
  0 <= (vy + row) * 64 + (vx + col) ->
  draw_pixel vx vy row sprite col s =
  Done (drawn (if lit sprite col && ((vy + row) * 64 + (vx + col) <? 64 * 32)
               then [(vy + row) * 64 + (vx + col)] else []) s).
Proof.
  intros Hg HV Hidx. unfold draw_pixel. fold (lit sprite col).
  set (idx := (vy + row) * 64 + (vx + col)) in *.
  destruct (lit sprite col); cbn [andb]; [|now rewrite drawn_nil].
  destruct (Z.ltb_spec idx (64 * 32)) as [Hin | Hout];
    [|now rewrite drawn_nil].
  rewrite rd_Done by lia. cbn [bind]. unfold drawn. cbn [foldl collides].
  rewrite orb_false_r. destruct (gfx s !!! Z.to_nat idx) eqn:Hp.
  - rewrite set_reg_Done by (assumption || lia). cbn [bind].
    change (gfx (upd_reg 15 1 s)) with (gfx s).
    rewrite rd_Done by lia. cbn [bind]. rewrite wr_Done by lia. cbn [bind].
    unfold toggle. now rewrite Hp.
  - cbn [bind]. rewrite rd_Done by lia. cbn [bind].
    rewrite wr_Done by lia. cbn [bind]. unfold toggle. now rewrite Hp.
Qed.

Lemma draw_cols_drawn (vx vy row sprite : Z) (cnt : nat) : forall lo s,
  length (gfx s) = 2048%nat -> length (V s) = 16%nat ->
  0 <= vy + row -> 0 <= vx + lo ->
  for_loop cnt lo (draw_pixel vx vy row sprite) s =
  Done (drawn (cols_cells cnt lo vx vy row sprite) s).
Proof.
  induction cnt as [|c IH]; intros lo s Hg HV Hrow Hcol.
  - cbn [for_loop cols_cells]. now rewrite drawn_nil.
  - cbn [for_loop cols_cells]. rewrite draw_pixel_drawn by (assumption || nia).
    cbn [bind]. rewrite drawn_app. apply IH; try lia.
    + unfold drawn. cbn [gfx set_gfx]. now rewrite length_foldl_toggle.
    + now rewrite (proj1 (proj2 (proj2 (drawn_frame _ s)))).
Qed.

Lemma draw_rows_drawn (vx vy : Z) (cnt : nat) : forall lo s,
  length (gfx s) = 2048%nat -> length (V s) = 16%nat ->
  length (memory s) = 4096%nat ->
  0 <= vx -> 0 <= vy -> 0 <= lo -> 0 <= I s ->
  I s + lo + Z.of_nat cnt <= 4096 ->
  for_loop cnt lo (draw_row vx vy) s =
  Done (drawn (rows_cells cnt lo vx vy (memory s) (I s)) s).
Proof.
  induction cnt as [|c IH]; intros lo s Hg HV Hm Hvx Hvy Hlo HI Hend.
  - cbn [for_loop rows_cells]. now rewrite drawn_nil.
  - cbn [for_loop rows_cells]. unfold draw_row at 1. unfold get_mem.
    rewrite rd_Done by lia. cbn [bind].
    rewrite draw_cols_drawn by (assumption || lia). cbn [bind].
    rewrite drawn_app.
    set (s1 := drawn (cols_cells 8 0 vx vy lo
                        (memory s !!! Z.to_nat (I s + lo))) s).
    destruct (drawn_frame (cols_cells 8 0 vx vy lo
                             (memory s !!! Z.to_nat (I s + lo))) s)
      as (Hmem & HIeq & HVeq & _).
    fold s1 in Hmem, HIeq, HVeq. rewrite <- Hmem, <- HIeq.
    apply IH; rewrite ?Hmem, ?HIeq, ?HVeq; try (assumption || lia).
    unfold s1, drawn. cbn [gfx set_gfx]. now rewrite length_foldl_toggle.
Qed.

Lemma land_pow2 (a k : Z) :
  0 <= k -> Z.land a (2 ^ k) = if Z.testbit a k then 2 ^ k else 0.
Proof.
  intros Hk. apply Z.bits_inj'. intros i Hi.
  rewrite Z.land_spec, Z.pow2_bits_eqb by assumption.
  destruct (Z.eqb_spec k i) as [-> | Hne].
  - destruct (Z.testbit a i); [|now rewrite Z.bits_0].
    now rewrite Z.pow2_bits_eqb, Z.eqb_refl by assumption.
  - rewrite andb_false_r. destruct (Z.testbit a k); [|now rewrite Z.bits_0].
    rewrite Z.pow2_bits_eqb by assumption. symmetry. now apply Z.eqb_neq.
Qed.

Lemma lit_testbit (sprite col : Z) :
  0 <= col < 8 -> lit sprite col = Z.testbit sprite (7 - col).
Proof.
  intros Hcol. unfold lit.
  replace (Z.shiftr 128 col) with (2 ^ (7 - col)).
  - rewrite land_pow2 by lia. destruct (Z.testbit sprite (7 - col)).
    + assert (0 < 2 ^ (7 - col)) by (apply Z.pow_pos_nonneg; lia).
      now replace (2 ^ (7 - col) =? 0) with false by lia.
    + reflexivity.
  - rewrite Z.shiftr_div_pow2 by lia. change 128 with (2 ^ 7).
    rewrite <- Z.pow_sub_r by lia. reflexivity.
Qed.

Lemma elem_of_cols_cells (vx vy row sprite j : Z) (cnt : nat) : forall lo,
  j ∈ cols_cells cnt lo vx vy row sprite <->
  exists col, lo <= col < lo + Z.of_nat cnt /\ lit sprite col = true /\
    j = (vy + row) * 64 + (vx + col) /\ j < 2048.
Proof.
  induction cnt as [|c IH]; intros lo; cbn [cols_cells].
  - split; [intros Hin; inversion Hin | intros (col & Hcol & _); lia].
  - rewrite elem_of_app, IH. split.
    + intros [Hhead | (col & Hcol & Hrest)].
      * destruct (lit sprite lo) eqn:Hlit; cbn [andb] in Hhead;
          [|inversion Hhead].
        destruct (Z.ltb_spec ((vy + row) * 64 + (vx + lo)) (64 * 32));
          [|inversion Hhead].
        apply list_elem_of_singleton in Hhead. exists lo. repeat split; lia || auto.
      * exists col. split; [lia | exact Hrest].
    + intros (col & Hcol & Hlit & Hj & Hlt).
      destruct (Z.eq_dec col lo) as [-> | Hne].
      * left. rewrite Hlit. cbn [andb]. 
        replace (_ <? _) with true by lia. apply list_elem_of_singleton. exact Hj.
      * right. exists col. repeat split; lia || auto.
Qed.

Lemma elem_of_rows_cells (vx vy : Z) (m : list Z) (i j : Z) (cnt : nat) :
  forall lo,
  j ∈ rows_cells cnt lo vx vy m i <->
  exists row col, lo <= row < lo + Z.of_nat cnt /\ 0 <= col < 8 /\
    lit (m !!! Z.to_nat (i + row)) col = true /\
    j = (vy + row) * 64 + (vx + col) /\ j < 2048.
Proof.
  induction cnt as [|c IH]; intros lo; cbn [rows_cells].
  - split; [intros Hin; inversion Hin | intros (row & col & Hrow & _); lia].
  - rewrite elem_of_app, IH, elem_of_cols_cells. split.
    + intros [(col & Hcol & Hrest) | (row & col & Hrow & Hrest)].
      * exists lo, col. split; [lia|]. split; [lia | exact Hrest].
      * exists row, col. split; [lia | exact Hrest].
    + intros (row & col & Hrow & Hcol & Hrest).
      destruct (Z.eq_dec row lo) as [-> | Hne].
      * left. exists col. split; [lia | exact Hrest].
      * right. exists row, col. split; [lia|]. split; [lia | exact Hrest].
Qed.

Lemma NoDup_cols_cells (vx vy row sprite : Z) (cnt : nat) : forall lo,
  NoDup (cols_cells cnt lo vx vy row sprite).
Proof.
  induction cnt as [|c IH]; intros lo; cbn [cols_cells]; [constructor|].
  apply NoDup_app. split; [|split; [|apply IH]].
  - destruct (_ && _); [apply NoDup_singleton | constructor].
  - intros j Hhead Htail. apply elem_of_cols_cells in Htail as (col & Hcol & _ & Hj & _).
    destruct (_ && _); [|inversion Hhead].
    apply list_elem_of_singleton in Hhead. lia.
Qed.

Lemma NoDup_rows_cells (vx vy : Z) (m : list Z) (i : Z) (cnt : nat) :
  0 <= vx < 64 -> forall lo, NoDup (rows_cells cnt lo vx vy m i).
Proof.
  intros Hvx. induction cnt as [|c IH]; intros lo; cbn [rows_cells];
    [constructor|].
  apply NoDup_app. split; [apply NoDup_cols_cells|]. split; [|apply IH].
  intros j Hhead Htail.
  apply elem_of_cols_cells in Hhead as (col & Hcol & _ & Hj & _).
  apply elem_of_rows_cells in Htail as (row' & col' & Hrow' & Hcol' & _ & Hj' & _).
  lia.
Qed.

Lemma rows_cells_range (vx vy : Z) (m : list Z) (i j : Z) (cnt : nat) (lo : Z) :
  0 <= vx -> 0 <= vy -> 0 <= lo ->
  j ∈ rows_cells cnt lo vx vy m i -> 0 <= j < 2048.
Proof.
  intros Hvx Hvy Hlo Hin.
  apply elem_of_rows_cells in Hin as (row & col & Hrow & Hcol & _ & Hj & Hlt).
  nia.
Qed.

Lemma foldl_toggle_lookup (l : list Z) : forall (g : list bool) (j : Z),
  NoDup l -> (forall c, c ∈ l -> 0 <= c < Z.of_nat (length g)) -> 0 <= j ->
  foldl toggle g l !!! Z.to_nat j =
  if decide (j ∈ l) then negb (g !!! Z.to_nat j) else g !!! Z.to_nat j.
Proof.
  induction l as [|c cs IH]; intros g j Hnd Hrange Hj.
  - cbn [foldl]. destruct (decide (j ∈ [])) as [Hin|]; [inversion Hin | reflexivity].
  - cbn [foldl]. apply NoDup_cons in Hnd as [Hc Hnd].
    rewrite IH; [|exact Hnd| |exact Hj].
    2:{ intros c' Hc'. rewrite length_toggle. apply Hrange. now right. }
    pose proof (Hrange c ltac:(left)) as Hcr.
    destruct (Z.eq_dec j c) as [-> | Hne].
    + destruct (decide (c ∈ cs)) as [|_]; [contradiction|].
      destruct (decide (c ∈ c :: cs)) as [_ | Hn]; [|exfalso; apply Hn; left].
      unfold toggle. apply list_lookup_total_insert_eq. lia.
    + assert (Htog : toggle g c !!! Z.to_nat j = g !!! Z.to_nat j)
        by (unfold toggle; apply list_lookup_total_insert_ne; lia).
      rewrite Htog.
      destruct (decide (j ∈ cs)) as [Hin | Hnin];
        destruct (decide (j ∈ c :: cs)) as [Hin' | Hnin']; try reflexivity.
      * exfalso. apply Hnin'. now right.
      * exfalso. apply elem_of_cons in Hin' as [? | ?]; [lia | contradiction].
Qed.

Lemma collides_iff (l : list Z) : forall (g : list bool),
  NoDup l -> (forall c, c ∈ l -> 0 <= c < Z.of_nat (length g)) ->
  collides g l = true <-> exists c, c ∈ l /\ g !!! Z.to_nat c = true.
Proof.
  induction l as [|c cs IH]; intros g Hnd Hrange; cbn [collides].
  - split; [discriminate | intros (c & Hin & _); inversion Hin].
  - apply NoDup_cons in Hnd as [Hc Hnd].
    pose proof (Hrange c ltac:(left)) as Hcr.
    rewrite orb_true_iff, IH; [|exact Hnd|].
    2:{ intros c' Hc'. rewrite length_toggle. apply Hrange. now right. }
    assert (Hsame : forall c', c' ∈ cs ->
              toggle g c !!! Z.to_nat c' = g !!! Z.to_nat c').
    { intros c' Hc'. pose proof (Hrange c' ltac:(now right)).
      unfold toggle. apply list_lookup_total_insert_ne.
      intros Heq. assert (c = c') by lia. subst c'. contradiction. }
    split.
    + intros [Hhead | (c' & Hc' & Hon)].
      * exists c. split; [left | exact Hhead].
      * exists c'. split; [now right|]. now rewrite <- Hsame.
    + intros (c' & Hc' & Hon). apply elem_of_cons in Hc' as [-> | Hc'].
      * now left.
      * right. exists c'. split; [exact Hc'|]. now rewrite Hsame.
Qed.

Lemma origin_range (s : Chip8) (r m : Z) : 0 < m -> 0 <= origin s r m < m.
Proof.
  intros Hm. unfold origin. destruct (r =? 15); [lia|].
  now apply Z.mod_pos_bound.
Qed.

Lemma draw_cycle (rnd : Z) (s : Chip8) (x y n : Z) :
  wf s -> 0 <= x < 16 -> 0 <= y < 16 -> 0 <= n < 16 ->
  fetch s = Done (opc 0xD x y n) -> I s + n <= 4096 ->
  emulateCycle rnd s =
  Done (set_drawFlag true
          (drawn (sprite_cells x y n s) (upd_reg 0xF 0 (set_PC (PC s + 2) s)))).
Proof.
  intros Hwf Hx Hy Hn Hf HI.
  pose proof (proj1 (is_u16_range _) (wf_I s Hwf)) as HIr.
  rewrite (emulateCycle_fetched rnd _ s Hf), execute_Dxyn by assumption.
  rewrite (advanced_PC s _ Hwf Hf).
  rewrite DRW_origin by (cbn [V set_PC]; (apply Hwf || assumption)).
  unfold draw_sprite.
  change (reg (set_PC (PC s + 2) s)) with (reg s). fold (origin s x 64).
  fold (origin s y 32).
  pose proof (origin_range s x 64 ltac:(lia)).
  pose proof (origin_range s y 32 ltac:(lia)).
  rewrite draw_rows_drawn;
    cbn [gfx V memory I upd_reg set_V set_PC]; rewrite ?length_insert;
    try (apply Hwf || lia).
  reflexivity.
Qed.

Lemma draw_rows_fault (vx vy : Z) (cnt : nat) : forall lo s,
  length (gfx s) = 2048%nat -> length (V s) = 16%nat ->
  length (memory s) = 4096%nat ->
  0 <= vx -> 0 <= vy -> 0 <= lo -> 0 <= I s ->
  (0 < cnt)%nat -> 4096 < I s + lo + Z.of_nat cnt ->
  for_loop cnt lo (draw_row vx vy) s =
  Undefined (OutOfBounds Memory (Z.max (I s + lo) 4096)).
Proof.
  induction cnt as [|c IH]; intros lo s Hg HV Hm Hvx Hvy Hlo HI Hpos Hend;
    [lia|].
  cbn [for_loop]. unfold draw_row at 1. unfold get_mem.
  destruct (Z.le_gt_cases 4096 (I s + lo)) as [Hout | Hin].
  - rewrite rd_Undefined by lia. cbn [bind]. now rewrite Z.max_l by lia.
  - rewrite rd_Done by lia. cbn [bind].
    rewrite draw_cols_drawn by (assumption || lia). cbn [bind].
    set (s1 := drawn _ s).
    destruct (drawn_frame (cols_cells 8 0 vx vy lo
                             (memory s !!! Z.to_nat (I s + lo))) s)
      as (Hmem & HIeq & HVeq & _).
    fold s1 in Hmem, HIeq, HVeq.
    rewrite IH; rewrite ?Hmem, ?HIeq, ?HVeq; try (assumption || lia).
    + do 2 f_equal. lia.
    + unfold s1, drawn. cbn [gfx set_gfx]. now rewrite length_foldl_toggle.
Qed.

Lemma reg_drawn (cells : list Z) (s : Chip8) (r : Z) :
  length (V s) = 16%nat -> 0 <= r < 15 -> reg (drawn cells s) r = reg s r.
Proof.
  intros HV Hr. unfold drawn. destruct (collides _ _); [|reflexivity].
  change (reg (set_gfx ?g ?t) r) with (reg t r).
  rewrite reg_upd_reg by lia. now replace (r =? 15) with false by lia.
Qed.

Lemma flag_drawn (cells : list Z) (s : Chip8) :
  length (V s) = 16%nat ->
  reg (drawn cells (upd_reg 0xF 0 s)) 0xF =
  if collides (gfx s) cells then 1 else 0.
Proof.
  intros HV. unfold drawn. change (gfx (upd_reg 15 0 s)) with (gfx s).
  destruct (collides _ _);
    change (reg (set_gfx ?g ?t) 15) with (reg t 15);
    rewrite ?upd_reg_twice, reg_upd_reg by lia; reflexivity.
Qed.

Lemma pixel_drawn (cells : list Z) (s : Chip8) (j : Z) :
  NoDup cells ->
  (forall c, c ∈ cells -> 0 <= c < Z.of_nat (length (gfx s))) -> 0 <= j ->
  pixel (drawn cells s) j =
  if decide (j ∈ cells) then negb (pixel s j) else pixel s j.
Proof.
  intros Hnd Hrange Hj. unfold pixel, drawn. cbn [gfx set_gfx].
  now apply foldl_toggle_lookup.
Qed.

Lemma sprite_cells_spec (x y n : Z) (s : Chip8) (j : Z) :
  0 <= n ->
  j ∈ sprite_cells x y n s <->
  exists row col, 0 <= row < n /\ 0 <= col < 8 /\
    Z.testbit (mem s (I s + row)) (7 - col) = true /\
    j = (origin s y 32 + row) * 64 + (origin s x 64 + col) /\ j < 2048.
Proof.
  intros Hn. unfold sprite_cells. rewrite elem_of_rows_cells. unfold mem.
  split; intros (row & col & Hrow & Hcol & Hlit & Hj);
    exists row, col; (split; [lia|]); (split; [exact Hcol|]);
    (split; [|exact Hj]).
  - now rewrite <- lit_testbit.
  - now rewrite lit_testbit.
Qed.

Lemma sprite_cells_range (x y n : Z) (s : Chip8) (c : Z) :
  c ∈ sprite_cells x y n s -> 0 <= c < 2048.
Proof.
  pose proof (origin_range s x 64 ltac:(lia)).
  pose proof (origin_range s y 32 ltac:(lia)).
  apply rows_cells_range; lia.
Qed.

Lemma NoDup_sprite_cells (x y n : Z) (s : Chip8) : NoDup (sprite_cells x y n s).
Proof. apply NoDup_rows_cells. apply origin_range. lia. Qed.

(** X4: what Dxyn does to the display, as the code has it.  With the
    sprite rows inside the memory, the cycle inverts every display cell
    (vy + row) * 64 + (vx + col) below 2048 whose sprite bit (bit 7 - col of
    memory[I + row]) is set, where (vx, vy) is the origin
    (Vx mod 64, Vy mod 32) read after VF was cleared, and leaves every other
    cell as it was.  The column vx + col itself is not bounded. *)
Theorem draw_flips_sprite_cells (rnd : Z) (s : Chip8) (x y n : Z) :
  wf s -> 0 <= x < 16 -> 0 <= y < 16 -> 0 <= n < 16 ->
  fetch s = Done (opc 0xD x y n) -> I s + n <= 4096 ->
  exists s', emulateCycle rnd s = Done s' /\
    forall j, 0 <= j < 2048 ->
      ((exists row col, 0 <= row < n /\ 0 <= col < 8 /\
          Z.testbit (mem s (I s + row)) (7 - col) = true /\
          j = (origin s y 32 + row) * 64 + (origin s x 64 + col)) ->
       pixel s' j = negb (pixel s j)) /\
      (~ (exists row col, 0 <= row < n /\ 0 <= col < 8 /\
            Z.testbit (mem s (I s + row)) (7 - col) = true /\
            j = (origin s y 32 + row) * 64 + (origin s x 64 + col)) ->
       pixel s' j = pixel s j).
Proof.
  intros Hwf Hx Hy Hn Hf HI. rewrite (draw_cycle rnd s x y n) by assumption.
  eexists. split; [reflexivity|].
  intros j Hj. change (pixel (set_drawFlag true ?t) j) with (pixel t j).
  rewrite pixel_drawn; [|apply NoDup_sprite_cells| |lia].
  2:{ intros c Hc. apply sprite_cells_range in Hc.
      cbn [gfx upd_reg set_V set_PC]. rewrite (wf_gfx s Hwf). lia. }
  change (pixel (upd_reg 15 0 (set_PC (PC s + 2) s)) j) with (pixel s j).
  destruct (decide (j ∈ sprite_cells x y n s)) as [Hin | Hnin].
  - split; [reflexivity|]. intros Hno. exfalso. apply Hno.
    apply sprite_cells_spec in Hin as (row & col & Hr & Hc & Hb & Hjeq & _);
      [|lia].
    now exists row, col.
  - split; [|reflexivity]. intros (row & col & Hr & Hc & Hb & Hjeq).
    exfalso. apply Hnin. apply sprite_cells_spec; [lia|].
    exists row, col. repeat split; lia || auto.
Qed.

Lemma draw_flips_sprite_cells_witness :
  exists s', emulateCycle 0 (after 3 Rom.draw_right_edge) = Done s' /\
    forall j, 0 <= j < 2048 ->
      ((exists row col, 0 <= row < 1 /\ 0 <= col < 8 /\
          Z.testbit (mem (after 3 Rom.draw_right_edge) (I (after 3 Rom.draw_right_edge) + row)) (7 - col) = true /\
          j = (origin (after 3 Rom.draw_right_edge) 1 32 + row) * 64 + (origin (after 3 Rom.draw_right_edge) 0 64 + col)) ->
       pixel s' j = negb (pixel (after 3 Rom.draw_right_edge) j)) /\
      (~ (exists row col, 0 <= row < 1 /\ 0 <= col < 8 /\
            Z.testbit (mem (after 3 Rom.draw_right_edge) (I (after 3 Rom.draw_right_edge) + row)) (7 - col) = true /\
            j = (origin (after 3 Rom.draw_right_edge) 1 32 + row) * 64 + (origin (after 3 Rom.draw_right_edge) 0 64 + col)) ->
       pixel s' j = pixel (after 3 Rom.draw_right_edge) j).
Proof.
  apply (draw_flips_sprite_cells 0 (after 3 Rom.draw_right_edge) 0 1 1).
  - concrete.
  - concrete.
  - concrete.
  - concrete.
  - concrete.
  - concrete.
Defined.

(** X5: after Dxyn, VF is 0 or 1, and it is 1 exactly when some display
    cell went from on to off. *)
Theorem draw_collision_flag (rnd : Z) (s : Chip8) (x y n : Z) :
  wf s -> 0 <= x < 16 -> 0 <= y < 16 -> 0 <= n < 16 ->
  fetch s = Done (opc 0xD x y n) -> I s + n <= 4096 ->
  exists s', emulateCycle rnd s = Done s' /\
    (reg s' 0xF = 0 \/ reg s' 0xF = 1) /\
    (reg s' 0xF = 1 <->
     exists j, 0 <= j < 2048 /\ pixel s j = true /\ pixel s' j = false).
Proof.
  intros Hwf Hx Hy Hn Hf HI. rewrite (draw_cycle rnd s x y n) by assumption.
  eexists. split; [reflexivity|].
  change (reg (set_drawFlag true ?t) 15) with (reg t 15).
  rewrite flag_drawn by (cbn [V set_PC]; apply Hwf).
  change (gfx (set_PC (PC s + 2) s)) with (gfx s).
  assert (Hrange : forall c, c ∈ sprite_cells x y n s ->
            0 <= c < Z.of_nat (length (gfx s))).
  { intros c Hc. apply sprite_cells_range in Hc. rewrite (wf_gfx s Hwf). lia. }
  pose proof (collides_iff _ (gfx s) (NoDup_sprite_cells x y n s) Hrange)
    as Hcol.
  split; [destruct (collides _ _); auto|].
  assert (Hpix : forall j, 0 <= j ->
            pixel (set_drawFlag true
                     (drawn (sprite_cells x y n s)
                        (upd_reg 15 0 (set_PC (PC s + 2) s)))) j =
            if decide (j ∈ sprite_cells x y n s)
            then negb (pixel s j) else pixel s j).
  { intros j Hj. change (pixel (set_drawFlag true ?t) j) with (pixel t j).
    now rewrite pixel_drawn by (apply NoDup_sprite_cells || assumption). }
  split.
  - intros Hflag. destruct (collides _ _); [|discriminate].
    destruct (proj1 Hcol eq_refl) as (c & Hc & Hon).
    pose proof (sprite_cells_range _ _ _ _ _ Hc) as Hcr.
    exists c. split; [exact Hcr|]. split; [exact Hon|].
    rewrite Hpix by lia. destruct (decide _); [|contradiction].
    unfold pixel. now rewrite Hon.
  - intros (j & Hj & Hon & Hoff). rewrite Hpix in Hoff by lia.
    destruct (decide (j ∈ sprite_cells x y n s)) as [Hin|];
      [|congruence].
    replace (collides (gfx s) (sprite_cells x y n s)) with true; [reflexivity|].
    symmetry. apply Hcol. now exists j.
Qed.

Lemma draw_collision_flag_witness :
  exists s', emulateCycle 0 (after 3 Rom.draw_right_edge) = Done s' /\
    (reg s' 0xF = 0 \/ reg s' 0xF = 1) /\
    (reg s' 0xF = 1 <->
     exists j, 0 <= j < 2048 /\ pixel (after 3 Rom.draw_right_edge) j = true /\ pixel s' j = false).
Proof.
  apply (draw_collision_flag 0 (after 3 Rom.draw_right_edge) 0 1 1).
  - concrete.
  - concrete.
  - concrete.
  - concrete.
  - concrete.
  - concrete.
Defined.

(** X6: Dxyn with its sprite rows inside the memory changes nothing but
    the display, VF, the draw flag (raised) and PC (advanced by 2): memory,
    I, V0..VE, the stack and the timers are as before.  With n > 0 and
    I + n beyond the 4096 bytes the sprite read leaves the memory, at I
    itself or at address 4096. *)
Theorem draw_changes_display_only (rnd : Z) (s : Chip8) (x y n : Z) :
  wf s -> 0 <= x < 16 -> 0 <= y < 16 -> 0 <= n < 16 ->
  fetch s = Done (opc 0xD x y n) ->
  (I s + n <= 4096 ->
   exists s', emulateCycle rnd s = Done s' /\
     memory s' = memory s /\ I s' = I s /\ stack s' = stack s /\
     sp s' = sp s /\ delay_timer s' = delay_timer s /\
     sound_timer s' = sound_timer s /\
     (forall r, 0 <= r < 15 -> reg s' r = reg s r) /\
     PC s' = PC s + 2 /\ drawFlag s' = true) /\
  (0 < n -> 4096 < I s + n ->
   emulateCycle rnd s = Undefined (OutOfBounds Memory (Z.max (I s) 4096))).
Proof.
  intros Hwf Hx Hy Hn Hf. split.
  - intros HI. rewrite (draw_cycle rnd s x y n) by assumption.
  eexists. split; [reflexivity|].
    split; [|split; [|split; [|split; [|split; [|split; [|split]]]]]];
      try (unfold drawn; destruct (collides _ _); reflexivity).
    + intros r Hr. change (reg (set_drawFlag true ?t) r) with (reg t r).
      rewrite reg_drawn by (cbn [V upd_reg set_V set_PC];
                            rewrite ?length_insert; (apply Hwf || lia)).
      rewrite reg_upd_reg by (cbn [V set_PC]; (apply Hwf || lia)).
      now replace (r =? 15) with false by lia.
    + split; [|reflexivity]. unfold drawn. now destruct (collides _ _).
  - intros Hpos Hout.
    pose proof (proj1 (is_u16_range _) (wf_I s Hwf)) as HIr.
    rewrite (emulateCycle_fetched rnd _ s Hf), execute_Dxyn by assumption.
    rewrite DRW_origin by (cbn [V set_PC]; (apply Hwf || assumption)).
    unfold draw_sprite.
    change (reg (set_PC (u16 (PC s + 2)) s)) with (reg s).
    fold (origin s x 64). fold (origin s y 32).
    pose proof (origin_range s x 64 ltac:(lia)).
    pose proof (origin_range s y 32 ltac:(lia)).
    rewrite draw_rows_fault;
      cbn [gfx V memory I upd_reg set_V set_PC]; rewrite ?length_insert;
      try (apply Hwf || lia).
    cbn [bind]. do 3 f_equal. lia.
Qed.

Lemma draw_changes_display_only_witness :
  (exists s', emulateCycle 0 (after 3 Rom.draw_right_edge) = Done s' /\
     memory s' = memory (after 3 Rom.draw_right_edge) /\
     I s' = I (after 3 Rom.draw_right_edge) /\
     stack s' = stack (after 3 Rom.draw_right_edge) /\
     sp s' = sp (after 3 Rom.draw_right_edge) /\
     delay_timer s' = delay_timer (after 3 Rom.draw_right_edge) /\
     sound_timer s' = sound_timer (after 3 Rom.draw_right_edge) /\
     (forall r, 0 <= r < 15 ->
        reg s' r = reg (after 3 Rom.draw_right_edge) r) /\
     PC s' = PC (after 3 Rom.draw_right_edge) + 2 /\ drawFlag s' = true) /\
  emulateCycle 0 (after 1 Demo.draw_past_end) =
  Undefined (OutOfBounds Memory (Z.max (I (after 1 Demo.draw_past_end)) 4096)).
Proof.
  split.
  - destruct (draw_changes_display_only 0 (after 3 Rom.draw_right_edge) 0 1 1)
      as [Hin _]; [concrete .. |].
    apply Hin. concrete.
  - destruct (draw_changes_display_only 0 (after 1 Demo.draw_past_end) 0 0 2)
      as [_ Hout]; [concrete .. |].
    apply Hout; concrete.
Defined.

Lemma foldl_toggle_twice (l : list Z) (g : list bool) :
  NoDup l -> (forall c, c ∈ l -> 0 <= c < Z.of_nat (length g)) ->
  foldl toggle (foldl toggle g l) l = g.
Proof.
  intros Hnd Hrange.
  apply (list_eq_same_length _ _ (length g));
    [reflexivity | now rewrite !length_foldl_toggle|].
  intros i a b Hi Ha Hb.
  apply list_lookup_total_correct in Ha, Hb. subst a b.
  rewrite <- (Nat2Z.id i).
  rewrite foldl_toggle_lookup;
    [|exact Hnd|now rewrite length_foldl_toggle|lia].
  rewrite foldl_toggle_lookup by (assumption || lia).
  destruct (decide _); [apply negb_involutive | reflexivity].
Qed.

Lemma origin_drawn (cells : list Z) (s : Chip8) (p r m : Z) :
  length (V s) = 16%nat -> 0 <= r < 16 ->
  origin (set_drawFlag true (drawn cells (upd_reg 0xF 0 (set_PC p s)))) r m
  = origin s r m.
Proof.
  intros HV Hr. unfold origin. destruct (Z.eqb_spec r 15) as [_ | Hne];
    [reflexivity|].
  change (reg (set_drawFlag true ?t) r) with (reg t r).
  rewrite reg_drawn by (cbn [V upd_reg set_V set_PC];
                        rewrite ?length_insert; lia).
  rewrite reg_upd_reg by (cbn [V set_PC]; lia).
  now replace (r =? 15) with false by lia.
Qed.

(** X7: drawing the same sprite twice restores the display.  When a
    cycle executes Dxyn and the next cycle executes the same Dxyn, the second
    cycle completes and the display is again what it was before the first
    (also when x or y is 0xF). *)
Theorem draw_twice_restores_display (rnd rnd' : Z) (s s1 : Chip8) (x y n : Z) :
  wf s -> 0 <= x < 16 -> 0 <= y < 16 -> 0 <= n < 16 ->
  fetch s = Done (opc 0xD x y n) -> I s + n <= 4096 ->
  emulateCycle rnd s = Done s1 ->
  fetch s1 = Done (opc 0xD x y n) ->
  exists s2, emulateCycle rnd' s1 = Done s2 /\ gfx s2 = gfx s.
Proof.
  intros Hwf Hx Hy Hn Hf HI Hrun Hf1.
  pose proof (kept_wf _ _ (emulateCycle_kept rnd s s1 Hwf Hrun)) as Hwf1.
  rewrite (draw_cycle rnd s x y n) in Hrun by assumption.
  injection Hrun as Hs1.
  assert (HI1 : I s1 = I s)
    by (rewrite <- Hs1; unfold drawn; now destruct (collides _ _)).
  assert (Hm1 : memory s1 = memory s)
    by (rewrite <- Hs1; unfold drawn; now destruct (collides _ _)).
  assert (Hcells : sprite_cells x y n s1 = sprite_cells x y n s).
  { unfold sprite_cells. rewrite HI1, Hm1. rewrite <- Hs1.
    now rewrite !origin_drawn by (apply Hwf || lia). }
  rewrite (draw_cycle rnd' s1 x y n) by (assumption || lia).
  eexists. split; [reflexivity|]. rewrite Hcells.
  unfold drawn at 1. cbn [gfx set_gfx set_drawFlag upd_reg set_V set_PC].
  rewrite <- Hs1. unfold drawn at 1.
  cbn [gfx set_gfx set_drawFlag upd_reg set_V set_PC].
  apply foldl_toggle_twice; [apply NoDup_sprite_cells|].
  intros c Hc. apply sprite_cells_range in Hc. rewrite (wf_gfx s Hwf). lia.
Qed.

Lemma draw_twice_restores_display_witness :
  exists s2, emulateCycle 0 (after 2 Demo.draw_twice) = Done s2 /\ gfx s2 = gfx (after 1 Demo.draw_twice).
Proof.
  apply (draw_twice_restores_display 0 0 (after 1 Demo.draw_twice) (after 2 Demo.draw_twice) 0 1 1).
  - concrete.
  - concrete.
  - concrete.
  - concrete.
  - concrete.
  - concrete.
  - concrete.
  - concrete.
Defined.

(** ** Registers and memory: Fx65, Fx33, the call stack, the keys *)

Section MoreDispatch.
Variables (rnd x y : Z) (s : Chip8).
Hypothesis Hx : 0 <= x < 16.
Hypothesis Hy : 0 <= y < 16.

Ltac dispatch :=
  unfold execute;
  rewrite ?opc_class, ?opc_x, ?opc_y, ?opc_n, ?opc_nn, ?opc_nnn by lia;
  reflexivity.

Lemma execute_Fx65 : execute rnd (opc 0xF x 6 5) s = LD_Vx_I x s.
Proof. dispatch. Qed.

Lemma execute_Fx33 : execute rnd (opc 0xF x 3 3) s = LD_B_Vx x s.
Proof. dispatch. Qed.

Lemma execute_Fx07 :
  execute rnd (opc 0xF x 0 7) s = set_reg x (delay_timer s) s.
Proof. dispatch. Qed.

Lemma execute_Fx15 :
  execute rnd (opc 0xF x 1 5) s =
  (vx <- get_reg x s ;; Done (set_delay_timer vx s)).
Proof. dispatch. Qed.

Lemma execute_Fx1E :
  execute rnd (opc 0xF x 1 0xE) s =
  (vx <- get_reg x s ;; Done (set_I (u16 (I s + vx)) s)).
Proof. dispatch. Qed.

Lemma execute_Fx29 :
  execute rnd (opc 0xF x 2 9) s =
  (vx <- get_reg x s ;; Done (set_I (0x050 + Z.land vx 0x0F * 5) s)).
Proof. dispatch. Qed.

Lemma execute_8xy6 : execute rnd (opc 8 x y 6) s = SHR_Vx x s.
Proof. dispatch. Qed.

Lemma execute_8xyE : execute rnd (opc 8 x y 0xE) s = SHL_Vx x s.
Proof. dispatch. Qed.

Lemma execute_8xy7 : execute rnd (opc 8 x y 7) s = SUBN_Vx_Vy x y s.
Proof. dispatch. Qed.

Lemma execute_Ex9E :
  execute rnd (opc 0xE x 9 0xE) s =
  (vx <- get_reg x s ;; k <- rd Keys (keys s) vx ;; Done (skip_if k s)).
Proof. dispatch. Qed.

Lemma execute_ExA1 :
  execute rnd (opc 0xE x 0xA 1) s =
  (vx <- get_reg x s ;; k <- rd Keys (keys s) vx ;;
   Done (skip_if (negb k) s)).
Proof. dispatch. Qed.

Lemma execute_Cxnn (hi lo : Z) :
  0 <= hi < 16 -> 0 <= lo < 16 ->
  execute rnd (opc 0xC x hi lo) s = set_reg x (Z.land rnd (hi * 16 + lo)) s.
Proof. intros Hhi Hlo. dispatch. Qed.

Lemma execute_3xnn (hi lo : Z) :
  0 <= hi < 16 -> 0 <= lo < 16 ->
  execute rnd (opc 3 x hi lo) s =
  (vx <- get_reg x s ;; Done (skip_if (vx =? hi * 16 + lo) s)).
Proof. intros Hhi Hlo. dispatch. Qed.

Lemma execute_4xnn (hi lo : Z) :
  0 <= hi < 16 -> 0 <= lo < 16 ->
  execute rnd (opc 4 x hi lo) s =
  (vx <- get_reg x s ;; Done (skip_if (negb (vx =? hi * 16 + lo)) s)).
Proof. intros Hhi Hlo. dispatch. Qed.

Lemma execute_6xnn (hi lo : Z) :
  0 <= hi < 16 -> 0 <= lo < 16 ->
  execute rnd (opc 6 x hi lo) s = set_reg x (hi * 16 + lo) s.
Proof. intros Hhi Hlo. dispatch. Qed.

Lemma execute_7xnn (hi lo : Z) :
  0 <= hi < 16 -> 0 <= lo < 16 ->
  execute rnd (opc 7 x hi lo) s =
  (vx <- get_reg x s ;; set_reg x (u8 (vx + (hi * 16 + lo))) s).
Proof. intros Hhi Hlo. dispatch. Qed.

Lemma execute_Annn (lo : Z) :
  0 <= lo < 16 ->
  execute rnd (opc 0xA x y lo) s = Done (set_I (x * 256 + y * 16 + lo) s).
Proof. intros Hlo. dispatch. Qed.
End MoreDispatch.

Lemma set_V_same (s : Chip8) : set_V (V s) s = s.
Proof. now destruct s. Qed.

Lemma load_regs_loop (cnt : nat) : forall lo s,
  length (V s) = 16%nat -> length (memory s) = 4096%nat ->
  0 <= lo -> lo + Z.of_nat cnt <= 16 ->
  0 <= I s -> I s + lo + Z.of_nat cnt <= 4096 ->
  exists V',
    for_loop cnt lo (fun i s => v <- get_mem (I s + i) s ;; set_reg i v s) s
    = Done (set_V V' s) /\
    length V' = 16%nat /\
    (forall r, lo <= r < lo + Z.of_nat cnt ->
       V' !!! Z.to_nat r = mem s (I s + r)) /\
    (forall r, 0 <= r -> ~ lo <= r < lo + Z.of_nat cnt ->
       V' !!! Z.to_nat r = V s !!! Z.to_nat r).
Proof.
  induction cnt as [|c IH]; intros lo s HV Hm Hlo Hhi HI Hend.
  - exists (V s). rewrite set_V_same. repeat split; [assumption | lia].
  - cbn [for_loop]. unfold get_mem at 1. rewrite rd_Done by lia. cbn [bind].
    rewrite set_reg_Done by (assumption || lia). cbn [bind].
    fold (mem s (I s + lo)). set (s1 := upd_reg lo (mem s (I s + lo)) s).
    destruct (IH (lo + 1) s1) as (V' & Hrun & Hlen & Hin & Hout);
      try (unfold s1; cbn [V I memory upd_reg set_V];
           rewrite ?length_insert; lia).
    exists V'. split; [exact Hrun|]. split; [exact Hlen|].
    change (I s1) with (I s) in Hin, Hout.
    change (mem s1) with (mem s) in Hin. split.
    + intros r Hr. destruct (Z.eq_dec r lo) as [-> | Hne].
      * rewrite Hout by lia. unfold s1. cbn [V upd_reg set_V].
        apply list_lookup_total_insert_eq. lia.
      * apply Hin. lia.
    + intros r Hr Hrange. rewrite Hout by lia. unfold s1.
      cbn [V upd_reg set_V]. apply list_lookup_total_insert_ne. lia.
Qed.

(** X8: Fx65 with memory[I..I+x] inside the memory loads V0..Vx from
    memory[I..I+x], leaves the registers above Vx and the whole memory as
    they were, and leaves I at its old value plus x + 1. *)
Theorem load_registers (rnd : Z) (s : Chip8) (x : Z) :
  wf s -> 0 <= x < 16 -> I s + x < 4096 ->
  fetch s = Done (opc 0xF x 6 5) ->
  exists s', emulateCycle rnd s = Done s' /\
    (forall i, 0 <= i <= x -> reg s' i = mem s (I s + i)) /\
    (forall r, x < r < 16 -> reg s' r = reg s r) /\
    memory s' = memory s /\ I s' = I s + (x + 1).
Proof.
  intros Hwf Hx HIx Hf.
  pose proof (proj1 (is_u16_range _) (wf_I s Hwf)) as HI.
  rewrite (emulateCycle_fetched rnd _ s Hf), execute_Fx65 by assumption.
  unfold LD_Vx_I.
  destruct (load_regs_loop (Z.to_nat (x + 1)) 0 (set_PC (u16 (PC s + 2)) s))
    as (V' & Hrun & Hlen & Hin & Hout);
    try (cbn [V I memory set_PC]; (apply Hwf || lia)).
  rewrite Hrun. cbn [bind]. eexists. split; [reflexivity|].
  cbn [I set_PC set_V] in *. unfold reg. cbn [memory set_I set_V V I].
  split; [|split; [|split]].
  - intros i Hi. apply Hin. lia.
  - intros r Hr. apply Hout; lia.
  - reflexivity.
  - unfold u16. apply Z.mod_small. lia.
Qed.

Lemma load_registers_witness :
  exists s', emulateCycle 0 (after 1 Demo.load_v0_v2) = Done s' /\
    (forall i, 0 <= i <= 2 -> reg s' i = mem (after 1 Demo.load_v0_v2) (I (after 1 Demo.load_v0_v2) + i)) /\
    (forall r, 2 < r < 16 -> reg s' r = reg (after 1 Demo.load_v0_v2) r) /\
    memory s' = memory (after 1 Demo.load_v0_v2) /\ I s' = I (after 1 Demo.load_v0_v2) + (2 + 1).
Proof.
  apply (load_registers 0 (after 1 Demo.load_v0_v2) 2).
  - concrete.
  - concrete.
  - concrete.
  - concrete.
Defined.

(** X9: Fx55 and Fx65 are inverse.  After Fx55 stored V0..Vx at I, an Fx65
    executed in any later state whose I is that address again and whose
    memory there is still what Fx55 wrote gives V0..Vx the values they had
    before the store. *)
Theorem store_then_load_round_trip (rnd rnd' : Z) (s s1 t : Chip8) (x : Z) :
  wf s -> 0 <= x < 16 -> I s + x < 4096 ->
  fetch s = Done (opc 0xF x 5 5) -> emulateCycle rnd s = Done s1 ->
  wf t -> I t = I s ->
  (forall i, 0 <= i <= x -> mem t (I s + i) = mem s1 (I s + i)) ->
  fetch t = Done (opc 0xF x 6 5) ->
  exists t', emulateCycle rnd' t = Done t' /\
    forall i, 0 <= i <= x -> reg t' i = reg s i.
Proof.
  intros Hwf Hx HIx Hf Hrun Hwft HIt Hmem Hft.
  pose proof (proj1 (is_u16_range _) (wf_I s Hwf)) as HI.
  rewrite (emulateCycle_fetched rnd _ s Hf), execute_Fx55 in Hrun
    by assumption.
  unfold LD_I_Vx in Hrun.
  destruct (store_regs_loop (Z.to_nat (x + 1)) 0 (set_PC (u16 (PC s + 2)) s))
    as (m & Hloop & _ & Hin & _);
    try (cbn [V I memory set_PC]; (apply Hwf || lia)).
  rewrite Hloop in Hrun. cbn [bind] in Hrun. injection Hrun as <-.
  cbn [I set_PC] in Hin.
  rewrite (emulateCycle_fetched rnd' _ t Hft), execute_Fx65 by assumption.
  unfold LD_Vx_I.
  destruct (load_regs_loop (Z.to_nat (x + 1)) 0 (set_PC (u16 (PC t + 2)) t))
    as (V' & Hrun & _ & Hload & _);
    try (cbn [V I memory set_PC]; (apply Hwft || lia)).
  rewrite Hrun. cbn [bind]. eexists. split; [reflexivity|].
  intros i Hi. unfold reg at 1. cbn [V set_I set_V].
  rewrite Hload by lia. cbn [I set_PC]. change (mem (set_PC ?p t)) with (mem t).
  rewrite HIt, Hmem by lia. unfold mem. cbn [memory set_I set_memory].
  rewrite Hin by lia. change (reg (set_PC ?p s)) with (reg s).
  f_equal. lia.
Qed.

Lemma store_then_load_round_trip_witness :
  exists t', emulateCycle 0 (after 7 Demo.store_load) = Done t' /\
    forall i, 0 <= i <= 1 -> reg t' i = reg (after 3 Demo.store_load) i.
Proof.
  apply (store_then_load_round_trip 0 0 (after 3 Demo.store_load) (after 4 Demo.store_load) (after 7 Demo.store_load) 1).
  - concrete.
  - concrete.
  - concrete.
  - concrete.
  - concrete.
  - concrete.
  - concrete.
  - intros i Hi; assert (Hcases : i = 0 \/ i = 1) by lia;
    destruct Hcases as [-> | ->]; vm_compute; reflexivity.
  - concrete.
Defined.

Lemma set_mem_Done (a v : Z) (s : Chip8) :
  0 <= a < Z.of_nat (length (memory s)) ->
  set_mem a v s = Done (set_memory (<[Z.to_nat a := v]> (memory s)) s).
Proof. intros Ha. unfold set_mem. now rewrite wr_Done by lia. Qed.

(** X10: Fx33 with I + 2 inside the memory writes three decimal digits
    (each 0..9) to memory[I], memory[I+1], memory[I+2] with
    100 * memory[I] + 10 * memory[I+1] + memory[I+2] = Vx, and changes no
    other memory cell, no register and not I. *)
Theorem store_decimal_digits (rnd : Z) (s : Chip8) (x : Z) :
  wf s -> 0 <= x < 16 -> I s + 2 < 4096 ->
  fetch s = Done (opc 0xF x 3 3) ->
  exists s', emulateCycle rnd s = Done s' /\
    0 <= mem s' (I s) <= 9 /\ 0 <= mem s' (I s + 1) <= 9 /\
    0 <= mem s' (I s + 2) <= 9 /\
    100 * mem s' (I s) + 10 * mem s' (I s + 1) + mem s' (I s + 2) = reg s x /\
    (forall a, 0 <= a < 4096 -> ~ I s <= a <= I s + 2 -> mem s' a = mem s a) /\
    V s' = V s /\ I s' = I s.
Proof.
  intros Hwf Hx HI2 Hf.
  pose proof (proj1 (is_u16_range _) (wf_I s Hwf)) as HI.
  pose proof (reg_u8 s x Hwf Hx) as Hr. pose proof (wf_memory s Hwf) as Hm.
  rewrite (emulateCycle_fetched rnd _ s Hf), execute_Fx33 by assumption.
  unfold LD_B_Vx.
  rewrite get_reg_Done by (cbn [V set_PC]; (apply Hwf || lia)). cbn [bind].
  rewrite set_mem_Done by (cbn [I memory set_PC]; lia). cbn [bind].
  rewrite get_reg_Done by (cbn [V set_PC set_memory]; (apply Hwf || lia)).
  cbn [bind].
  rewrite set_mem_Done
    by (cbn [I memory set_PC set_memory]; rewrite ?length_insert; lia).
  cbn [bind].
  rewrite get_reg_Done by (cbn [V set_PC set_memory]; (apply Hwf || lia)).
  cbn [bind].
  rewrite set_mem_Done
    by (cbn [I memory set_PC set_memory]; rewrite ?length_insert; lia).
  eexists. split; [reflexivity|].
  repeat change (reg (set_memory ?m ?t) x) with (reg t x).
  change (reg (set_PC ?p s) x) with (reg s x).
  unfold mem. cbn [memory I V set_PC set_memory].
  assert (H0 : forall a, a = I s ->
            <[Z.to_nat (I s + 2) := reg s x mod 10]>
              (<[Z.to_nat (I s + 1) := (reg s x / 10) mod 10]>
                 (<[Z.to_nat (I s) := reg s x / 100]> (memory s)))
            !!! Z.to_nat a = reg s x / 100).
  { intros a ->. rewrite !list_lookup_total_insert_ne by lia.
    apply list_lookup_total_insert_eq. lia. }
  assert (H1 : <[Z.to_nat (I s + 2) := reg s x mod 10]>
              (<[Z.to_nat (I s + 1) := (reg s x / 10) mod 10]>
                 (<[Z.to_nat (I s) := reg s x / 100]> (memory s)))
            !!! Z.to_nat (I s + 1) = (reg s x / 10) mod 10).
  { rewrite list_lookup_total_insert_ne by lia.
    apply list_lookup_total_insert_eq. rewrite length_insert. lia. }
  assert (H2 : <[Z.to_nat (I s + 2) := reg s x mod 10]>
              (<[Z.to_nat (I s + 1) := (reg s x / 10) mod 10]>
                 (<[Z.to_nat (I s) := reg s x / 100]> (memory s)))
            !!! Z.to_nat (I s + 2) = reg s x mod 10).
  { apply list_lookup_total_insert_eq. rewrite !length_insert. lia. }
  rewrite (H0 (I s) eq_refl), H1, H2.
  repeat split; try (Z.div_mod_to_equations; lia).
  intros a Ha Hout. now rewrite !list_lookup_total_insert_ne by lia.
Qed.

Lemma store_decimal_digits_witness :
  exists s', emulateCycle 0 (after 2 Demo.bcd_254) = Done s' /\
    0 <= mem s' (I (after 2 Demo.bcd_254)) <= 9 /\ 0 <= mem s' (I (after 2 Demo.bcd_254) + 1) <= 9 /\
    0 <= mem s' (I (after 2 Demo.bcd_254) + 2) <= 9 /\
    100 * mem s' (I (after 2 Demo.bcd_254)) + 10 * mem s' (I (after 2 Demo.bcd_254) + 1) + mem s' (I (after 2 Demo.bcd_254) + 2) = reg (after 2 Demo.bcd_254) 0 /\
    (forall a, 0 <= a < 4096 -> ~ I (after 2 Demo.bcd_254) <= a <= I (after 2 Demo.bcd_254) + 2 -> mem s' a = mem (after 2 Demo.bcd_254) a) /\
    V s' = V (after 2 Demo.bcd_254) /\ I s' = I (after 2 Demo.bcd_254).
Proof.
  apply (store_decimal_digits 0 (after 2 Demo.bcd_254) 0).
  - concrete.
  - concrete.
  - concrete.
  - concrete.
Defined.

(** X11: a return undoes a call.  When 2nnn executes with the stack
    pointer below 16 and the next cycle executes 00EE, that cycle completes
    with PC at the instruction after the call and the stack pointer at its
    value before the call. *)
Theorem call_then_return (rnd rnd' : Z) (s s1 : Chip8) (a b c : Z) :
  wf s -> 0 <= a < 16 -> 0 <= b < 16 -> 0 <= c < 16 ->
  fetch s = Done (opc 2 a b c) -> sp s < 16 ->
  emulateCycle rnd s = Done s1 -> fetch s1 = Done 0x00EE ->
  exists s2, emulateCycle rnd' s1 = Done s2 /\
    PC s2 = PC s + 2 /\ sp s2 = sp s.
Proof.
  intros Hwf Ha Hb Hc Hf Hsp Hrun Hf1.
  pose proof (wf_stack s Hwf) as Hst.
  pose proof (proj1 (is_u8_range _) (wf_sp s Hwf)) as Hspr.
  rewrite (emulateCycle_fetched rnd _ s Hf), execute_2nnn in Hrun
    by assumption.
  rewrite (advanced_PC s _ Hwf Hf) in Hrun. unfold CALL in Hrun.
  cbn [stack sp PC set_PC] in Hrun. rewrite wr_Done in Hrun by lia.
  cbn [bind] in Hrun. injection Hrun as <-.
  rewrite (emulateCycle_fetched rnd' _ _ Hf1), execute_00EE.
  unfold RET, u8. cbn [stack sp PC set_PC set_sp set_stack].
  rewrite (Z.mod_small (sp s + 1)) by lia.
  replace (sp s + 1 - 1) with (sp s) by lia. rewrite Z.mod_small by lia.
  rewrite rd_Done by (rewrite length_insert; lia). cbn [bind].
  eexists. split; [reflexivity|]. cbn [PC sp set_PC set_sp].
  split; [|reflexivity]. apply list_lookup_total_insert_eq. lia.
Qed.

Lemma call_then_return_witness :
  exists s2, emulateCycle 0 (after 1 Rom.call_ret) = Done s2 /\
    PC s2 = PC (boot Rom.call_ret) + 2 /\ sp s2 = sp (boot Rom.call_ret).
Proof.
  apply (call_then_return 0 0 (boot Rom.call_ret) (after 1 Rom.call_ret) 2 0 4).
  - concrete.
  - concrete.
  - concrete.
  - concrete.
  - concrete.
  - concrete.
  - concrete.
  - concrete.
Defined.

(** X12: Ex9E advances PC by 4 when the key numbered Vx is pressed and
    by 2 otherwise, ExA1 the other way round, and neither changes anything
    else.  Vx is not masked: with Vx at 16 or more either opcode reads
    outside the 16 key flags. *)
Theorem skip_on_key (rnd : Z) (s : Chip8) (x : Z) :
  wf s -> 0 <= x < 16 ->
  (fetch s = Done (opc 0xE x 9 0xE) ->
   (reg s x < 16 ->
    emulateCycle rnd s =
    Done (set_PC (PC s + (if key s (reg s x) then 4 else 2)) s)) /\
   (16 <= reg s x ->
    emulateCycle rnd s = Undefined (OutOfBounds Keys (reg s x)))) /\
  (fetch s = Done (opc 0xE x 0xA 1) ->
   (reg s x < 16 ->
    emulateCycle rnd s =
    Done (set_PC (PC s + (if key s (reg s x) then 2 else 4)) s)) /\
   (16 <= reg s x ->
    emulateCycle rnd s = Undefined (OutOfBounds Keys (reg s x)))).
Proof.
  intros Hwf Hx. pose proof (reg_u8 s x Hwf Hx) as Hr.
  pose proof (wf_keys s Hwf) as Hk.
  assert (Hskip : forall op, fetch s = Done op ->
            set_PC (u16 (PC (set_PC (PC s + 2) s) + 2)) (set_PC (PC s + 2) s)
            = set_PC (PC s + 4) s).
  { intros op Hf. apply fetch_in_memory in Hf. rewrite (wf_memory s Hwf) in Hf.
    unfold set_PC, u16. cbn. f_equal. rewrite Z.mod_small by lia. lia. }
  split; intros Hf; rewrite (emulateCycle_fetched rnd _ s Hf);
    rewrite ?execute_Ex9E, ?execute_ExA1 by assumption;
    rewrite (advanced_PC s _ Hwf Hf);
    rewrite get_reg_Done by (cbn [V set_PC]; (apply Hwf || lia));
    cbn [bind keys set_PC]; change (reg (set_PC ?p s) x) with (reg s x);
    (split; intros Hv; [|now rewrite rd_Undefined by lia]);
    rewrite rd_Done by lia; cbn [bind]; fold (key s (reg s x));
    destruct (key s (reg s x)); cbn [negb skip_if];
    rewrite ?(Hskip _ Hf); reflexivity.
Qed.

Lemma skip_on_key_witness :
  emulateCycle 0 (after 1 Demo.skip_key_7) =
  Done (set_PC (PC (after 1 Demo.skip_key_7)
                + (if key (after 1 Demo.skip_key_7)
                        (reg (after 1 Demo.skip_key_7) 0)
                   then 4 else 2))
          (after 1 Demo.skip_key_7)) /\
  emulateCycle 0 (after 1 Demo.skip_key_32) =
  Undefined (OutOfBounds Keys (reg (after 1 Demo.skip_key_32) 0)).
Proof.
  split.
  - destruct (skip_on_key 0 (after 1 Demo.skip_key_7) 0) as [Hskp _];
      [concrete .. |].
    apply Hskp; concrete.
  - destruct (skip_on_key 0 (after 1 Demo.skip_key_32) 0) as [Hskp _];
      [concrete .. |].
    apply Hskp; concrete.
Defined.

(** X13: the fetch.  With PC at most 4094 the opcode fetched is
    256 * memory[PC] + memory[PC + 1], a 16-bit word; with PC at 4095 or
    more the cycle reads outside the memory (PC is not masked), at address
    4096 or at PC itself. *)
Theorem fetch_past_memory (rnd : Z) (s : Chip8) :
  wf s ->
  (PC s <= 4094 -> exists op, fetch s = Done op /\
     op = 256 * mem s (PC s) + mem s (PC s + 1) /\ 0 <= op < 65536) /\
  (4095 <= PC s ->
   emulateCycle rnd s =
   Undefined (OutOfBounds Memory (Z.max (PC s) 4096))).
Proof.
  intros Hwf. pose proof (proj1 (is_u16_range _) (wf_PC s Hwf)) as HPC.
  pose proof (wf_memory s Hwf) as Hm. split.
  - intros Hin. unfold fetch, get_mem. rewrite !rd_Done by lia. cbn [bind].
    fold (mem s (PC s)). fold (mem s (PC s + 1)).
    assert (Hhi : 0 <= mem s (PC s) < 256).
    { apply is_u8_range. apply forallb_lookup_total; [apply Hwf | lia]. }
    assert (Hlo : 0 <= mem s (PC s + 1) < 256).
    { apply is_u8_range. apply forallb_lookup_total; [apply Hwf | lia]. }
    assert (Hor : Z.lor (Z.shiftl (mem s (PC s)) 8) (mem s (PC s + 1))
                  = 256 * mem s (PC s) + mem s (PC s + 1)).
    { rewrite Z.shiftl_mul_pow2 by lia.
      rewrite <- Z.add_nocarry_lor; [change (2 ^ 8) with 256; lia|].
      apply Z.bits_inj'. intros i Hi. rewrite Z.land_spec, Z.bits_0.
      destruct (Z.lt_ge_cases i 8) as [Hs | Hb].
      - rewrite Z.mul_pow2_bits_low by lia. reflexivity.
      - rewrite (testbit_high_u8 _ i Hlo Hb). apply andb_false_r. }
    eexists. split; [reflexivity|]. unfold u16. rewrite Hor.
    rewrite Z.mod_small by lia. split; [reflexivity | lia].
  - intros Hout. unfold emulateCycle, fetch, get_mem.
    destruct (Z.eq_dec (PC s) 4095) as [Heq | Hne].
    + rewrite rd_Done by lia. cbn [bind].
      rewrite rd_Undefined by lia. cbn [bind]. do 3 f_equal. lia.
    + rewrite rd_Undefined by lia. cbn [bind]. do 3 f_equal. lia.
Qed.

Lemma fetch_past_memory_witness :
  (exists op, fetch (boot Rom.add_v0_v1) = Done op /\
     op = 256 * mem (boot Rom.add_v0_v1) (PC (boot Rom.add_v0_v1))
          + mem (boot Rom.add_v0_v1) (PC (boot Rom.add_v0_v1) + 1) /\
     0 <= op < 65536) /\
  emulateCycle 0 (after 1 Demo.jump_to_end) =
  Undefined (OutOfBounds Memory (Z.max (PC (after 1 Demo.jump_to_end)) 4096)).
Proof.
  split.
  - destruct (fetch_past_memory 0 (boot Rom.add_v0_v1)) as [Hin _];
      [concrete|].
    apply Hin. concrete.
  - destruct (fetch_past_memory 0 (after 1 Demo.jump_to_end)) as [_ Hout];
      [concrete|].
    apply Hout. concrete.
Defined.

(** ** Shifts, reverse subtraction and the timers *)

(** X14: the shifts lose no bit and ignore Vy.  For x other than 0xF,
    8xy6 leaves Vx halved and VF the bit shifted out (2 * Vx' + VF' = Vx),
    and 8xyE leaves Vx doubled modulo 256 and VF the old bit 7
    (256 * VF' + Vx' = 2 * Vx), whatever y is.  With x = 0xF the flag is
    shifted itself: 8xy6 leaves VF = 0, 8xyE leaves VF twice its old
    bit 7. *)
Theorem shifts_split_Vx (rnd : Z) (s : Chip8) (x y : Z) :
  wf s -> 0 <= x < 16 -> 0 <= y < 16 ->
  (fetch s = Done (opc 8 x y 6) ->
   exists s', emulateCycle rnd s = Done s' /\
     (x <> 0xF -> reg s' x = reg s x / 2 /\ reg s' 0xF = reg s x mod 2 /\
                  2 * reg s' x + reg s' 0xF = reg s x) /\
     (x = 0xF -> reg s' 0xF = 0)) /\
  (fetch s = Done (opc 8 x y 0xE) ->
   exists s', emulateCycle rnd s = Done s' /\
     (x <> 0xF -> reg s' x = (2 * reg s x) mod 256 /\
                  reg s' 0xF = reg s x / 128 /\
                  256 * reg s' 0xF + reg s' x = 2 * reg s x) /\
     (x = 0xF -> reg s' 0xF = 2 * (reg s 0xF / 128))).
Proof.
  intros Hwf Hx Hy. pose proof (reg_u8 s x Hwf Hx) as Hr.
  pose proof (wf_V s Hwf) as HV.
  assert (Hbit0 : forall v, Z.land v 1 = v mod 2)
    by (intros v; exact (Z.land_ones v 1 ltac:(lia))).
  split; intros Hf; rewrite (emulateCycle_fetched rnd _ s Hf);
    rewrite ?execute_8xy6, ?execute_8xyE by assumption;
    unfold SHR_Vx, SHL_Vx;
    rewrite get_reg_Done by (cbn [V set_PC]; (assumption || lia));
    cbn [bind];
    rewrite set_reg_Done by (cbn [V set_PC]; (assumption || lia));
    cbn [bind];
    rewrite get_reg_Done
      by (rewrite ?length_upd_reg; cbn [V set_PC]; (assumption || lia));
    cbn [bind];
    rewrite set_reg_Done
      by (rewrite ?length_upd_reg; cbn [V set_PC]; (assumption || lia));
    (eexists; split; [reflexivity|]);
    rewrite !reg_upd_reg
      by (rewrite ?length_upd_reg; cbn [V set_PC]; (assumption || lia));
    change (reg (set_PC ?p s)) with (reg s);
    rewrite ?Z.eqb_refl, ?Hbit0, ?Z.shiftr_div_pow2, ?Z.shiftl_mul_pow2 by lia;
    change (2 ^ 1) with 2; change (2 ^ 7) with 128; unfold u8.
  - split; intros Hxf.
    + replace (15 =? x) with false by lia. replace (x =? 15) with false by lia.
      Z.div_mod_to_equations. lia.
    + subst x. cbn [Z.eqb Pos.eqb]. Z.div_mod_to_equations. lia.
  - split; intros Hxf.
    + replace (15 =? x) with false by lia. replace (x =? 15) with false by lia.
      Z.div_mod_to_equations. lia.
    + subst x. cbn [Z.eqb Pos.eqb]. Z.div_mod_to_equations. lia.
Qed.

Lemma shifts_split_Vx_witness :
  exists s', emulateCycle 0 (after 1 Demo.shr_5) = Done s' /\
    reg s' 0 = reg (after 1 Demo.shr_5) 0 / 2 /\
    reg s' 0xF = reg (after 1 Demo.shr_5) 0 mod 2 /\
    2 * reg s' 0 + reg s' 0xF = reg (after 1 Demo.shr_5) 0.
Proof.
  destruct (shifts_split_Vx 0 (after 1 Demo.shr_5) 0 0) as [Hshr _];
    [concrete .. |].
  destruct Hshr as (s' & Hrun & Hne & _); [concrete|].
  exists s'. split; [exact Hrun|]. apply Hne. lia.
Defined.

(** X15: 8xy7 with x other than 0xF leaves VF = 1 exactly when the old Vy
    is at least the old Vx, and VF = 0 otherwise; when y is not 0xF either,
    Vx holds (Vy - Vx) mod 256 of the old values. *)
Theorem subn_borrow_flag (rnd : Z) (s : Chip8) (x y : Z) :
  wf s -> 0 <= x < 16 -> 0 <= y < 16 -> x <> 0xF ->
  fetch s = Done (opc 8 x y 7) ->
  exists s', emulateCycle rnd s = Done s' /\
    (reg s' 0xF = 1 <-> reg s y >= reg s x) /\
    (reg s' 0xF = 0 <-> reg s y < reg s x) /\
    (y <> 0xF -> reg s' x = (reg s y - reg s x) mod 256).
Proof.
  intros Hwf Hx Hy Hne Hf. pose proof (wf_V s Hwf) as HV.
  rewrite (emulateCycle_fetched rnd _ s Hf), execute_8xy7 by assumption.
  unfold SUBN_Vx_Vy.
  rewrite !get_reg_Done by (cbn [V set_PC]; (assumption || lia)).
  cbn [bind].
  rewrite set_reg_Done by (cbn [V set_PC]; (assumption || lia)).
  cbn [bind].
  rewrite !get_reg_Done
    by (rewrite ?length_upd_reg; cbn [V set_PC]; (assumption || lia)).
  cbn [bind].
  rewrite set_reg_Done
    by (rewrite ?length_upd_reg; cbn [V set_PC]; (assumption || lia)).
  eexists. split; [reflexivity|].
  rewrite !reg_upd_reg
    by (rewrite ?length_upd_reg; cbn [V set_PC]; (assumption || lia)).
  change (reg (set_PC ?p s)) with (reg s).
  replace (15 =? x) with false by lia. replace (x =? 15) with false by lia.
  rewrite !Z.eqb_refl.
  repeat split; try (destruct (Z.geb_spec (reg s y) (reg s x)); lia).
  intros Hy15. now replace (y =? 15) with false by lia.
Qed.

Lemma subn_borrow_flag_witness :
  exists s', emulateCycle 0 (after 2 Demo.subn_v0_v1) = Done s' /\
    (reg s' 0xF = 1 <-> reg (after 2 Demo.subn_v0_v1) 1 >= reg (after 2 Demo.subn_v0_v1) 0) /\
    (reg s' 0xF = 0 <-> reg (after 2 Demo.subn_v0_v1) 1 < reg (after 2 Demo.subn_v0_v1) 0) /\
    (1 <> 0xF -> reg s' 0 = (reg (after 2 Demo.subn_v0_v1) 1 - reg (after 2 Demo.subn_v0_v1) 0) mod 256).
Proof.
  apply (subn_borrow_flag 0 (after 2 Demo.subn_v0_v1) 0 1).
  - concrete.
  - concrete.
  - concrete.
  - concrete.
  - concrete.
Defined.

Lemma ticks_frame (n : nat) (s : Chip8) :
  memory (ticks n s) = memory s /\ PC (ticks n s) = PC s /\
  V (ticks n s) = V s /\ I (ticks n s) = I s /\ gfx (ticks n s) = gfx s /\
  keys (ticks n s) = keys s /\ stack (ticks n s) = stack s /\
  sp (ticks n s) = sp s.
Proof.
  induction n as [|n IH]; [repeat split|].
  change (ticks (S n) s) with (decrementTimers (ticks n s)).
  unfold decrementTimers.
  destruct (delay_timer (ticks n s) >? 0);
    cbn [sound_timer set_delay_timer];
    destruct (sound_timer (ticks n s) >? 0); cbn; exact IH.
Qed.

Lemma timers_of_ticks (n : nat) (s : Chip8) :
  0 <= delay_timer s < 256 -> 0 <= sound_timer s < 256 ->
  delay_timer (ticks n s) = Z.max (delay_timer s - Z.of_nat n) 0 /\
  sound_timer (ticks n s) = Z.max (sound_timer s - Z.of_nat n) 0.
Proof.
  intros Hd Hs. induction n as [|n [IHd IHs]].
  - change (ticks 0 s) with s. lia.
  - change (ticks (S n) s) with (decrementTimers (ticks n s)).
    rewrite decrementTimers_delay, decrementTimers_sound by lia. lia.
Qed.

(** X16: a sound counter of N keeps the beep flag raised for N ticks: after
    the tick number n + 1 the flag tells whether the counter was above n at
    the start. *)
Theorem sound_flag_lasts_as_long_as_counter (n : nat) (s : Chip8) :
  0 <= sound_timer s < 256 -> 0 <= delay_timer s < 256 ->
  beepFlag (ticks (S n) s) = (sound_timer s >? Z.of_nat n).
Proof.
  intros Hs Hd. change (ticks (S n) s) with (decrementTimers (ticks n s)).
  rewrite decrementTimers_beepFlag.
  rewrite (proj2 (timers_of_ticks n s Hd Hs)).
  destruct (Z.gtb_spec (sound_timer s) (Z.of_nat n));
    destruct (Z.gtb_spec (Z.max (sound_timer s - Z.of_nat n) 0) 0); lia.
Qed.

Lemma sound_flag_lasts_as_long_as_counter_witness :
  beepFlag (ticks (S 2%nat) (after 3 Rom.timers_3)) = (sound_timer (after 3 Rom.timers_3) >? Z.of_nat 2%nat).
Proof.
  apply (sound_flag_lasts_as_long_as_counter 2%nat (after 3 Rom.timers_3)).
  - concrete.
  - concrete.
Defined.

(** X17: the delay timer read back.  After Fx15 stored Vx in the delay
    timer, n ticks later Fy07 loads max(Vx - n, 0) into Vy. *)
Theorem delay_timer_round_trip (rnd rnd' : Z) (n : nat) (s s1 : Chip8)
  (x y : Z) :
  wf s -> 0 <= x < 16 -> 0 <= y < 16 ->
  fetch s = Done (opc 0xF x 1 5) -> emulateCycle rnd s = Done s1 ->
  fetch s1 = Done (opc 0xF y 0 7) ->
  exists s2, emulateCycle rnd' (ticks n s1) = Done s2 /\
    reg s2 y = Z.max (reg s x - Z.of_nat n) 0.
Proof.
  intros Hwf Hx Hy Hf Hrun Hf1.
  pose proof (reg_u8 s x Hwf Hx) as Hr.
  pose proof (proj1 (is_u8_range _) (wf_sound_timer s Hwf)) as Hst.
  rewrite (emulateCycle_fetched rnd _ s Hf), execute_Fx15 in Hrun
    by assumption.
  rewrite get_reg_Done in Hrun by (cbn [V set_PC]; (apply Hwf || lia)).
  cbn [bind] in Hrun. injection Hrun as <-.
  change (reg (set_PC ?p s) x) with (reg s x) in *.
  set (s1 := set_delay_timer (reg s x) (set_PC (u16 (PC s + 2)) s)) in *.
  destruct (ticks_frame n s1) as (Hm & HPC & HV & _).
  assert (Hfn : fetch (ticks n s1) = Done (opc 0xF y 0 7)).
  { unfold fetch, get_mem in *. now rewrite Hm, HPC. }
  rewrite (emulateCycle_fetched rnd' _ _ Hfn), execute_Fx07 by assumption.
  rewrite set_reg_Done
    by (cbn [V set_PC]; rewrite ?HV; cbn [V s1 set_delay_timer set_PC];
        (apply Hwf || lia)).
  eexists. split; [reflexivity|].
  rewrite reg_upd_reg
    by (cbn [V set_PC]; rewrite ?HV; cbn [V s1 set_delay_timer set_PC];
        (apply Hwf || lia)).
  rewrite Z.eqb_refl. cbn [delay_timer set_PC].
  now rewrite (proj1 (timers_of_ticks n s1 Hr Hst)).
Qed.

Lemma delay_timer_round_trip_witness :
  exists s2, emulateCycle 0 (ticks 2%nat (after 2 Demo.delay_3)) = Done s2 /\
    reg s2 1 = Z.max (reg (after 1 Demo.delay_3) 0 - Z.of_nat 2%nat) 0.
Proof.
  apply (delay_timer_round_trip 0 0 2%nat (after 1 Demo.delay_3) (after 2 Demo.delay_3) 0 1).
  - concrete.
  - concrete.
  - concrete.
  - concrete.
  - concrete.
  - concrete.
Defined.

(** ** The keyboard, unknown opcodes and the remaining opcodes *)

(** X18: the keyboard mapping of the host.  Every key code is unmapped
    (-1) or mapped to a key number 0..15, no two key codes map to the same
    key, and every key 0..15 has a key code.  A key event for an unmapped
    code changes nothing; for a mapped code it writes inside the 16 key
    flags, sets that key's flag to the event's value and leaves the other
    flags. *)
Theorem keyboard_maps_onto_keypad :
  (forall code, key_for code = -1 \/ 0 <= key_for code < 16) /\
  (forall c1 c2, key_for c1 <> -1 -> key_for c1 = key_for c2 -> c1 = c2) /\
  (forall k, 0 <= k < 16 -> exists code, key_for code = k) /\
  (forall code pressed s, length (keys s) = 16%nat ->
     (key_for code = -1 -> MapKey code pressed s = Done s) /\
     (key_for code <> -1 ->
      exists s', MapKey code pressed s = Done s' /\
        key s' (key_for code) = pressed /\
        (forall k, 0 <= k -> k <> key_for code -> key s' k = key s k) /\
        length (keys s') = 16%nat)).
Proof.
  pose (code_for := fun k : Z =>
          match k with
          | 0 => 88 | 1 => 49 | 2 => 50 | 3 => 51 | 4 => 81 | 5 => 87
          | 6 => 69 | 7 => 65 | 8 => 83 | 9 => 68 | 10 => 90 | 11 => 67
          | 12 => 52 | 13 => 82 | 14 => 70 | 15 => 86 | _ => 0
          end).
  assert (Hrange : forall code, key_for code = -1 \/ 0 <= key_for code < 16).
  { intros code. unfold key_for. split_matches; lia. }
  assert (Hinv : forall code, key_for code <> -1 ->
            code_for (key_for code) = code).
  { intros code. unfold key_for. split_matches;
      intros Hk; solve [reflexivity | exfalso; apply Hk; reflexivity]. }
  split; [exact Hrange|]. split; [|split].
  - intros c1 c2 H1 Heq. rewrite <- (Hinv c1 H1), Heq.
    apply Hinv. now rewrite <- Heq.
  - intros k Hk. exists (code_for k).
    assert (Hcases : k = 0 \/ k = 1 \/ k = 2 \/ k = 3 \/ k = 4 \/ k = 5
                     \/ k = 6 \/ k = 7 \/ k = 8 \/ k = 9 \/ k = 10 \/ k = 11
                     \/ k = 12 \/ k = 13 \/ k = 14 \/ k = 15) by lia.
    repeat (destruct Hcases as [-> | Hcases]; [reflexivity|]).
    now subst k.
  - intros code pressed s Hlen. unfold MapKey. cbv zeta.
    destruct (Hrange code) as [Hno | Hin].
    + rewrite Hno. split; [reflexivity | intros Hc; now contradict Hc].
    + split; [intros Hc; lia|]. intros _.
      replace (key_for code =? -1) with false by lia. cbn [negb].
      rewrite wr_Done by lia. cbn [bind]. eexists. split; [reflexivity|].
      unfold key. cbn [keys set_keys]. split; [|split].
      * apply list_lookup_total_insert_eq. lia.
      * intros k Hk Hne. apply list_lookup_total_insert_ne. lia.
      * now rewrite length_insert.
Qed.

Lemma keyboard_maps_onto_keypad_witness :
  exists s', MapKey 65 true (reset Chip8_new) = Done s' /\
    key s' (key_for 65) = true /\
    (forall k, 0 <= k -> k <> key_for 65 ->
       key s' k = key (reset Chip8_new) k) /\
    length (keys s') = 16%nat.
Proof.
  destruct keyboard_maps_onto_keypad as (_ & _ & _ & Hmap).
  destruct (Hmap 65 true (reset Chip8_new)) as [_ Hset].
  - vm_compute. reflexivity.
  - apply Hset. vm_compute. discriminate.
Defined.

Lemma fetch_range (s : Chip8) (op : Z) : fetch s = Done op -> 0 <= op < 65536.
Proof.
  unfold fetch. intros Hf. apply bind_Done in Hf as (hi & _ & Hf).
  apply bind_Done in Hf as (lo & _ & Hf). injection Hf as <-.
  apply u16_range.
Qed.

(** X19: opcodes the switch does not know only advance PC by 2: 0nnn other
    than 00E0 and 00EE, 8xyn with n in 8..D or F, Exnn other than Ex9E and
    ExA1, and Fxnn outside 07, 0A, 15, 18, 1E, 29, 33, 55, 65. *)
Theorem unknown_opcodes_only_advance (rnd : Z) (s : Chip8) (op : Z) :
  wf s -> fetch s = Done op ->
  (op / 4096 = 0 /\ op <> 0x00E0 /\ op <> 0x00EE) \/
  (op / 4096 = 8 /\ 8 <= op mod 16 /\ op mod 16 <> 0xE) \/
  (op / 4096 = 0xE /\ op mod 256 <> 0x9E /\ op mod 256 <> 0xA1) \/
  (op / 4096 = 0xF /\ op mod 256 <> 0x07 /\ op mod 256 <> 0x0A /\
   op mod 256 <> 0x15 /\ op mod 256 <> 0x18 /\ op mod 256 <> 0x1E /\
   op mod 256 <> 0x29 /\ op mod 256 <> 0x33 /\ op mod 256 <> 0x55 /\
   op mod 256 <> 0x65) ->
  emulateCycle rnd s = Done (set_PC (PC s + 2) s).
Proof.
  intros Hwf Hf Hop. pose proof (fetch_range s op Hf) as Hr.
  rewrite (emulateCycle_fetched rnd _ s Hf), (advanced_PC s _ Hwf Hf).
  unfold execute. cbv zeta. rewrite decode_class, decode_n, decode_nn.
  rewrite (Z.mod_small (op / 4096)) by (Z.div_mod_to_equations; lia).
  destruct Hop as [(Hc & H1 & H2) | [(Hc & H1 & H2) | [(Hc & H1 & H2) | Hop]]].
  - rewrite Hc. cbv beta iota.
    replace (op =? 224) with false by lia.
    now replace (op =? 238) with false by lia.
  - rewrite Hc. cbv beta iota.
    pose proof (Z.mod_pos_bound op 16 ltac:(lia)) as Hn.
    revert H1 H2 Hn. generalize (op mod 16) as n. intros n H1 H2 Hn.
    assert (Hcases : n = 8 \/ n = 9 \/ n = 10 \/ n = 11 \/ n = 12 \/ n = 13
                     \/ n = 15) by lia.
    repeat (destruct Hcases as [-> | Hcases]; [reflexivity|]).
    now subst n.
  - rewrite Hc. cbv beta iota.
    replace (op mod 256 =? 158) with false by lia.
    now replace (op mod 256 =? 161) with false by lia.
  - destruct Hop as (Hc & Hnn). rewrite Hc. cbv beta iota.
    revert Hnn. generalize (op mod 256) as nn. intros nn.
    split_matches; intros Hnn; solve [reflexivity | exfalso; lia].
Qed.

Lemma unknown_opcodes_only_advance_witness :
  emulateCycle 0 (boot Demo.sys_0)
  = Done (set_PC (PC (boot Demo.sys_0) + 2) (boot Demo.sys_0)).
Proof.
  apply (unknown_opcodes_only_advance 0 (boot Demo.sys_0) 0).
  - concrete.
  - concrete.
  - left. vm_compute. easy.
Defined.

Section SkipDispatch.
Variables (rnd x y n : Z) (s : Chip8).
Hypothesis Hx : 0 <= x < 16.
Hypothesis Hy : 0 <= y < 16.
Hypothesis Hn : 0 <= n < 16.

Lemma execute_5xyn :
  execute rnd (opc 5 x y n) s =
  (vx <- get_reg x s ;; vy <- get_reg y s ;; Done (skip_if (vx =? vy) s)).
Proof.
  unfold execute. rewrite opc_class, opc_x, opc_y by lia. reflexivity.
Qed.

Lemma execute_9xyn :
  execute rnd (opc 9 x y n) s =
  (vx <- get_reg x s ;; vy <- get_reg y s ;;
   Done (skip_if (negb (vx =? vy)) s)).
Proof.
  unfold execute. rewrite opc_class, opc_x, opc_y by lia. reflexivity.
Qed.
End SkipDispatch.

Lemma skip_taken (s : Chip8) (op : Z) (b : bool) :
  wf s -> fetch s = Done op ->
  skip_if b (set_PC (PC s + 2) s) = set_PC (PC s + (if b then 4 else 2)) s.
Proof.
  intros Hwf Hf. apply fetch_in_memory in Hf. rewrite (wf_memory s Hwf) in Hf.
  destruct b; [|reflexivity]. unfold skip_if, set_PC, u16. cbn. f_equal.
  rewrite Z.mod_small by lia. lia.
Qed.

(** X22: the conditional skips change PC only.  3xnn advances PC by 4
    when Vx = nn and by 2 otherwise, 4xnn the other way round; 5xyn and 9xyn
    do the same on Vx = Vy, whatever the low nibble n is. *)
Theorem conditional_skips (rnd : Z) (s : Chip8) (x y hi lo : Z) :
  wf s -> 0 <= x < 16 -> 0 <= y < 16 -> 0 <= hi < 16 -> 0 <= lo < 16 ->
  (fetch s = Done (opc 3 x hi lo) ->
   emulateCycle rnd s =
   Done (set_PC (PC s + (if reg s x =? hi * 16 + lo then 4 else 2)) s)) /\
  (fetch s = Done (opc 4 x hi lo) ->
   emulateCycle rnd s =
   Done (set_PC (PC s + (if reg s x =? hi * 16 + lo then 2 else 4)) s)) /\
  (fetch s = Done (opc 5 x y lo) ->
   emulateCycle rnd s =
   Done (set_PC (PC s + (if reg s x =? reg s y then 4 else 2)) s)) /\
  (fetch s = Done (opc 9 x y lo) ->
   emulateCycle rnd s =
   Done (set_PC (PC s + (if reg s x =? reg s y then 2 else 4)) s)).
Proof.
  intros Hwf Hx Hy Hhi Hlo. pose proof (wf_V s Hwf) as HV.
  repeat split; intros Hf; rewrite (emulateCycle_fetched rnd _ s Hf);
    rewrite (advanced_PC s _ Hwf Hf);
    rewrite ?execute_3xnn, ?execute_4xnn, ?execute_5xyn, ?execute_9xyn
      by assumption;
    rewrite !get_reg_Done by (cbn [V set_PC]; (assumption || lia));
    cbn [bind]; change (reg (set_PC ?p s)) with (reg s);
    rewrite (skip_taken s _ _ Hwf Hf), ?Bool.if_negb; reflexivity.
Qed.

Lemma conditional_skips_witness :
  emulateCycle 0 (boot Demo.se_v0_0) =
  Done (set_PC (PC (boot Demo.se_v0_0)
                + (if reg (boot Demo.se_v0_0) 0 =? 0 * 16 + 0 then 4 else 2))
          (boot Demo.se_v0_0)).
Proof.
  destruct (conditional_skips 0 (boot Demo.se_v0_0) 0 0 0 0) as [Hse _];
    [concrete .. |].
  apply Hse. concrete.
Defined.

(** X23: 00E0 leaves every display cell off and the draw flag raised,
    advances PC by 2 and changes no register, no memory and not I. *)
Theorem clear_display (rnd : Z) (s : Chip8) :
  wf s -> fetch s = Done 0x00E0 ->
  exists s', emulateCycle rnd s = Done s' /\
    (forall j, 0 <= j < 2048 -> pixel s' j = false) /\
    drawFlag s' = true /\ V s' = V s /\ memory s' = memory s /\
    I s' = I s /\ PC s' = PC s + 2.
Proof.
  intros Hwf Hf. rewrite (emulateCycle_fetched rnd _ s Hf).
  rewrite (advanced_PC s _ Hwf Hf).
  change (execute rnd 224 (set_PC (PC s + 2) s))
    with (Done (set_drawFlag true
                  (set_gfx (replicate (length (gfx s)) false)
                     (set_PC (PC s + 2) s)))).
  eexists. split; [reflexivity|]. repeat split.
  intros j Hj. unfold pixel. cbn [gfx set_gfx set_drawFlag].
  apply lookup_total_replicate_2. rewrite (wf_gfx s Hwf). lia.
Qed.

Lemma clear_display_witness :
  exists s', emulateCycle 0 (boot Rom.wait_key) = Done s' /\
    (forall j, 0 <= j < 2048 -> pixel s' j = false) /\
    drawFlag s' = true /\ V s' = V (boot Rom.wait_key) /\ memory s' = memory (boot Rom.wait_key) /\
    I s' = I (boot Rom.wait_key) /\ PC s' = PC (boot Rom.wait_key) + 2.
Proof.
  apply (clear_display 0 (boot Rom.wait_key)).
  - concrete.
  - concrete.
Defined.

(** X20: Cxnn stores the random byte ANDed with nn: Vx is a byte with no
    bit set outside nn, whatever the generator yields, and no other register
    changes. *)
Theorem random_is_masked (rnd : Z) (s : Chip8) (x hi lo : Z) :
  wf s -> 0 <= x < 16 -> 0 <= hi < 16 -> 0 <= lo < 16 ->
  fetch s = Done (opc 0xC x hi lo) ->
  exists s', emulateCycle rnd s = Done s' /\
    reg s' x = Z.land rnd (hi * 16 + lo) /\
    0 <= reg s' x < 256 /\
    (forall i, Z.testbit (hi * 16 + lo) i = false ->
       Z.testbit (reg s' x) i = false) /\
    (forall r, 0 <= r < 16 -> r <> x -> reg s' r = reg s r).
Proof.
  intros Hwf Hx Hhi Hlo Hf. pose proof (wf_V s Hwf) as HV.
  rewrite (emulateCycle_fetched rnd _ s Hf), execute_Cxnn by assumption.
  rewrite set_reg_Done by (cbn [V set_PC]; (assumption || lia)).
  eexists. split; [reflexivity|].
  assert (Hsame : reg (upd_reg x (Z.land rnd (hi * 16 + lo))
                         (set_PC (u16 (PC s + 2)) s)) x
                  = Z.land rnd (hi * 16 + lo)).
  { rewrite reg_upd_reg by (cbn [V set_PC]; (assumption || lia)).
    now rewrite Z.eqb_refl. }
  rewrite Hsame. split; [reflexivity|]. split; [apply land_u8; lia|]. split.
  - intros i Hi. now rewrite Z.land_spec, Hi, andb_false_r.
  - intros r Hr Hne.
    rewrite reg_upd_reg by (cbn [V set_PC]; (assumption || lia)).
    now replace (r =? x) with false by lia.
Qed.

Lemma random_is_masked_witness :
  exists s', emulateCycle 0xAB (boot Demo.rnd_0f) = Done s' /\
    reg s' 0 = Z.land 0xAB (0 * 16 + 0xF) /\
    0 <= reg s' 0 < 256 /\
    (forall i, Z.testbit (0 * 16 + 0xF) i = false ->
       Z.testbit (reg s' 0) i = false) /\
    (forall r, 0 <= r < 16 -> r <> 0 -> reg s' r = reg (boot Demo.rnd_0f) r).
Proof.
  apply (random_is_masked 0xAB (boot Demo.rnd_0f) 0 0 0xF).
  - concrete.
  - concrete.
  - concrete.
  - concrete.
  - concrete.
Defined.

Lemma store_regs_fault (cnt : nat) : forall lo s,
  length (V s) = 16%nat -> length (memory s) = 4096%nat ->
  0 <= lo -> lo + Z.of_nat cnt <= 16 -> 0 <= I s ->
  (0 < cnt)%nat -> 4096 < I s + lo + Z.of_nat cnt ->
  for_loop cnt lo (fun i s => v <- get_reg i s ;; set_mem (I s + i) v s) s
  = Undefined (OutOfBounds Memory (Z.max (I s + lo) 4096)).
Proof.
  induction cnt as [|c IH]; intros lo s HV Hm Hlo Hhi HI Hpos Hend; [lia|].
  cbn [for_loop]. rewrite get_reg_Done by (assumption || lia). cbn [bind].
  unfold set_mem at 1.
  destruct (Z.le_gt_cases 4096 (I s + lo)) as [Hout | Hin].
  - rewrite wr_Undefined by lia. cbn [bind]. now rewrite Z.max_l by lia.
  - rewrite wr_Done by lia. cbn [bind].
    rewrite IH; cbn [V I memory set_memory]; rewrite ?length_insert;
      try (assumption || lia).
    do 2 f_equal. lia.
Qed.

Lemma load_regs_fault (cnt : nat) : forall lo s,
  length (V s) = 16%nat -> length (memory s) = 4096%nat ->
  0 <= lo -> lo + Z.of_nat cnt <= 16 -> 0 <= I s ->
  (0 < cnt)%nat -> 4096 < I s + lo + Z.of_nat cnt ->
  for_loop cnt lo (fun i s => v <- get_mem (I s + i) s ;; set_reg i v s) s
  = Undefined (OutOfBounds Memory (Z.max (I s + lo) 4096)).
Proof.
  induction cnt as [|c IH]; intros lo s HV Hm Hlo Hhi HI Hpos Hend; [lia|].
  cbn [for_loop]. unfold get_mem at 1.
  destruct (Z.le_gt_cases 4096 (I s + lo)) as [Hout | Hin].
  - rewrite rd_Undefined by lia. cbn [bind]. now rewrite Z.max_l by lia.
  - rewrite rd_Done by lia. cbn [bind].
    rewrite set_reg_Done by (assumption || lia). cbn [bind].
    rewrite IH; cbn [V I memory upd_reg set_V]; rewrite ?length_insert;
      try (assumption || lia).
    do 2 f_equal. lia.
Qed.

(** X21: I is not masked to the memory.  Fx55 and Fx65 with I + x at 4096
    or more, and Fx33 with I + 2 at 4096 or more, access the memory out of
    bounds, at I itself or at address 4096. *)
Theorem memory_opcodes_fault_past_end (rnd : Z) (s : Chip8) (x : Z) :
  wf s -> 0 <= x < 16 ->
  (fetch s = Done (opc 0xF x 5 5) -> 4096 <= I s + x ->
   emulateCycle rnd s = Undefined (OutOfBounds Memory (Z.max (I s) 4096))) /\
  (fetch s = Done (opc 0xF x 6 5) -> 4096 <= I s + x ->
   emulateCycle rnd s = Undefined (OutOfBounds Memory (Z.max (I s) 4096))) /\
  (fetch s = Done (opc 0xF x 3 3) -> 4096 <= I s + 2 ->
   emulateCycle rnd s = Undefined (OutOfBounds Memory (Z.max (I s) 4096))).
Proof.
  intros Hwf Hx. pose proof (proj1 (is_u16_range _) (wf_I s Hwf)) as HI.
  pose proof (wf_memory s Hwf) as Hm. pose proof (wf_V s Hwf) as HV.
  split; [|split]; intros Hf Hout; rewrite (emulateCycle_fetched rnd _ s Hf).
  - rewrite execute_Fx55 by assumption. unfold LD_I_Vx.
    rewrite store_regs_fault by (cbn [V I memory set_PC]; (assumption || lia)).
    cbn [bind I set_PC]. do 3 f_equal. lia.
  - rewrite execute_Fx65 by assumption. unfold LD_Vx_I.
    rewrite load_regs_fault by (cbn [V I memory set_PC]; (assumption || lia)).
    cbn [bind I set_PC]. do 3 f_equal. lia.
  - rewrite execute_Fx33 by assumption. unfold LD_B_Vx.
    rewrite get_reg_Done by (cbn [V set_PC]; (assumption || lia)).
    cbn [bind]. unfold set_mem at 1. cbn [I memory set_PC].
    destruct (Z.le_gt_cases 4096 (I s)) as [H0 | H0].
    { rewrite wr_Undefined by lia. cbn [bind]. now rewrite Z.max_l by lia. }
    rewrite wr_Done by lia. cbn [bind].
    rewrite get_reg_Done by (cbn [V set_PC set_memory]; (assumption || lia)).
    cbn [bind]. unfold set_mem at 1. cbn [I memory set_PC set_memory].
    destruct (Z.le_gt_cases 4096 (I s + 1)) as [H1 | H1].
    { rewrite wr_Undefined by (rewrite length_insert; lia). cbn [bind].
      do 3 f_equal. lia. }
    rewrite wr_Done by (rewrite length_insert; lia). cbn [bind].
    rewrite get_reg_Done by (cbn [V set_PC set_memory]; (assumption || lia)).
    cbn [bind]. unfold set_mem. cbn [I memory set_PC set_memory].
    rewrite wr_Undefined by (rewrite !length_insert; lia). cbn [bind].
    do 3 f_equal. lia.
Qed.

Lemma memory_opcodes_fault_past_end_witness :
  emulateCycle 0 (after 1 Demo.store_past_end) =
  Undefined (OutOfBounds Memory (Z.max (I (after 1 Demo.store_past_end)) 4096)).
Proof.
  destruct (memory_opcodes_fault_past_end 0 (after 1 Demo.store_past_end) 1)
    as [Hstore _]; [concrete .. |].
  apply Hstore; concrete.
Defined.

(** X25: the additions that set no flag.  7xnn leaves Vx = (Vx + nn) mod
    256 and every other register, VF included, as it was, also when the sum
    overflows; Fx1E leaves I = (I + Vx) mod 65536 (so I can leave the 4096
    bytes) and every register as it was. *)
Theorem additions_without_flag (rnd : Z) (s : Chip8) (x hi lo : Z) :
  wf s -> 0 <= x < 16 -> 0 <= hi < 16 -> 0 <= lo < 16 ->
  (fetch s = Done (opc 7 x hi lo) ->
   exists s', emulateCycle rnd s = Done s' /\
     reg s' x = (reg s x + (hi * 16 + lo)) mod 256 /\
     (forall r, 0 <= r < 16 -> r <> x -> reg s' r = reg s r)) /\
  (fetch s = Done (opc 0xF x 1 0xE) ->
   exists s', emulateCycle rnd s = Done s' /\
     I s' = (I s + reg s x) mod 65536 /\ V s' = V s).
Proof.
  intros Hwf Hx Hhi Hlo. pose proof (wf_V s Hwf) as HV.
  split; intros Hf; rewrite (emulateCycle_fetched rnd _ s Hf).
  - rewrite execute_7xnn by assumption.
    rewrite get_reg_Done by (cbn [V set_PC]; (assumption || lia)).
    cbn [bind].
    rewrite set_reg_Done by (cbn [V set_PC]; (assumption || lia)).
    eexists. split; [reflexivity|].
    change (reg (set_PC ?p s) x) with (reg s x). split.
    + rewrite reg_upd_reg by (cbn [V set_PC]; (assumption || lia)).
      now rewrite Z.eqb_refl.
    + intros r Hr Hne.
      rewrite reg_upd_reg by (cbn [V set_PC]; (assumption || lia)).
      now replace (r =? x) with false by lia.
  - rewrite execute_Fx1E by assumption.
    rewrite get_reg_Done by (cbn [V set_PC]; (assumption || lia)).
    cbn [bind]. eexists. split; [reflexivity|]. split; reflexivity.
Qed.

Lemma additions_without_flag_witness :
  exists s', emulateCycle 0 (boot Demo.add_ff) = Done s' /\
    reg s' 0 = (reg (boot Demo.add_ff) 0 + (0xF * 16 + 0xF)) mod 256 /\
    (forall r, 0 <= r < 16 -> r <> 0 -> reg s' r = reg (boot Demo.add_ff) r).
Proof.
  destruct (additions_without_flag 0 (boot Demo.add_ff) 0 0xF 0xF)
    as [Hadd _]; [concrete .. |].
  apply Hadd. concrete.
Defined.

(** X24: the font.  After any load that succeeds the 80 font bytes sit at
    0x050..0x09F.  Fx29 sets I to 0x050 + 5 * (Vx mod 16) and changes
    neither memory nor registers; with the font still in place the five
    bytes at I are the rows of the glyph of the digit Vx mod 16. *)
Theorem font_glyphs (rnd : Z) :
  (forall bytes s j, Z.of_nat (length bytes) <= 3584 -> 0 <= j < 80 ->
     mem (snd (loadROM (Some bytes) s)) (0x050 + j) = font !!! Z.to_nat j) /\
  (forall s x, wf s -> 0 <= x < 16 -> fetch s = Done (opc 0xF x 2 9) ->
     exists s', emulateCycle rnd s = Done s' /\
       I s' = 0x050 + 5 * (reg s x mod 16) /\
       memory s' = memory s /\ V s' = V s /\
       ((forall j, 0 <= j < 80 -> mem s (0x050 + j) = font !!! Z.to_nat j) ->
        forall r, 0 <= r < 5 ->
          mem s' (I s' + r) = font !!! Z.to_nat (5 * (reg s x mod 16) + r))).
Proof.
  split.
  - intros bytes s j Hlen Hj. unfold loadROM.
    replace (Z.of_nat (length bytes) >? 4096 - 512) with false by lia.
    cbn [snd]. unfold mem. cbn [memory set_memory].
    rewrite store_from_outside by lia. rewrite memory_reset.
    rewrite store_from_inside
      by (change (length font) with 80%nat; rewrite ?length_replicate; lia).
    f_equal. lia.
  - intros s x Hwf Hx Hf.
    rewrite (emulateCycle_fetched rnd _ s Hf), execute_Fx29 by assumption.
    rewrite get_reg_Done by (cbn [V set_PC]; (apply Hwf || lia)).
    cbn [bind]. eexists. split; [reflexivity|].
    change (reg (set_PC ?p s) x) with (reg s x). cbn [I set_I].
    change 15 with (Z.ones 4). rewrite Z.land_ones by lia.
    change (2 ^ 4) with 16.
    pose proof (Z.mod_pos_bound (reg s x) 16 ltac:(lia)).
    split; [lia|]. split; [reflexivity|]. split; [reflexivity|].
    intros Hfont r Hr. change (mem (set_I ?i (set_PC ?p s))) with (mem s).
    replace (80 + reg s x mod 16 * 5 + r)
      with (80 + (5 * (reg s x mod 16) + r)) by lia.
    apply Hfont. lia.
Qed.

Lemma font_glyphs_witness :
  exists s', emulateCycle 0 (boot Demo.glyph_0) = Done s' /\
    I s' = 0x050 + 5 * (reg (boot Demo.glyph_0) 0 mod 16) /\
    forall r, 0 <= r < 5 ->
      mem s' (I s' + r)
      = font !!! Z.to_nat (5 * (reg (boot Demo.glyph_0) 0 mod 16) + r).
Proof.
  destruct (font_glyphs 0) as [Hload Hglyph].
  destruct (Hglyph (boot Demo.glyph_0) 0)
    as (s' & Hrun & HI & _ & _ & Hrows); [concrete .. |].
  exists s'. split; [exact Hrun|]. split; [exact HI|].
  apply Hrows. intros j Hj. unfold boot. apply Hload; [|exact Hj].
  vm_compute. discriminate.
Defined.

(** ** Register operations and jumps *)

Section LogicDispatch.
Variables (rnd x y : Z) (s : Chip8).
Hypothesis Hx : 0 <= x < 16.
Hypothesis Hy : 0 <= y < 16.

Ltac dispatch :=
  unfold execute;
  rewrite ?opc_class, ?opc_x, ?opc_y, ?opc_n, ?opc_nn, ?opc_nnn by lia;
  reflexivity.

Lemma execute_8xy0 :
  execute rnd (opc 8 x y 0) s = (vy <- get_reg y s ;; set_reg x vy s).
Proof. dispatch. Qed.

Lemma execute_8xy1 :
  execute rnd (opc 8 x y 1) s =
  (vx <- get_reg x s ;; vy <- get_reg y s ;; set_reg x (Z.lor vx vy) s).
Proof. dispatch. Qed.

Lemma execute_8xy2 :
  execute rnd (opc 8 x y 2) s =
  (vx <- get_reg x s ;; vy <- get_reg y s ;; set_reg x (Z.land vx vy) s).
Proof. dispatch. Qed.

Lemma execute_8xy3 :
  execute rnd (opc 8 x y 3) s =
  (vx <- get_reg x s ;; vy <- get_reg y s ;; set_reg x (Z.lxor vx vy) s).
Proof. dispatch. Qed.

Lemma execute_1nnn (lo : Z) :
  0 <= lo < 16 ->
  execute rnd (opc 1 x y lo) s = Done (set_PC (x * 256 + y * 16 + lo) s).
Proof. intros Hlo. dispatch. Qed.

Lemma execute_Bnnn (lo : Z) :
  0 <= lo < 16 ->
  execute rnd (opc 0xB x y lo) s =
  (v0 <- get_reg 0 s ;; Done (set_PC (u16 (x * 256 + y * 16 + lo + v0)) s)).
Proof. intros Hlo. dispatch. Qed.
End LogicDispatch.

(** X26: the register operations 8xy0..8xy3 store Vy, Vx OR Vy, Vx AND Vy
    and Vx XOR Vy in Vx and change no other register: VF is not reset (and
    is the destination only when x is 0xF). *)
Theorem logic_ops_keep_flag (rnd : Z) (s : Chip8) (x y : Z) (f : Z -> Z -> Z)
  (n : Z) :
  wf s -> 0 <= x < 16 -> 0 <= y < 16 ->
  (n = 0 /\ f = (fun _ vy => vy)) \/ (n = 1 /\ f = Z.lor) \/
  (n = 2 /\ f = Z.land) \/ (n = 3 /\ f = Z.lxor) ->
  fetch s = Done (opc 8 x y n) ->
  exists s', emulateCycle rnd s = Done s' /\
    reg s' x = f (reg s x) (reg s y) /\
    (forall r, 0 <= r < 16 -> r <> x -> reg s' r = reg s r) /\
    PC s' = PC s + 2.
Proof.
  intros Hwf Hx Hy Hop Hf. pose proof (wf_V s Hwf) as HV.
  rewrite (emulateCycle_fetched rnd _ s Hf), (advanced_PC s _ Hwf Hf).
  destruct Hop as [[-> ->] | [[-> ->] | [[-> ->] | [-> ->]]]];
    rewrite ?execute_8xy0, ?execute_8xy1, ?execute_8xy2, ?execute_8xy3
      by assumption;
    rewrite !get_reg_Done by (cbn [V set_PC]; (assumption || lia));
    cbn [bind];
    rewrite set_reg_Done by (cbn [V set_PC]; (assumption || lia));
    (eexists; split; [reflexivity|]);
    change (reg (set_PC ?p s)) with (reg s);
    (split; [|split; [|reflexivity]]);
    try (rewrite reg_upd_reg by (cbn [V set_PC]; (assumption || lia));
         now rewrite Z.eqb_refl);
    intros r Hr Hne;
    rewrite reg_upd_reg by (cbn [V set_PC]; (assumption || lia));
    now replace (r =? x) with false by lia.
Qed.

Lemma logic_ops_keep_flag_witness :
  exists s', emulateCycle 0 (after 2 Demo.or_v0_v1) = Done s' /\
    reg s' 0 = Z.lor (reg (after 2 Demo.or_v0_v1) 0)
                 (reg (after 2 Demo.or_v0_v1) 1) /\
    (forall r, 0 <= r < 16 -> r <> 0 ->
       reg s' r = reg (after 2 Demo.or_v0_v1) r) /\
    PC s' = PC (after 2 Demo.or_v0_v1) + 2.
Proof.
  apply (logic_ops_keep_flag 0 (after 2 Demo.or_v0_v1) 0 1 Z.lor 1).
  - concrete.
  - concrete.
  - concrete.
  - right. left. split; reflexivity.
  - concrete.
Defined.

(** X27: the jumps.  1nnn sets PC to nnn; Bnnn sets PC to nnn + V0 (always
    V0) without masking it to the memory, changing nothing else; when that
    sum is 4095 or more the next cycle reads outside the memory. *)
Theorem jumps_are_not_masked (rnd : Z) (s : Chip8) (a b c : Z) :
  wf s -> 0 <= a < 16 -> 0 <= b < 16 -> 0 <= c < 16 ->
  (fetch s = Done (opc 1 a b c) ->
   emulateCycle rnd s = Done (set_PC (a * 256 + b * 16 + c) s)) /\
  (fetch s = Done (opc 0xB a b c) ->
   emulateCycle rnd s = Done (set_PC (a * 256 + b * 16 + c + reg s 0) s) /\
   (4095 <= a * 256 + b * 16 + c + reg s 0 ->
    forall rnd' s', emulateCycle rnd s = Done s' ->
      exists i, emulateCycle rnd' s' = Undefined (OutOfBounds Memory i))).
Proof.
  intros Hwf Ha Hb Hc. pose proof (reg_u8 s 0 Hwf ltac:(lia)) as Hr.
  pose proof (wf_memory s Hwf) as Hm.
  split; intros Hf; rewrite (emulateCycle_fetched rnd _ s Hf).
  - now rewrite execute_1nnn by assumption.
  - rewrite execute_Bnnn by assumption.
    rewrite get_reg_Done by (cbn [V set_PC]; (apply Hwf || lia)).
    cbn [bind]. change (reg (set_PC ?p s) 0) with (reg s 0).
    unfold u16. rewrite Z.mod_small by lia. split; [reflexivity|].
    intros Hout rnd' s' Hs'. injection Hs' as <-.
    unfold emulateCycle, fetch, get_mem. cbn [PC memory set_PC].
    destruct (Z.eq_dec (a * 256 + b * 16 + c + reg s 0) 4095) as [Heq | Hne].
    + rewrite Heq. rewrite rd_Done by lia. cbn [bind].
      rewrite rd_Undefined by lia. now eexists.
    + rewrite rd_Undefined by lia. now eexists.
Qed.

Lemma jumps_are_not_masked_witness :
  emulateCycle 0 (boot Demo.jump_offset) =
  Done (set_PC (0xF * 256 + 0xF * 16 + 0xF + reg (boot Demo.jump_offset) 0)
          (boot Demo.jump_offset)) /\
  exists i, emulateCycle 0 (after 1 Demo.jump_offset)
            = Undefined (OutOfBounds Memory i).
Proof.
  destruct (jumps_are_not_masked 0 (boot Demo.jump_offset) 0xF 0xF 0xF)
    as [_ Hoffset]; [concrete .. |].
  destruct Hoffset as [Hpc Hnext]; [concrete|].
  split; [exact Hpc|]. clear Hpc.
  apply Hnext; [vm_compute; easy | vm_compute; reflexivity].
Defined.
